(** * A shallow embedding of the ECS150-FS file system

    The embedding follows the complete implementation of libfs/fs.c (the
    copy under libfs/ has only [fs_mount], [fs_umount] and [fs_info]; the
    other operations are stubs there).  [fs_info] and [fs_ls] print and
    change nothing; the text they print is part of their result.

    The C code keeps its state in module globals; here the globals and the
    block device form one record that every operation takes and returns.
    The platform is the one the code was written for: [int] is 32 bits,
    [size_t] is 64 bits, structures are packed and little-endian.

    Undefined behaviour of the C program (an access outside an array, a
    string read past its buffer) is the outcome [Fault]; a loop that has
    not finished when its fuel is used up is the outcome [Timeout]. *)

From stdpp Require Import base list numbers strings pretty.
From Stdlib Require Import ZArith Lia.
Open Scope Z_scope.

(** ** Constants *)

Definition FAT_EOC : Z := 65535.
Definition SIG_LEN : Z := 8.
Definition NUM_ENTRIES_FAT_BLK : Z := 2048.

(** Modelled from the spec: [BLOCK_SIZE] comes from disk.h, which is not
    among the sources; section 3 fixes the block size at 4096 bytes. *)
Definition BLOCK_SIZE : Z := 4096.

(** Modelled from the spec: [FS_FILENAME_LEN], [FS_FILE_MAX_COUNT] and
    [FS_OPEN_MAX_COUNT] come from fs.h, which is not among the sources;
    section 6.2 gives them as 16, 128 and 32. *)
Definition FS_FILENAME_LEN : Z := 16.
Definition FS_FILE_MAX_COUNT : Z := 128.
Definition FS_OPEN_MAX_COUNT : Z := 32.

Definition specified_signature : list Z := [69; 67; 83; 49; 53; 48; 70; 83].

(** ** Machine integers *)

Definition to_u16 (x : Z) : Z := x mod 65536.
Definition to_u32 (x : Z) : Z := x mod 4294967296.
Definition to_size_t (x : Z) : Z := x mod 18446744073709551616.
(** Conversion to [int]: the value modulo 2^32, read as two's complement. *)
Definition to_int (x : Z) : Z := (x + 2147483648) mod 4294967296 - 2147483648.
Definition INT_MAX : Z := 2147483647.
Definition INT_MIN : Z := -2147483648.

(** ** Outcomes *)

Inductive outcome (A : Type) : Type :=
| Done (a : A)
| Fault
| Timeout.
Arguments Done {A} a.
Arguments Fault {A}.
Arguments Timeout {A}.

Definition bind {A B : Type} (m : outcome A) (k : A -> outcome B) : outcome B :=
  match m with
  | Done a => k a
  | Fault => Fault
  | Timeout => Timeout
  end.

Notation "'let*' x := m 'in' k" := (bind m (fun x => k))
  (at level 10, x name, m at level 100, k at level 200, only parsing).
Notation "'let*' ' p := m 'in' k" := (bind m (fun x => let 'p := x in k))
  (at level 10, p pattern, m at level 100, k at level 200, only parsing).

(** ** Arrays

    A C array is a list; an index is an [int], so it may be negative.
    Reading or writing outside the array is a [Fault]. *)

Definition arr_get {A : Type} (l : list A) (i : Z) : outcome A :=
  if i <? 0 then Fault
  else match l !! Z.to_nat i with
       | Some a => Done a
       | None => Fault
       end.

Definition arr_set {A : Type} (l : list A) (i : Z) (a : A) : outcome (list A) :=
  if (i <? 0) || (Z.of_nat (length l) <=? i) then Fault
  else Done (<[Z.to_nat i := a]> l).

(** A byte that was never written (fresh [malloc] memory, a fresh
    variable-length array). *)
Definition uninit : Z := -1.

(** ** On-disk structures *)

Definition block : Type := list Z.

Record struct_superblock : Type := {
  signature : list Z;
  tot_amt_blks : Z;
  root_dir_blk_idx : Z;
  data_blk_start_idx : Z;
  amt_data_blks : Z;
  num_blks_fat : Z;
  sb_padding : list Z
}.

(** [struct fat_block]: its one member [next_data_blk], 2048 entries. *)
Definition struct_fat_block : Type := list Z.

Record struct_root_dir_entry : Type := {
  filename : list Z;
  size_file : Z;
  idx_first_data_blk : Z;
  padding : list Z
}.

Record struct_file_descriptor : Type := {
  idx_file_root_dir : Z;
  file_descriptor : Z;
  file_offset : Z
}.

Definition empty_FD : struct_file_descriptor :=
  {| idx_file_root_dir := -1; file_descriptor := 0; file_offset := 0 |}.

Definition clean_superblock : struct_superblock :=
  {| signature := replicate 8 0; tot_amt_blks := 0; root_dir_blk_idx := 0;
     data_blk_start_idx := 0; amt_data_blks := 0; num_blks_fat := 0;
     sb_padding := replicate 4079 0 |}.

Definition clean_root_dir_entry : struct_root_dir_entry :=
  {| filename := replicate 16 0; size_file := 0; idx_first_data_blk := 0;
     padding := replicate 10 0 |}.

(** *** Packed little-endian layout *)

Definition byte_at (b : list Z) (k : nat) : Z := nth k b 0.
Definition rd16 (b : list Z) (k : nat) : Z :=
  byte_at b k + 256 * byte_at b (k + 1).
Definition rd32 (b : list Z) (k : nat) : Z :=
  rd16 b k + 65536 * rd16 b (k + 2).
Definition le16 (v : Z) : list Z := [v mod 256; (v / 256) mod 256].
Definition le32 (v : Z) : list Z := le16 (v mod 65536) ++ le16 (v / 65536).

Definition parse_superblock (b : block) : struct_superblock :=
  {| signature := take 8 b;
     tot_amt_blks := rd16 b 8;
     root_dir_blk_idx := rd16 b 10;
     data_blk_start_idx := rd16 b 12;
     amt_data_blks := rd16 b 14;
     num_blks_fat := byte_at b 16;
     sb_padding := drop 17 b |}.

(** [n] little-endian 16-bit words from the front of [b]. *)
Fixpoint parse_u16s (n : nat) (b : list Z) : list Z :=
  match n with
  | O => []
  | S n' => rd16 b 0 :: parse_u16s n' (drop 2 b)
  end.

Definition parse_fat_block (b : block) : struct_fat_block :=
  parse_u16s 2048 b.

Definition serialize_fat_block (f : struct_fat_block) : block :=
  concat (map le16 f).

Definition parse_root_dir_entry (e : list Z) : struct_root_dir_entry :=
  {| filename := take 16 e;
     size_file := rd32 e 16;
     idx_first_data_blk := rd16 e 20;
     padding := take 10 (drop 22 e) |}.

Definition serialize_root_dir_entry (e : struct_root_dir_entry) : list Z :=
  filename e ++ le32 (size_file e) ++ le16 (idx_first_data_blk e) ++ padding e.

Fixpoint parse_entries (n : nat) (b : list Z) : list struct_root_dir_entry :=
  match n with
  | O => []
  | S n' => parse_root_dir_entry (take 32 b) :: parse_entries n' (drop 32 b)
  end.

Definition parse_root_directory (b : block) : list struct_root_dir_entry :=
  parse_entries 128 b.

Definition serialize_root_directory (d : list struct_root_dir_entry) : block :=
  concat (map serialize_root_dir_entry d).

(** ** The block device

    Modelled from the spec: disk.c is not among the sources.  Section 6.1
    gives the interface: a disk is an array of 4096-byte blocks indexed from
    0; [block_disk_open] opens one, and fails when there is none under the
    name or when a disk is open already (the only way [fs_mount] can fail on
    a mounted file system, section 4.1); [block_read] and [block_write]
    exchange one block and fail outside the disk, leaving the buffer or the
    disk as it was.  The device is [None] when no disk is open. *)

Definition device : Type := option (list block).

Definition block_disk_open (found : option (list block)) (dev : device) : Z * device :=
  match dev, found with
  | Some _, _ => (-1, dev)
  | None, None => (-1, None)
  | None, Some img => (0, Some img)
  end.

Definition block_disk_close (dev : device) : Z * device :=
  match dev with
  | None => (-1, None)
  | Some _ => (0, None)
  end.

Definition block_disk_count (dev : device) : Z :=
  match dev with
  | None => -1
  | Some img => Z.of_nat (length img)
  end.

Definition block_read (dev : device) (i : Z) : option block :=
  match dev with
  | None => None
  | Some img => if i <? 0 then None else img !! Z.to_nat i
  end.

Definition block_write (dev : device) (i : Z) (b : block) : device :=
  match dev with
  | None => None
  | Some img => if i <? 0 then Some img else Some (<[Z.to_nat i := b]> img)
  end.

(** ** The state: the module's globals and the device *)

Record fs_state : Type := {
  disk : device;
  superblock : struct_superblock;
  fat : list struct_fat_block;
  root_directory : list struct_root_dir_entry;
  num_open_fds : Z;
  FD : list struct_file_descriptor;
  fs_mounted : Z;
  num_files_root_dir : Z;
  num_avail_data_blks : Z
}.

Definition set_disk (d : device) (st : fs_state) : fs_state :=
  {| disk := d; superblock := superblock st; fat := fat st;
     root_directory := root_directory st; num_open_fds := num_open_fds st;
     FD := FD st; fs_mounted := fs_mounted st;
     num_files_root_dir := num_files_root_dir st;
     num_avail_data_blks := num_avail_data_blks st |}.

Definition set_superblock (s : struct_superblock) (st : fs_state) : fs_state :=
  {| disk := disk st; superblock := s; fat := fat st;
     root_directory := root_directory st; num_open_fds := num_open_fds st;
     FD := FD st; fs_mounted := fs_mounted st;
     num_files_root_dir := num_files_root_dir st;
     num_avail_data_blks := num_avail_data_blks st |}.

Definition set_fat (f : list struct_fat_block) (st : fs_state) : fs_state :=
  {| disk := disk st; superblock := superblock st; fat := f;
     root_directory := root_directory st; num_open_fds := num_open_fds st;
     FD := FD st; fs_mounted := fs_mounted st;
     num_files_root_dir := num_files_root_dir st;
     num_avail_data_blks := num_avail_data_blks st |}.

Definition set_root_directory (d : list struct_root_dir_entry) (st : fs_state) : fs_state :=
  {| disk := disk st; superblock := superblock st; fat := fat st;
     root_directory := d; num_open_fds := num_open_fds st;
     FD := FD st; fs_mounted := fs_mounted st;
     num_files_root_dir := num_files_root_dir st;
     num_avail_data_blks := num_avail_data_blks st |}.

Definition set_num_open_fds (n : Z) (st : fs_state) : fs_state :=
  {| disk := disk st; superblock := superblock st; fat := fat st;
     root_directory := root_directory st; num_open_fds := n;
     FD := FD st; fs_mounted := fs_mounted st;
     num_files_root_dir := num_files_root_dir st;
     num_avail_data_blks := num_avail_data_blks st |}.

Definition set_FD (t : list struct_file_descriptor) (st : fs_state) : fs_state :=
  {| disk := disk st; superblock := superblock st; fat := fat st;
     root_directory := root_directory st; num_open_fds := num_open_fds st;
     FD := t; fs_mounted := fs_mounted st;
     num_files_root_dir := num_files_root_dir st;
     num_avail_data_blks := num_avail_data_blks st |}.

Definition set_fs_mounted (m : Z) (st : fs_state) : fs_state :=
  {| disk := disk st; superblock := superblock st; fat := fat st;
     root_directory := root_directory st; num_open_fds := num_open_fds st;
     FD := FD st; fs_mounted := m;
     num_files_root_dir := num_files_root_dir st;
     num_avail_data_blks := num_avail_data_blks st |}.

Definition set_num_files_root_dir (n : Z) (st : fs_state) : fs_state :=
  {| disk := disk st; superblock := superblock st; fat := fat st;
     root_directory := root_directory st; num_open_fds := num_open_fds st;
     FD := FD st; fs_mounted := fs_mounted st;
     num_files_root_dir := n;
     num_avail_data_blks := num_avail_data_blks st |}.

Definition set_num_avail_data_blks (n : Z) (st : fs_state) : fs_state :=
  {| disk := disk st; superblock := superblock st; fat := fat st;
     root_directory := root_directory st; num_open_fds := num_open_fds st;
     FD := FD st; fs_mounted := fs_mounted st;
     num_files_root_dir := num_files_root_dir st;
     num_avail_data_blks := n |}.

(** The globals before the first mount: zeroed static storage. *)
Definition initial_state : fs_state :=
  {| disk := None; superblock := clean_superblock; fat := [];
     root_directory := replicate 128 clean_root_dir_entry;
     num_open_fds := 0; FD := replicate 32 (Build_struct_file_descriptor 0 0 0);
     fs_mounted := 0; num_files_root_dir := 0; num_avail_data_blks := 0 |}.

(** ** Memory helpers *)

(** [memcpy] out of [src] at [off]: [n] bytes.  Nothing is touched when
    [n] is 0. *)
Definition mem_read (src : list Z) (off n : Z) : outcome (list Z) :=
  if n =? 0 then Done []
  else if (off <? 0) || (n <? 0) || (Z.of_nat (length src) <? off + n) then Fault
  else Done (take (Z.to_nat n) (drop (Z.to_nat off) src)).

(** [memcpy] of [src] into [dst] at [off]. *)
Definition mem_write (dst : list Z) (off : Z) (src : list Z) : outcome (list Z) :=
  if Z.of_nat (length src) =? 0 then Done dst
  else if (off <? 0) || (Z.of_nat (length dst) <? off + Z.of_nat (length src)) then Fault
  else Done (take (Z.to_nat off) dst ++ src
             ++ drop (Z.to_nat off + length src) dst).

(** [block_read(b, &arr[off])]: the status is not looked at, so a failed
    read leaves the buffer as it was. *)
Definition read_into (dev : device) (b : Z) (arr : list Z) (off : Z) : outcome (list Z) :=
  match block_read dev b with
  | None => Done arr
  | Some blk => mem_write arr off blk
  end.

(** Addition of two [int]s; overflow is undefined. *)
Definition int_add (a b : Z) : outcome Z :=
  if (a + b <? INT_MIN) || (INT_MAX <? a + b) then Fault else Done (a + b).

(** [fat[block].next_data_blk[entry]] *)
Definition fat_get (f : list struct_fat_block) (blk entry : Z) : outcome Z :=
  let* b := arr_get f blk in arr_get b entry.

Definition fat_set (f : list struct_fat_block) (blk entry v : Z)
  : outcome (list struct_fat_block) :=
  let* b := arr_get f blk in
  let* b' := arr_set b entry v in
  arr_set f blk b'.

Definition set_filename (n : list Z) (e : struct_root_dir_entry) : struct_root_dir_entry :=
  {| filename := n; size_file := size_file e;
     idx_first_data_blk := idx_first_data_blk e; padding := padding e |}.

Definition set_size_file (n : Z) (e : struct_root_dir_entry) : struct_root_dir_entry :=
  {| filename := filename e; size_file := n;
     idx_first_data_blk := idx_first_data_blk e; padding := padding e |}.

Definition set_idx_first_data_blk (n : Z) (e : struct_root_dir_entry) : struct_root_dir_entry :=
  {| filename := filename e; size_file := size_file e;
     idx_first_data_blk := n; padding := padding e |}.

Definition set_file_offset (n : Z) (d : struct_file_descriptor) : struct_file_descriptor :=
  {| idx_file_root_dir := idx_file_root_dir d;
     file_descriptor := file_descriptor d; file_offset := n |}.

(** ** C strings

    A [char *] argument is the buffer it points to; a read past the end of
    the buffer is a [Fault]. *)

Fixpoint strcmp (a b : list Z) : outcome Z :=
  match a, b with
  | x :: a', y :: b' =>
      if x =? y then (if x =? 0 then Done 0 else strcmp a' b')
      else Done (x - y)
  | _, _ => Fault
  end.

Fixpoint strlen (a : list Z) : outcome Z :=
  match a with
  | [] => Fault
  | x :: a' => if x =? 0 then Done 0 else let* n := strlen a' in Done (n + 1)
  end.

(** The string a buffer holds: the bytes before its first NUL, if it has
    one. *)
Fixpoint name_of (a : list Z) : option (list Z) :=
  match a with
  | [] => None
  | x :: a' => if x =? 0 then Some [] else option_map (cons x) (name_of a')
  end.

(** ** Mounting *)

(** [while (i <= superblock.num_blks_fat) { block_read(i, &(fat[i - 1])); i++; }] *)
Fixpoint read_fat_blocks (n : nat) (i : Z) (dev : device)
    (f : list struct_fat_block) : list struct_fat_block :=
  match n with
  | O => f
  | S n' =>
      let f' := match block_read dev i with
                | Some b => <[Z.to_nat (i - 1) := parse_fat_block b]> f
                | None => f
                end in
      read_fat_blocks n' (i + 1) dev f'
  end.

(** [fs_mount(diskname)]: [found] is the disk image the driver finds under
    [diskname], if any. *)
Definition fs_mount (found : option (list block)) (st : fs_state) : fs_state * Z :=
  let '(r, dev) := block_disk_open found (disk st) in
  if negb (r =? 0) then (st, -1)
  else
    let st := set_disk dev st in
    let st := match block_read dev 0 with
              | Some b => set_superblock (parse_superblock b) st
              | None => st
              end in
    let sb := superblock st in
    if negb (bool_decide (signature sb = specified_signature))
       || negb (tot_amt_blks sb =? block_disk_count dev)
    then (st, -1)
    else
      let nf := Z.to_nat (num_blks_fat sb) in
      let f := read_fat_blocks nf 1 dev (replicate nf (replicate 2048 uninit)) in
      let st := set_fat f st in
      let st := match block_read dev (1 + num_blks_fat sb) with
                | Some b => set_root_directory (parse_root_directory b) st
                | None => st
                end in
      let st := set_FD (replicate 32 empty_FD) st in
      let st := set_fs_mounted 1 st in
      let st := set_num_avail_data_blks (amt_data_blks sb - 1) st in
      (st, 0).

Definition fs_umount (st : fs_state) : fs_state * Z :=
  if (fs_mounted st =? 0) || (0 <? num_open_fds st) then (st, -1)
  else
    let '(r, dev) := block_disk_close (disk st) in
    if negb (r =? 0) then (set_disk dev st, -1)
    else
      let st := set_disk dev st in
      let st := set_superblock clean_superblock st in
      let st := set_fat [] st in
      let st := set_root_directory (replicate 128 clean_root_dir_entry) st in
      let st := set_FD (replicate 32 empty_FD) st in
      let st := set_fs_mounted 0 st in
      let st := set_num_avail_data_blks 0 st in
      (st, 0).

(** ** The root directory *)

(** The loop runs 17 times at most; the 17th pass returns 1. *)
Fixpoint is_invalid_file_from (n : nat) (i : Z) (name : list Z) : outcome Z :=
  match n with
  | O => Done (-1)
  | S n' =>
      if i =? FS_FILENAME_LEN then Done 1
      else
        let* c := arr_get name i in
        if c =? 0 then Done 0 else is_invalid_file_from n' (i + 1) name
  end.

Definition is_invalid_file (name : list Z) : outcome Z :=
  is_invalid_file_from 17 0 name.

(** [for (x = 0; x < FS_FILE_MAX_COUNT; x++) if (!strcmp(filename,
    root_directory[x].filename)) break;] with [n] passes left. *)
Fixpoint find_file_from (n : nat) (x : Z) (name : list Z)
    (dir : list struct_root_dir_entry) : outcome Z :=
  match n with
  | O => Done x
  | S n' =>
      let* e := arr_get dir x in
      let* c := strcmp name (filename e) in
      if c =? 0 then Done x else find_file_from n' (x + 1) name dir
  end.

Definition find_file (name : list Z) (dir : list struct_root_dir_entry) : outcome Z :=
  find_file_from 128 0 name dir.

(** [while (entry < FS_FILE_MAX_COUNT) { if (root_directory[entry].filename[0]
    == '\0') break; entry++; }] *)
Fixpoint first_empty_from (n : nat) (entry : Z)
    (dir : list struct_root_dir_entry) : outcome Z :=
  match n with
  | O => Done entry
  | S n' =>
      let* e := arr_get dir entry in
      let* c := arr_get (filename e) 0 in
      if c =? 0 then Done entry else first_empty_from n' (entry + 1) dir
  end.

(** [for (i = 0; i < (int)strlen(filename); i++) dst[i] = filename[i];] *)
Fixpoint copy_name (n : nat) (i : Z) (src dst : list Z) : outcome (list Z) :=
  match n with
  | O => Done dst
  | S n' =>
      let* c := arr_get src i in
      let* dst' := arr_set dst i c in
      copy_name n' (i + 1) src dst'
  end.

Definition fs_create (name : list Z) (st : fs_state) : outcome (fs_state * Z) :=
  if (fs_mounted st =? 0) || (FS_FILE_MAX_COUNT <=? num_files_root_dir st)
  then Done (st, -1)
  else
    let* inv := is_invalid_file name in
    if negb (inv =? 0) then Done (st, -1)
    else
      let* x := find_file name (root_directory st) in
      if x <? FS_FILE_MAX_COUNT then Done (st, -1)
      else
        let* entry := first_empty_from 128 0 (root_directory st) in
        let* len := strlen name in
        let* e := arr_get (root_directory st) entry in
        let* fn := copy_name (Z.to_nat len) 0 name (filename e) in
        let* fn' := arr_set fn len 0 in
        let e' := set_idx_first_data_blk FAT_EOC
                    (set_size_file 0 (set_filename fn' e)) in
        let* dir' := arr_set (root_directory st) entry e' in
        let st := set_root_directory dir' st in
        let st := set_num_files_root_dir (num_files_root_dir st + 1) st in
        let st := set_disk (block_write (disk st)
                              (root_dir_blk_idx (superblock st))
                              (serialize_root_directory (root_directory st))) st in
        Done (st, 0).

(** [for (int i = 0; i < FS_OPEN_MAX_COUNT; i++) if (FD[i].idx_file_root_dir
    == x) return -1;] *)
Fixpoint file_is_open_from (n : nat) (i : Z) (x : Z)
    (t : list struct_file_descriptor) : outcome bool :=
  match n with
  | O => Done false
  | S n' =>
      let* d := arr_get t i in
      if idx_file_root_dir d =? x then Done true
      else file_is_open_from n' (i + 1) x t
  end.

(** The chain walk of [fs_delete]: every entry before the last is set to 0
    and counted as available again; the walk stops on the [FAT_EOC] entry. *)
Fixpoint free_chain (fuel : nat) (f : list struct_fat_block) (blk entry : Z)
    (avail : Z) : outcome (list struct_fat_block * Z * Z * Z) :=
  match fuel with
  | O => Timeout
  | S fuel' =>
      let* v := fat_get f blk entry in
      if v =? FAT_EOC then Done (f, blk, entry, avail)
      else
        let* f' := fat_set f blk entry 0 in
        free_chain fuel' f' (v / NUM_ENTRIES_FAT_BLK) (v mod NUM_ENTRIES_FAT_BLK)
          (avail + 1)
  end.

(** [while (i <= superblock.num_blks_fat) { block_write(i, &(fat[i - 1])); i++; }] *)
Fixpoint write_fat_blocks (n : nat) (i : Z) (f : list struct_fat_block)
    (dev : device) : outcome device :=
  match n with
  | O => Done dev
  | S n' =>
      let* b := arr_get f (i - 1) in
      write_fat_blocks n' (i + 1) f (block_write dev i (serialize_fat_block b))
  end.

Definition fs_delete (fuel : nat) (name : list Z) (st : fs_state)
  : outcome (fs_state * Z) :=
  if fs_mounted st =? 0 then Done (st, -1)
  else
    let* inv := is_invalid_file name in
    if negb (inv =? 0) then Done (st, -1)
    else
      let* x := find_file name (root_directory st) in
      if FS_FILE_MAX_COUNT <=? x then Done (st, -1)
      else
        let* busy := file_is_open_from 32 0 x (FD st) in
        if busy then Done (st, -1)
        else
          let* e := arr_get (root_directory st) x in
          let* '(f, avail) :=
            (if negb (idx_first_data_blk e =? FAT_EOC) then
               let* '(f, blk, entry, avail) :=
                 free_chain fuel (fat st)
                   (idx_first_data_blk e / NUM_ENTRIES_FAT_BLK)
                   (idx_first_data_blk e mod NUM_ENTRIES_FAT_BLK)
                   (num_avail_data_blks st) in
               let* f' := fat_set f blk entry 0 in
               Done (f', avail)
             else Done (fat st, num_avail_data_blks st)) in
          let* fn := arr_set (filename e) 0 0 in
          let e' := set_idx_first_data_blk FAT_EOC
                      (set_size_file 0 (set_filename fn e)) in
          let* dir' := arr_set (root_directory st) x e' in
          let st := set_num_avail_data_blks avail (set_fat f st) in
          let st := set_root_directory dir' st in
          let nf := num_blks_fat (superblock st) in
          let* dev := write_fat_blocks (Z.to_nat nf) 1 (fat st) (disk st) in
          let dev := block_write dev (1 + nf)
                       (serialize_root_directory (root_directory st)) in
          Done (set_disk dev st, 0).

(** ** The handle table *)

(** [while (FD[fd_idx].file_descriptor != 0) fd_idx++;] the scan has no
    bound of its own and leaves the table when no slot is free. *)
Fixpoint first_free_fd (n : nat) (fd_idx : Z)
    (t : list struct_file_descriptor) : outcome Z :=
  match n with
  | O => Timeout
  | S n' =>
      let* d := arr_get t fd_idx in
      if negb (file_descriptor d =? 0) then first_free_fd n' (fd_idx + 1) t
      else Done fd_idx
  end.

Definition fs_open (name : list Z) (st : fs_state) : outcome (fs_state * Z) :=
  if (fs_mounted st =? 0) || (FS_OPEN_MAX_COUNT <=? num_open_fds st)
  then Done (st, -1)
  else
    let* inv := is_invalid_file name in
    if negb (inv =? 0) then Done (st, -1)
    else
      let* i := find_file name (root_directory st) in
      if FS_FILE_MAX_COUNT <=? i then Done (st, -1)
      else
        let* fd_idx := first_free_fd (S (length (FD st))) 0 (FD st) in
        let d := {| idx_file_root_dir := i; file_descriptor := fd_idx + 1;
                    file_offset := 0 |} in
        let* t := arr_set (FD st) fd_idx d in
        let st := set_FD t st in
        let st := set_num_open_fds (num_open_fds st + 1) st in
        Done (st, fd_idx + 1).

(** [for (i = 0; i < FS_OPEN_MAX_COUNT; i++) if (FD[i].file_descriptor == fd)
    break;] *)
Fixpoint find_fd_from (n : nat) (i : Z) (fd : Z)
    (t : list struct_file_descriptor) : outcome Z :=
  match n with
  | O => Done i
  | S n' =>
      let* d := arr_get t i in
      if file_descriptor d =? fd then Done i else find_fd_from n' (i + 1) fd t
  end.

Definition find_fd (fd : Z) (t : list struct_file_descriptor) : outcome Z :=
  find_fd_from 32 0 fd t.

Definition fs_close (fd : Z) (st : fs_state) : outcome (fs_state * Z) :=
  if (fs_mounted st =? 0) || (FS_OPEN_MAX_COUNT <? fd) then Done (st, -1)
  else
    let* i := find_fd fd (FD st) in
    if FS_OPEN_MAX_COUNT <=? i then Done (st, -1)
    else
      let* t := arr_set (FD st) i empty_FD in
      let st := set_FD t st in
      let st := set_num_open_fds (num_open_fds st - 1) st in
      Done (st, 0).

Definition fs_stat (fd : Z) (st : fs_state) : outcome Z :=
  if (fs_mounted st =? 0) || (FS_OPEN_MAX_COUNT <? fd) then Done (-1)
  else
    let* i := find_fd fd (FD st) in
    if i =? FS_OPEN_MAX_COUNT then Done (-1)
    else
      let* d := arr_get (FD st) i in
      let* e := arr_get (root_directory st) (idx_file_root_dir d) in
      Done (to_int (size_file e)).

Definition fs_lseek (fd : Z) (offset : Z) (st : fs_state) : outcome (fs_state * Z) :=
  let* size := fs_stat fd st in
  if (size =? -1) || (size <? to_int offset) then Done (st, -1)
  else
    let* i := find_fd fd (FD st) in
    let* d := arr_get (FD st) i in
    let* t := arr_set (FD st) i (set_file_offset offset d) in
    Done (set_FD t st, 0).

(** ** Reading and writing *)

(** The chain walk of [fs_read] and [fs_write]: every block after the first
    is entered into [file_blocks] as an absolute block number.  [file_blocks]
    has [amt_data_blks] cells, so the walk leaves the array, at the latest,
    after that many entries. *)
Fixpoint collect_chain (n : nat) (f : list struct_fat_block) (start : Z)
    (blk entry : Z) (counter : Z) (file_blocks : list Z)
  : outcome (list Z * Z) :=
  match n with
  | O => Timeout
  | S n' =>
      let* v := fat_get f blk entry in
      if v =? FAT_EOC then Done (file_blocks, counter)
      else
        let* fb := arr_set file_blocks counter (to_u16 (start + v)) in
        collect_chain n' f start (v / NUM_ENTRIES_FAT_BLK)
          (v mod NUM_ENTRIES_FAT_BLK) (counter + 1) fb
  end.

(** [uint16_t file_blocks[amt_data_blks]], filled with [FAT_EOC], then the
    chain that starts at [j]; the result is the array and [counter]. *)
Definition list_file_blocks (j : Z) (st : fs_state) : outcome (list Z * Z) :=
  let file_blocks :=
    replicate (Z.to_nat (amt_data_blks (superblock st))) FAT_EOC in
  if negb (j =? FAT_EOC) then
    let start := data_blk_start_idx (superblock st) in
    let* fb := arr_set file_blocks 0 (to_u16 (start + j)) in
    collect_chain (S (length file_blocks)) (fat st) start
      (j / NUM_ENTRIES_FAT_BLK) (j mod NUM_ENTRIES_FAT_BLK) 1 fb
  else Done (file_blocks, 0).

(** [while (file_blocks[k] != FAT_EOC) { block_read(file_blocks[k],
    &file_blocks_array[k*BLOCK_SIZE]); k++; }] *)
Fixpoint load_blocks (n : nat) (dev : device) (file_blocks : list Z) (k : Z)
    (arr : list Z) : outcome (list Z) :=
  match n with
  | O => Timeout
  | S n' =>
      let* b := arr_get file_blocks k in
      if b =? FAT_EOC then Done arr
      else
        let* arr' := read_into dev b arr (k * BLOCK_SIZE) in
        load_blocks n' dev file_blocks (k + 1) arr'
  end.

(** [fs_read(fd, buf, count)]: [buf] is [None] for a null pointer, and
    otherwise the caller's buffer; the result carries the buffer after the
    call. *)
Definition fs_read (fd : Z) (buf : option (list Z)) (count : Z) (st : fs_state)
  : outcome (fs_state * Z * option (list Z)) :=
  match buf with
  | None => Done (st, -1, buf)
  | Some out =>
    if (fs_mounted st =? 0) || (FS_OPEN_MAX_COUNT <? fd) then Done (st, -1, buf)
    else
      let* i := find_fd fd (FD st) in
      if i =? FS_OPEN_MAX_COUNT then Done (st, -1, buf)
      else
        let* d := arr_get (FD st) i in
        let x := idx_file_root_dir d in
        let* e := arr_get (root_directory st) x in
        let j := idx_first_data_blk e in
        let* '(file_blocks, counter) := list_file_blocks j st in
        if j =? FAT_EOC then Done (st, 0, buf)
        else
          let* arr := load_blocks (S (length file_blocks)) (disk st) file_blocks 0
                        (replicate (Z.to_nat (counter * BLOCK_SIZE)) uninit) in
          let room := to_size_t (size_file e - file_offset d) in
          let actual_count := if room <? count then room else count in
          let* data := mem_read arr (file_offset d) actual_count in
          let* out' := mem_write out 0 data in
          let* t := arr_set (FD st) i
                      (set_file_offset (to_size_t (file_offset d + actual_count)) d) in
          Done (set_FD t st, to_int actual_count, Some out')
  end.

(** The inner loop of [fs_write]: bytes go into the last block while
    [(z + offset) / (counter * BLOCK_SIZE) == 0]; every byte adds one to the
    file's size. *)
Fixpoint write_bytes (fuel : nat) (x offset cnt : Z) (buf : list Z)
    (counter : Z) (st : fs_state) (arr : list Z) (z : Z)
  : outcome (fs_state * list Z * Z) :=
  match fuel with
  | O => Timeout
  | S fuel' =>
      if counter =? 0 then Done (st, arr, z)
      else
        let* p := int_add z offset in
        if negb (Z.quot p (counter * BLOCK_SIZE) =? 0) then Done (st, arr, z)
        else if z =? cnt then Done (st, arr, z)
        else
          let* c := arr_get buf z in
          let* arr' := arr_set arr p c in
          let* e := arr_get (root_directory st) x in
          let* dir' := arr_set (root_directory st) x
                         (set_size_file (to_u32 (size_file e + 1)) e) in
          write_bytes fuel' x offset cnt buf counter
            (set_root_directory dir' st) arr' (z + 1)
  end.

(** [while (fat[block].next_data_blk[entry] != FAT_EOC)]: to the last entry
    of the chain. *)
Fixpoint find_tail (fuel : nat) (f : list struct_fat_block) (blk entry : Z)
  : outcome (Z * Z) :=
  match fuel with
  | O => Timeout
  | S fuel' =>
      let* v := fat_get f blk entry in
      if v =? FAT_EOC then Done (blk, entry)
      else find_tail fuel' f (v / NUM_ENTRIES_FAT_BLK) (v mod NUM_ENTRIES_FAT_BLK)
  end.

(** [for (d = 0; d < NUM_ENTRIES_FAT_BLK; d++) if (fat[c].next_data_blk[d]
    == 0)]: the first free entry of FAT block [c], with [n] passes left. *)
Fixpoint scan_fat_block (n : nat) (d : Z) (f : list struct_fat_block) (c : Z)
  : outcome (option Z) :=
  match n with
  | O => Done None
  | S n' =>
      let* v := fat_get f c d in
      if v =? 0 then Done (Some d) else scan_fat_block n' (d + 1) f c
  end.

(** The allocation branch of [fs_write].  The loop over the FAT blocks [c]
    ends with an unconditional [break], so its body runs for [c = 0] only. *)
Definition allocate_block (fuel : nat) (x : Z) (st : fs_state)
    (file_blocks : list Z) (arr : list Z) (counter : Z)
  : outcome (fs_state * list Z * list Z * Z) :=
  let* e := arr_get (root_directory st) x in
  let v := idx_first_data_blk e in
  let* '(blk, entry) :=
    (if negb (v =? FAT_EOC) then
       find_tail fuel (fat st) (v / NUM_ENTRIES_FAT_BLK) (v mod NUM_ENTRIES_FAT_BLK)
     else Done (v / NUM_ENTRIES_FAT_BLK, v mod NUM_ENTRIES_FAT_BLK)) in
  if 0 <? num_blks_fat (superblock st) then
    let c := 0 in
    let* found := scan_fat_block 2048 0 (fat st) c in
    match found with
    | None => Done (st, file_blocks, arr, counter)
    | Some d =>
        let new_blk := c * NUM_ENTRIES_FAT_BLK + d in
        let* f1 := (if negb (v =? FAT_EOC)
                    then fat_set (fat st) blk entry (to_u16 new_blk)
                    else Done (fat st)) in
        let* f2 := fat_set f1 c d FAT_EOC in
        let* fb := arr_set file_blocks counter
                     (to_u16 (new_blk + data_blk_start_idx (superblock st))) in
        let* dir' := (if v =? FAT_EOC
                      then arr_set (root_directory st) x
                             (set_idx_first_data_blk (to_u16 new_blk) e)
                      else Done (root_directory st)) in
        let arr1 := resize (Z.to_nat ((counter + 1) * BLOCK_SIZE)) uninit arr in
        let* b := arr_get fb counter in
        let* arr2 := read_into (disk st) b arr1 (counter * BLOCK_SIZE) in
        let st := set_root_directory dir' (set_fat f2 st) in
        let st := set_num_avail_data_blks (num_avail_data_blks st - 1) st in
        Done (st, fb, arr2, counter + 1)
    end
  else Done (st, file_blocks, arr, counter).

(** The outer loop of [fs_write]: [while (z < (int)count)]. *)
Fixpoint write_loop (fuel : nat) (inner : nat) (x offset cnt : Z) (buf : list Z)
    (st : fs_state) (file_blocks : list Z) (arr : list Z) (counter z : Z)
  : outcome (fs_state * list Z * list Z * Z * Z) :=
  match fuel with
  | O => Timeout
  | S fuel' =>
      if z <? cnt then
        let* '(st1, arr1, z1) :=
          write_bytes inner x offset cnt buf counter st arr z in
        if z1 <? cnt then
          if num_avail_data_blks st1 =? 0
          then Done (st1, file_blocks, arr1, counter, z1)
          else
            let* '(st2, fb2, arr2, counter2) :=
              allocate_block inner x st1 file_blocks arr1 counter in
            write_loop fuel' inner x offset cnt buf st2 fb2 arr2 counter2 z1
        else Done (st1, file_blocks, arr1, counter, z1)
      else Done (st, file_blocks, arr, counter, z)
  end.

(** [while (file_blocks[l] != FAT_EOC) { block_write(file_blocks[l],
    &file_blocks_array[l * BLOCK_SIZE]); l++; }] *)
Fixpoint store_blocks (n : nat) (file_blocks : list Z) (arr : list Z) (l : Z)
    (dev : device) : outcome device :=
  match n with
  | O => Timeout
  | S n' =>
      let* b := arr_get file_blocks l in
      if b =? FAT_EOC then Done dev
      else
        let* data := mem_read arr (l * BLOCK_SIZE) BLOCK_SIZE in
        store_blocks n' file_blocks arr (l + 1) (block_write dev b data)
  end.

(** [fs_write(fd, buf, count)]: [buf] is [None] for a null pointer, and
    otherwise the bytes of the caller's buffer. *)
Definition fs_write (fuel : nat) (fd : Z) (buf : option (list Z)) (count : Z)
    (st : fs_state) : outcome (fs_state * Z) :=
  match buf with
  | None => Done (st, -1)
  | Some src =>
    if (fs_mounted st =? 0) || (FS_OPEN_MAX_COUNT <? fd) then Done (st, -1)
    else
      let* i := find_fd fd (FD st) in
      if i =? FS_OPEN_MAX_COUNT then Done (st, -1)
      else
        let* d := arr_get (FD st) i in
        let x := idx_file_root_dir d in
        let* e := arr_get (root_directory st) x in
        let j := idx_first_data_blk e in
        let* '(file_blocks, counter) := list_file_blocks j st in
        let* arr := load_blocks (S (length file_blocks)) (disk st) file_blocks 0
                      (replicate (Z.to_nat (counter * BLOCK_SIZE)) uninit) in
        let offset := to_int (file_offset d) in
        let room := to_u32 (size_file e - offset) in
        let actual_count := if room <? count then room else count in
        let* data := mem_read src 0 actual_count in
        let* arr := mem_write arr offset data in
        let z := to_int actual_count in
        let* '(st, file_blocks, arr, counter, z) :=
          write_loop fuel fuel x offset (to_int count) src st file_blocks arr
            counter z in
        let* dev := store_blocks (S (length file_blocks)) file_blocks arr 0
                      (disk st) in
        let dev := block_write dev (root_dir_blk_idx (superblock st))
                     (serialize_root_directory (root_directory st)) in
        let* dev := write_fat_blocks (Z.to_nat (num_blks_fat (superblock st))) 1
                      (fat st) dev in
        Done (set_disk dev st, z)
  end.

(** ** Printing

    The text a call writes to standard output is part of its result.  [%d]
    prints an [int] in decimal; [%s] prints the bytes of a string up to its
    NUL. *)

Definition nl : string := String (Ascii.ascii_of_N 10) EmptyString.

Fixpoint string_of_bytes (s : list Z) : string :=
  match s with
  | [] => EmptyString
  | c :: s' => String (Ascii.ascii_of_N (Z.to_N (c mod 256))) (string_of_bytes s')
  end.

(** [%s]: a string with no NUL in its buffer is read past the buffer. *)
Definition print_s (a : list Z) : outcome string :=
  match name_of a with
  | Some s => Done (string_of_bytes s)
  | None => Fault
  end.






(** One line of [fs_ls]. *)
Definition ls_line (name : string) (e : struct_root_dir_entry) : string :=
  "file: " +:+ name +:+ ", size: " +:+ pretty (to_int (size_file e))
  +:+ ", data_blk: " +:+ pretty (idx_first_data_blk e) +:+ nl.

Fixpoint list_files (n : nat) (i : Z) (dir : list struct_root_dir_entry)
    (out : string) : outcome string :=
  match n with
  | O => Done out
  | S n' =>
      let* e := arr_get dir i in
      let* c := arr_get (filename e) 0 in
      if negb (c =? 0) then
        let* name := print_s (filename e) in
        list_files n' (i + 1) dir (out +:+ ls_line name e)
      else list_files n' (i + 1) dir out
  end.

Definition fs_ls (st : fs_state) : outcome (string * Z) :=
  if fs_mounted st =? 0 then Done (EmptyString, -1)
  else
    let* out := list_files 128 0 (root_directory st) ("FS Ls:" +:+ nl) in
    Done (out, 0).

(** * Predicates on states *)

(** [o] is a return with value [r] in a state that satisfies [P]. *)
Definition returns {A : Type} (o : outcome (fs_state * A)) (r : A)
    (P : fs_state -> Prop) : Prop :=
  exists st', o = Done (st', r) /\ P st'.

(** The state a call leaves, when it returns. *)
Definition state_after {A : Type} (o : outcome (fs_state * A)) : fs_state :=
  match o with
  | Done (st, _) => st
  | _ => initial_state
  end.

(** A name with no NUL among its first 16 bytes. *)
Definition unterminated (name : list Z) : Prop :=
  forall j, 0 <= j < 16 -> exists c, name !! Z.to_nat j = Some c /\ c <> 0.

(** Every slot of the handle table is free (descriptor 0) or holds the
    descriptor of its position. *)
Definition handles_wf (t : list struct_file_descriptor) : Prop :=
  length t = 32%nat
  /\ forall (k : nat) (d : struct_file_descriptor),
       t !! k = Some d ->
       file_descriptor d = 0 \/ file_descriptor d = Z.of_nat k + 1.

(** A check of [handles_wf] that computes. *)
Fixpoint handles_ok_from (k : Z) (t : list struct_file_descriptor) : bool :=
  match t with
  | [] => true
  | d :: t' =>
      ((file_descriptor d =? 0) || (file_descriptor d =? k + 1))
      && handles_ok_from (k + 1) t'
  end.

(** [fd] is an open descriptor, and [d] its handle. *)
Definition open_handle (st : fs_state) (fd : Z) (d : struct_file_descriptor) : Prop :=
  1 <= fd <= 32
  /\ FD st !! Z.to_nat (fd - 1) = Some d
  /\ file_descriptor d = fd.

(** The FAT chain of a file whose first block is [j]: [rest] lists the
    blocks after [j], and the entry of the last one is [FAT_EOC]. *)
Fixpoint chain_from (f : list struct_fat_block) (j : Z) (rest : list Z) : Prop :=
  match rest with
  | [] => fat_get f (j / NUM_ENTRIES_FAT_BLK) (j mod NUM_ENTRIES_FAT_BLK) = Done FAT_EOC
  | v :: rest' =>
      fat_get f (j / NUM_ENTRIES_FAT_BLK) (j mod NUM_ENTRIES_FAT_BLK) = Done v
      /\ v <> FAT_EOC
      /\ chain_from f v rest'
  end.

(** Data block [c] of the disk. *)
Definition data_block (st : fs_state) (c : Z) : option block :=
  block_read (disk st) (data_blk_start_idx (superblock st) + c).

(** The content of a file: its data blocks, one after the other. *)
Definition file_content (st : fs_state) (cs : list Z) : list Z :=
  concat (map (fun c => default [] (data_block st c)) cs).

(** Data block [c] is on the disk, holds 4096 bytes, and its block number
    fits a [uint16_t] without being taken for [FAT_EOC]. *)
Definition data_block_ok (st : fs_state) (c : Z) : Prop :=
  0 <= data_blk_start_idx (superblock st) + c < 65535
  /\ exists blk, data_block st c = Some blk /\ Z.of_nat (length blk) = BLOCK_SIZE.

(** The bytes [off, off + n) of a file's content. *)
Definition slice (content : list Z) (off n : Z) : list Z :=
  take (Z.to_nat n) (drop (Z.to_nat off) content).

(** The layout of a disk with one FAT block and two data blocks, data
    block 1 (disk block 4) being on the disk. *)
Definition one_block_disk (st : fs_state) : Prop :=
  fs_mounted st <> 0
  /\ handles_wf (FD st)
  /\ num_blks_fat (superblock st) = 1
  /\ root_dir_blk_idx (superblock st) = 2
  /\ data_blk_start_idx (superblock st) = 3
  /\ amt_data_blks (superblock st) = 2
  /\ exists blk, block_read (disk st) 4 = Some blk
                 /\ Z.of_nat (length blk) = BLOCK_SIZE.

(** An empty file on it, open at offset 0, with data block 1 free and
    counted as the one available block. *)
Definition empty_file_one_block (st : fs_state) (fd : Z)
    (d : struct_file_descriptor) (e : struct_root_dir_entry) : Prop :=
  one_block_disk st
  /\ open_handle st fd d
  /\ file_offset d = 0
  /\ arr_get (root_directory st) (idx_file_root_dir d) = Done e
  /\ size_file e = 0
  /\ idx_first_data_blk e = FAT_EOC
  /\ num_avail_data_blks st = 1
  /\ fat_get (fat st) 0 0 = Done FAT_EOC
  /\ fat_get (fat st) 0 1 = Done 0.

(** The same file once it fills data block 1, the disk being full. *)
Definition full_file_one_block (st : fs_state) (fd : Z)
    (d : struct_file_descriptor) (e : struct_root_dir_entry) : Prop :=
  one_block_disk st
  /\ open_handle st fd d
  /\ file_offset d = 0
  /\ arr_get (root_directory st) (idx_file_root_dir d) = Done e
  /\ size_file e = 4096
  /\ idx_first_data_blk e = 1
  /\ num_avail_data_blks st = 0
  /\ fat_get (fat st) 0 1 = Done FAT_EOC.

(** A directory of 128 entries with names of 16 bytes. *)
Definition dir_wf (dir : list struct_root_dir_entry) : Prop :=
  length dir = 128%nat /\ Forall (fun e => length (filename e) = 16%nat) dir.

(** Slot [k], with entry [e], is the first one whose name starts with
    NUL. *)
Definition first_free_slot (dir : list struct_root_dir_entry) (k : nat)
    (e : struct_root_dir_entry) : Prop :=
  dir !! k = Some e
  /\ name_of (filename e) = Some []
  /\ forall j e', (j < k)%nat -> dir !! j = Some e' -> name_of (filename e') <> Some [].

(** Slot [k], with entry [e], is the first one that holds the name [s]. *)
Definition holds_name (dir : list struct_root_dir_entry) (s : list Z) (k : nat)
    (e : struct_root_dir_entry) : Prop :=
  dir !! k = Some e
  /\ name_of (filename e) = Some s
  /\ forall j e', (j < k)%nat -> dir !! j = Some e' -> name_of (filename e') <> Some s.

(** No entry holds the name [s]. *)
Definition no_file (dir : list struct_root_dir_entry) (s : list Z) : Prop :=
  forall j e', dir !! j = Some e' -> name_of (filename e') <> Some s.

(** The entry [fs_create] writes into slot [e] for the name [s]. *)
Definition new_entry (s : list Z) (e : struct_root_dir_entry) : struct_root_dir_entry :=
  {| filename := s ++ 0 :: drop (S (length s)) (filename e);
     size_file := 0; idx_first_data_blk := FAT_EOC; padding := padding e |}.

(** The entry [fs_delete] leaves in the slot of [e]. *)
Definition deleted_entry (e : struct_root_dir_entry) : struct_root_dir_entry :=
  {| filename := <[0%nat := 0]> (filename e); size_file := 0;
     idx_first_data_blk := FAT_EOC; padding := padding e |}.

(** Slot [k] is the first free slot of the handle table. *)
Definition first_free_handle (t : list struct_file_descriptor) (k : nat) : Prop :=
  t !! k = Some empty_FD
  /\ forall j d, (j < k)%nat -> t !! j = Some d -> file_descriptor d <> 0.

(** The FAT blocks [bs] written to the disk blocks [i], [i + 1], ... *)
Fixpoint flush_fat (bs : list struct_fat_block) (i : Z) (dev : device) : device :=
  match bs with
  | [] => dev
  | b :: bs' => flush_fat bs' (i + 1) (block_write dev i (serialize_fat_block b))
  end.

(** The FAT with the entry of data block [c] set to 0. *)
Definition fat_clear (f : list struct_fat_block) (c : Z) : list struct_fat_block :=
  match f !! Z.to_nat (c / NUM_ENTRIES_FAT_BLK) with
  | Some b =>
      <[Z.to_nat (c / NUM_ENTRIES_FAT_BLK) :=
          <[Z.to_nat (c mod NUM_ENTRIES_FAT_BLK) := 0]> b]> f
  | None => f
  end.

(** [cs] lists the data blocks of the file whose first block is [j]. *)
Definition chain_of (f : list struct_fat_block) (j : Z) (cs : list Z) : Prop :=
  match cs with
  | [] => j = FAT_EOC
  | c :: rest => j <> FAT_EOC /\ c = j /\ chain_from f j rest
  end.

(** The disk [img] passes the checks of [fs_mount], and holds the FAT
    blocks and the directory block its superblock announces. *)
Definition valid_disk (img : list block) (b0 : block) : Prop :=
  img !! 0%nat = Some b0
  /\ signature (parse_superblock b0) = specified_signature
  /\ tot_amt_blks (parse_superblock b0) = Z.of_nat (length img)
  /\ 0 <= num_blks_fat (parse_superblock b0)
  /\ num_blks_fat (parse_superblock b0) + 1 < Z.of_nat (length img).

(** The state [fs_mount] builds from the disk [img]. *)
Definition mounted_state (img : list block) (b0 : block) (st : fs_state) : fs_state :=
  let sb := parse_superblock b0 in
  let nf := Z.to_nat (num_blks_fat sb) in
  {| disk := Some img;
     superblock := sb;
     fat := map parse_fat_block (take nf (drop 1 img));
     root_directory := parse_root_directory (default [] (img !! (nf + 1)%nat));
     num_open_fds := num_open_fds st;
     FD := replicate 32 empty_FD;
     fs_mounted := 1;
     num_files_root_dir := num_files_root_dir st;
     num_avail_data_blks := amt_data_blks sb - 1 |}.

(** The state [fs_umount] leaves. *)
Definition unmounted_state (st : fs_state) : fs_state :=
  {| disk := None;
     superblock := clean_superblock;
     fat := [];
     root_directory := replicate 128 clean_root_dir_entry;
     num_open_fds := num_open_fds st;
     FD := replicate 32 empty_FD;
     fs_mounted := 0;
     num_files_root_dir := num_files_root_dir st;
     num_avail_data_blks := 0 |}.

(** An entry whose fields have the widths of the packed structure. *)
Definition entry_ok (e : struct_root_dir_entry) : Prop :=
  length (filename e) = 16%nat
  /\ length (padding e) = 10%nat
  /\ 0 <= size_file e < 4294967296
  /\ 0 <= idx_first_data_blk e < 65536.



(** The lines [fs_ls] prints for a directory. *)
Definition listing (dir : list struct_root_dir_entry) : string :=
  foldr (fun e acc =>
           ls_line (string_of_bytes (default [] (name_of (filename e)))) e +:+ acc)
    EmptyString
    (filter (fun e => name_of (filename e) <> Some []) dir).


(** A file of one data block, [k], open at offset [file_offset d] within
    the file; the block is a block of the disk behind the FAT and apart
    from the directory. *)
Definition one_block_file (st : fs_state) (fd : Z)
    (d : struct_file_descriptor) (e : struct_root_dir_entry) (blk : block) : Prop :=
  fs_mounted st <> 0
  /\ handles_wf (FD st)
  /\ open_handle st fd d
  /\ arr_get (root_directory st) (idx_file_root_dir d) = Done e
  /\ 0 <= file_offset d <= size_file e
  /\ size_file e <= 4096
  /\ 0 <= idx_first_data_blk e < 65535
  /\ chain_from (fat st) (idx_first_data_blk e) []
  /\ 2 <= amt_data_blks (superblock st) < 65536
  /\ (Z.to_nat (num_blks_fat (superblock st)) <= length (fat st))%nat
  /\ 0 <= num_blks_fat (superblock st)
       < data_blk_start_idx (superblock st) + idx_first_data_blk e
  /\ data_blk_start_idx (superblock st) + idx_first_data_blk e < 65535
  /\ 0 <= root_dir_blk_idx (superblock st)
  /\ root_dir_blk_idx (superblock st)
     <> data_blk_start_idx (superblock st) + idx_first_data_blk e
  /\ data_block st (idx_first_data_blk e) = Some blk
  /\ Z.of_nat (length blk) = BLOCK_SIZE.

(** * Disks and states to run the code on *)

(** The superblock of a disk with [F] FAT blocks and [D] data blocks. *)
Definition superblock_block (F D : Z) : block :=
  specified_signature ++ le16 (2 + F + D) ++ le16 (1 + F) ++ le16 (2 + F)
    ++ le16 D ++ [F] ++ replicate 4079 0.

(** The first FAT block of a freshly formatted disk: entry 0 is [FAT_EOC],
    every other entry is free. *)
Definition fresh_fat_block : block := le16 FAT_EOC ++ replicate 4094 0.

Definition zero_block : block := replicate 4096 0.

(** A freshly formatted disk with one FAT block and two data blocks: data
    block 0 is reserved, data block 1 is the only usable one.  The root
    directory is zero-filled. *)
Definition image_1_2 : list block :=
  [superblock_block 1 2; fresh_fat_block; zero_block; zero_block; zero_block].

Definition mounted_1_2 : fs_state :=
  fst (fs_mount (Some image_1_2) initial_state).

Definition name_a : list Z := [97; 0].
Definition name_b : list Z := [98; 0].

Definition dir_entry (name : list Z) (size first : Z) : struct_root_dir_entry :=
  {| filename := name ++ replicate (16 - length name) 0; size_file := size;
     idx_first_data_blk := first; padding := replicate 10 0 |}.

Definition handle_1 : struct_file_descriptor :=
  {| idx_file_root_dir := 0; file_descriptor := 1; file_offset := 0 |}.

(** On that disk, "a" created and opened: descriptor 1, offset 0. *)
Definition fresh_file_state : fs_state :=
  state_after (fs_open name_a (state_after (fs_create name_a mounted_1_2))).

(** A buffer of 4196 bytes. *)
Definition request_4196 : list Z := replicate (Z.to_nat 4196) 120.

(** The fresh file with the two bytes "Hi" written to it. *)
Definition hi_state : fs_state :=
  state_after (fs_write 3 1 (Some [72; 105]) 2 fresh_file_state).

(** The calls delete(""), create("a"), open("a"), write(fd, "x", 1) on the
    fresh disk: their return values, FAT entry 0 after the delete, and the
    first block of "a" after the write. *)
Definition trace_delete_empty_name : outcome (Z * Z * Z * Z * Z * Z) :=
  let* '(s1, r1) := fs_delete 1 [0] mounted_1_2 in
  let* f0 := fat_get (fat s1) 0 0 in
  let* '(s2, r2) := fs_create name_a s1 in
  let* '(s3, r3) := fs_open name_a s2 in
  let* '(s4, r4) := fs_write 2 r3 (Some [120]) 1 s3 in
  let* e := arr_get (root_directory s4) 0 in
  Done (r1, f0, r2, r3, r4, idx_first_data_blk e).

(** The names "aa", "ab", ..., "hp": 128 of them. *)
Definition file_name (k : nat) : list Z :=
  [97 + Z.of_nat (k / 16); 97 + Z.of_nat (k mod 16); 0].

(** [fs_create] of every name of the list, one after the other; the result
    is the last state and the list of return values. *)
Fixpoint create_all (names : list (list Z)) (st : fs_state)
  : outcome (fs_state * list Z) :=
  match names with
  | [] => Done (st, [])
  | name :: rest =>
      let* '(st1, r) := fs_create name st in
      let* '(st2, rs) := create_all rest st1 in
      Done (st2, r :: rs)
  end.

(** 128 files created on the fresh disk, the first one deleted and created
    again: the return values of the creates, of the delete, the first byte
    of the freed slot, and the return value of the last create. *)
Definition trace_full_directory : outcome (list Z * Z * Z * Z) :=
  let* '(s1, rs) := create_all (map file_name (seq 0 128)) mounted_1_2 in
  let* '(s2, r2) := fs_delete 1 (file_name 0) s1 in
  let* e := arr_get (root_directory s2) 0 in
  let* c := arr_get (filename e) 0 in
  let* '(s3, r3) := fs_create (file_name 0) s2 in
  Done (rs, r2, c, r3).

(** create("a"), open, write one byte, close, delete("a"), create("a"),
    open, write one byte: the return values, and FAT entry 1 and the count
    of available blocks before the last write. *)
Definition trace_write_after_delete : outcome (list Z * Z * Z) :=
  let* '(s1, r1) := fs_create name_a mounted_1_2 in
  let* '(s2, r2) := fs_open name_a s1 in
  let* '(s3, r3) := fs_write 3 r2 (Some [120]) 1 s2 in
  let* '(s4, r4) := fs_close r2 s3 in
  let* '(s5, r5) := fs_delete 3 name_a s4 in
  let* '(s6, r6) := fs_create name_a s5 in
  let* '(s7, r7) := fs_open name_a s6 in
  let* free1 := fat_get (fat s7) 0 1 in
  let* '(s8, r8) := fs_write 3 r7 (Some [120]) 1 s7 in
  Done ([r1; r2; r3; r4; r5; r6; r7; r8], free1, num_avail_data_blks s7).

(** FAT block 0 with entries 1 .. 2047 in one chain: entry [k] holds [k + 1],
    entry 2047 ends the chain. *)
Definition chained_fat_block : struct_fat_block :=
  FAT_EOC :: map Z.of_nat (seq 2 2046) ++ [FAT_EOC].

(** A disk with two FAT blocks and 4096 data blocks.  File "a" is empty;
    file "b" holds data blocks 1 .. 2047, so FAT block 0 has no free entry
    and FAT block 1 (data blocks 2048 .. 4095) is free throughout. *)
Definition image_2_4096 : list block :=
  superblock_block 2 4096
  :: serialize_fat_block chained_fat_block
  :: zero_block
  :: serialize_root_directory
       (dir_entry name_a 0 FAT_EOC :: dir_entry name_b (2047 * 4096) 1
        :: replicate 126 clean_root_dir_entry)
  :: replicate 4096 zero_block.

(** That disk mounted, and "a" opened: descriptor 1, offset 0. *)
Definition first_fat_block_full : fs_state :=
  state_after (fs_open name_a (fst (fs_mount (Some image_2_4096) initial_state))).

(** On [mounted_1_2], file "a" created. *)
Definition created_file_state : fs_state :=
  state_after (fs_create name_a mounted_1_2).

(** The file "a" of [hi_state] once its descriptor is closed. *)
Definition closed_hi_state : fs_state := state_after (fs_close 1 hi_state).

(** A disk like [image_1_2] whose directory holds the 128 files "aa", "ab",
    ..., "hp", all of them empty, and that disk mounted. *)
Definition full_directory_image : list block :=
  [superblock_block 1 2; fresh_fat_block;
   serialize_root_directory
     (map (fun k => dir_entry (file_name k) 0 FAT_EOC) (seq 0 128));
   zero_block; zero_block].

Definition full_directory_state : fs_state :=
  fst (fs_mount (Some full_directory_image) initial_state).

(** [fs_open] of [name], [n] times over. *)
Fixpoint open_many (n : nat) (name : list Z) (st : fs_state) : outcome fs_state :=
  match n with
  | O => Done st
  | S n' => let* '(st1, _) := fs_open name st in open_many n' name st1
  end.

(** File "a" opened 31 times, then [fs_close(0)], then one more [fs_open]:
    the 32 slots are taken and the count of open descriptors is 31. *)
Definition full_table_state : fs_state :=
  match (let* s1 := open_many 31 name_a (state_after (fs_create name_a mounted_1_2)) in
         let* '(s2, _) := fs_close 0 s1 in
         let* '(s3, _) := fs_open name_a s2 in
         Done s3) with
  | Done s => s
  | _ => initial_state
  end.

(** * Properties *)

(** ** Outcomes and arrays *)

Lemma bind_Done {A B : Type} (m : outcome A) (k : A -> outcome B) (b : B) :
  bind m k = Done b -> exists a, m = Done a /\ k a = Done b.
Proof. destruct m as [a| |]; simpl; intros H; [eauto | discriminate | discriminate]. Qed.

Lemma arr_get_Done {A : Type} (l : list A) (i : Z) (a : A) :
  arr_get l i = Done a <-> 0 <= i /\ l !! Z.to_nat i = Some a.
Proof.
  unfold arr_get. destruct (Z.ltb_spec i 0) as [Hi|Hi].
  - split; [discriminate | lia].
  - destruct (l !! Z.to_nat i) as [a'|]; split; intros H.
    + inversion H; subst. split; [lia | reflexivity].
    + destruct H as [_ H']. inversion H'. reflexivity.
    + discriminate.
    + destruct H as [_ H']. discriminate.
Qed.

Lemma arr_get_nat {A : Type} (l : list A) (k : nat) (a : A) :
  l !! k = Some a -> arr_get l (Z.of_nat k) = Done a.
Proof. intros H. apply arr_get_Done. rewrite Nat2Z.id. split; [lia | exact H]. Qed.

Lemma arr_get_lookup {A : Type} (l : list A) (i : Z) (a : A) :
  0 <= i -> l !! Z.to_nat i = Some a -> arr_get l i = Done a.
Proof. intros Hi H. apply arr_get_Done. split; assumption. Qed.

Lemma arr_set_Done {A : Type} (l : list A) (i : Z) (a : A) :
  0 <= i < Z.of_nat (length l) -> arr_set l i a = Done (<[Z.to_nat i := a]> l).
Proof.
  intros Hi. unfold arr_set.
  destruct (Z.ltb_spec i 0); [lia|].
  destruct (Z.leb_spec (Z.of_nat (length l)) i); [lia|]. reflexivity.
Qed.

Lemma arr_set_inv {A : Type} (l l' : list A) (i : Z) (a : A) :
  arr_set l i a = Done l' ->
  0 <= i < Z.of_nat (length l) /\ l' = <[Z.to_nat i := a]> l.
Proof.
  unfold arr_set.
  destruct (Z.ltb_spec i 0); [discriminate|].
  destruct (Z.leb_spec (Z.of_nat (length l)) i); [discriminate|].
  simpl. intros Hs. inversion Hs. split; [lia | reflexivity].
Qed.

(** Inversion of a successful sequence of steps. *)
Tactic Notation "inv_bind" hyp(H) "as" simple_intropattern(a) ident(Ha) :=
  let H' := fresh "H" in
  apply bind_Done in H; destruct H as (a & Ha & H'); rename H' into H.

Lemma mount_image_1_2 :
  snd (fs_mount (Some image_1_2) initial_state) = 0
  /\ fs_mounted mounted_1_2 = 1
  /\ num_avail_data_blks mounted_1_2 = 1
  /\ fat_get (fat mounted_1_2) 0 0 = Done FAT_EOC
  /\ fat_get (fat mounted_1_2) 0 1 = Done 0.
Proof. vm_compute. repeat split; reflexivity. Qed.

(** ** Mounting a disk that fails validation *)

(** C10. When [fs_mount] has opened the device and the validation then
    fails (the signature differs, or the block count of the superblock is
    not the one of the device), it returns -1 and leaves the device open on
    the image and the superblock as read from block 0; the mounted flag and
    everything else are as before: nothing is rolled back and the device
    is not closed, so that every later [fs_mount] fails at
    [block_disk_open]. *)
Theorem fs_mount_invalid_disk_stays_open (img : list block) (b0 : block) (st : fs_state) :
  disk st = None ->
  img !! 0%nat = Some b0 ->
  signature (parse_superblock b0) <> specified_signature
  \/ tot_amt_blks (parse_superblock b0) <> Z.of_nat (length img) ->
  exists st',
    fs_mount (Some img) st = (st', -1)
    /\ disk st' = Some img
    /\ superblock st' = parse_superblock b0
    /\ fs_mounted st' = fs_mounted st
    /\ fat st' = fat st
    /\ root_directory st' = root_directory st
    /\ FD st' = FD st
    /\ num_open_fds st' = num_open_fds st
    /\ num_files_root_dir st' = num_files_root_dir st
    /\ num_avail_data_blks st' = num_avail_data_blks st
    /\ forall found, fs_mount found st' = (st', -1).
Proof.
  intros Hd Hb Hbad.
  exists (set_superblock (parse_superblock b0) (set_disk (Some img) st)).
  split; [|repeat (split; [reflexivity|]); intros found; reflexivity].
  unfold fs_mount, block_disk_open. rewrite Hd.
  cbv beta iota. change (0 =? 0) with true. cbv beta iota.
  change (block_read (Some img) 0) with (img !! 0%nat). rewrite Hb.
  change (superblock (set_superblock ?s _)) with s.
  change (block_disk_count (Some img)) with (Z.of_nat (length img)).
  destruct Hbad as [Hsig | Hcnt].
  - rewrite bool_decide_eq_false_2 by exact Hsig. reflexivity.
  - apply Z.eqb_neq in Hcnt. rewrite Hcnt, orb_true_r. reflexivity.
Qed.

Lemma fs_mount_invalid_disk_stays_open_witness :
  (exists st',
     fs_mount (Some [zero_block]) initial_state = (st', -1)
     /\ disk st' = Some [zero_block]
     /\ superblock st' = parse_superblock zero_block
     /\ fs_mounted st' = fs_mounted initial_state
     /\ fat st' = fat initial_state
     /\ root_directory st' = root_directory initial_state
     /\ FD st' = FD initial_state
     /\ num_open_fds st' = num_open_fds initial_state
     /\ num_files_root_dir st' = num_files_root_dir initial_state
     /\ num_avail_data_blks st' = num_avail_data_blks initial_state
     /\ forall found, fs_mount found st' = (st', -1))
  /\ (exists st',
        fs_mount (Some [superblock_block 1 2]) initial_state = (st', -1)
        /\ disk st' = Some [superblock_block 1 2]
        /\ superblock st' = parse_superblock (superblock_block 1 2)
        /\ fs_mounted st' = fs_mounted initial_state
        /\ fat st' = fat initial_state
        /\ root_directory st' = root_directory initial_state
        /\ FD st' = FD initial_state
        /\ num_open_fds st' = num_open_fds initial_state
        /\ num_files_root_dir st' = num_files_root_dir initial_state
        /\ num_avail_data_blks st' = num_avail_data_blks initial_state
        /\ forall found, fs_mount found st' = (st', -1)).
Proof.
  split.
  - apply (fs_mount_invalid_disk_stays_open [zero_block] zero_block initial_state).
    + reflexivity.
    + reflexivity.
    + left. vm_compute. discriminate.
  - apply (fs_mount_invalid_disk_stays_open [superblock_block 1 2]
             (superblock_block 1 2) initial_state).
    + reflexivity.
    + reflexivity.
    + right. vm_compute. discriminate.
Defined.

(** Once a device is open, every later [fs_mount] fails at
    [block_disk_open]. *)
Lemma fs_mount_device_open (found : option (list block)) (img : list block)
    (st : fs_state) :
  disk st = Some img -> fs_mount found st = (st, -1).
Proof. intros Hd. unfold fs_mount, block_disk_open. rewrite Hd. reflexivity. Qed.

(** ** Descriptor 0 *)

Lemma fs_close_free_slot (st : fs_state) (k : Z) :
  fs_mounted st <> 0 ->
  find_fd 0 (FD st) = Done k ->
  k < FS_OPEN_MAX_COUNT ->
  0 <= k < Z.of_nat (length (FD st)) ->
  fs_close 0 st
  = Done (set_num_open_fds (num_open_fds st - 1)
            (set_FD (<[Z.to_nat k := empty_FD]> (FD st)) st), 0).
Proof.
  intros Hm Hf Hk Hlen. unfold fs_close.
  destruct (Z.eqb_spec (fs_mounted st) 0) as [E|_]; [contradiction|].
  change (FS_OPEN_MAX_COUNT <? 0) with false. simpl orb. cbv iota.
  rewrite Hf. simpl bind.
  destruct (Z.leb_spec FS_OPEN_MAX_COUNT k); [lia|].
  rewrite arr_set_Done by exact Hlen. reflexivity.
Qed.

(** C8, on the code. On the freshly mounted disk no descriptor is open, yet
    [fs_close(0)] returns 0 and takes the count of open handles from 0 to
    -1: descriptor 0 is the mark of a free slot, and the scan finds one.
    [fs_stat(0)] reads [root_directory[-1]]. *)
Theorem fs_close_stat_descriptor_zero :
  returns (fs_close 0 mounted_1_2) 0
    (fun st' => num_open_fds mounted_1_2 = 0 /\ num_open_fds st' = -1)
  /\ fs_stat 0 mounted_1_2 = Fault.
Proof.
  split.
  - eexists. split.
    + apply (fs_close_free_slot mounted_1_2 0); vm_compute; try reflexivity;
        try discriminate; split; try reflexivity; discriminate.
    + split; reflexivity.
  - vm_compute. reflexivity.
Qed.

(** ** File names *)

Lemma is_invalid_file_from_unterminated (name : list Z) (n : nat) (i : Z) :
  0 <= i <= 16 ->
  i + Z.of_nat n = 17 ->
  (forall j, i <= j < 16 -> exists c, name !! Z.to_nat j = Some c /\ c <> 0) ->
  is_invalid_file_from n i name = Done 1.
Proof.
  revert i. induction n as [|n IH]; intros i Hi Hn Hall.
  - lia.
  - cbn [is_invalid_file_from]. unfold FS_FILENAME_LEN.
    destruct (Z.eqb_spec i 16) as [E|E]; [reflexivity|].
    destruct (Hall i ltac:(lia)) as (c & Hc & Hnz).
    rewrite (arr_get_lookup name i c ltac:(lia) Hc). cbn [bind].
    apply Z.eqb_neq in Hnz. rewrite Hnz.
    apply IH; [lia | lia | intros j Hj; apply Hall; lia].
Qed.

Lemma is_invalid_file_unterminated (name : list Z) :
  unterminated name -> is_invalid_file name = Done 1.
Proof.
  intros H. apply is_invalid_file_from_unterminated; [lia | reflexivity | exact H].
Qed.

Lemma unterminated_names_rejected (fuel : nat) (name : list Z) (st : fs_state) :
  unterminated name ->
  fs_create name st = Done (st, -1)
  /\ fs_delete fuel name st = Done (st, -1)
  /\ fs_open name st = Done (st, -1).
Proof.
  intros H. apply is_invalid_file_unterminated in H.
  unfold fs_create, fs_delete, fs_open. rewrite H. cbn [bind].
  change (negb (1 =? 0)) with true. cbv iota.
  repeat split.
  - destruct (_ || _); reflexivity.
  - destruct (_ =? _); reflexivity.
  - destruct (_ || _); reflexivity.
Qed.

(** The empty name is taken for a valid one. *)
Lemma is_invalid_file_empty (rest : list Z) : is_invalid_file (0 :: rest) = Done 0.
Proof. reflexivity. Qed.

(** C7, on the code. On the freshly mounted disk the empty name is taken for
    a valid one and matches the first free slot: [fs_open("")] returns
    descriptor 1 and enters a handle for slot 0, and [fs_delete("")]
    returns 0 and writes to the disk. *)
Theorem empty_name_accepted :
  returns (fs_open [0] mounted_1_2) 1
    (fun st' =>
       arr_get (FD st') 0
       = Done {| idx_file_root_dir := 0; file_descriptor := 1; file_offset := 0 |}
       /\ num_open_fds st' = 1)
  /\ returns (fs_delete 1 [0] mounted_1_2) 0 (fun st' => disk st' <> disk mounted_1_2).
Proof.
  split.
  - eexists. split; [vm_compute; reflexivity|]. split; reflexivity.
  - eexists. split; [vm_compute; reflexivity|]. vm_compute. discriminate.
Qed.

(** ** FAT entry 0 *)

(** C6, on the code. On the freshly mounted disk FAT entry 0 is [FAT_EOC];
    [fs_delete("")] returns 0 and leaves FAT entry 0 at 0, and the next
    write allocates data block 0 as the first block of file "a". *)
Theorem delete_empty_name_frees_fat_entry_0 :
  fat_get (fat mounted_1_2) 0 0 = Done FAT_EOC
  /\ trace_delete_empty_name = Done (0, 0, 0, 1, 1, 0).
Proof. split; vm_compute; reflexivity. Qed.

(** ** The count of files *)

(** C9, on the code. After 128 successful creates, the delete of one file
    returns 0 and frees its slot, and the create of the same name then
    returns -1: [fs_delete] never takes the deleted file off
    [num_files_root_dir]. *)
Theorem create_after_delete_in_full_directory :
  trace_full_directory = Done (replicate 128 0, 0, 0, -1).
Proof. vm_compute. reflexivity. Qed.

Lemma fs_create_full_counter (name : list Z) (st : fs_state) :
  FS_FILE_MAX_COUNT <= num_files_root_dir st ->
  fs_create name st = Done (st, -1).
Proof.
  intros H. unfold fs_create. apply Z.leb_le in H. rewrite H, orb_true_r.
  reflexivity.
Qed.

Lemma fs_delete_keeps_file_count (fuel : nat) (name : list Z) (st st' : fs_state) (r : Z) :
  fs_delete fuel name st = Done (st', r) ->
  num_files_root_dir st' = num_files_root_dir st.
Proof.
  unfold fs_delete. intros H.
  destruct (fs_mounted st =? 0); [inversion H; reflexivity|].
  inv_bind H as inv Hinv. destruct (negb (inv =? 0)); [inversion H; reflexivity|].
  inv_bind H as x Hx. destruct (FS_FILE_MAX_COUNT <=? x); [inversion H; reflexivity|].
  inv_bind H as busy Hbusy. destruct busy; [inversion H; reflexivity|].
  inv_bind H as e He. inv_bind H as [f avail] Hfree.
  inv_bind H as fn Hfn. inv_bind H as dir' Hdir. inv_bind H as dev Hdev.
  inversion H. reflexivity.
Qed.

(** ** Allocation looks at the first FAT block only *)

Lemma scan_fat_block_none (f : list struct_fat_block) (c : Z) (blk : list Z)
    (n : nat) (d : Z) :
  arr_get f c = Done blk ->
  0 <= d ->
  d + Z.of_nat n <= Z.of_nat (length blk) ->
  forallb (fun v => negb (v =? 0)) blk = true ->
  scan_fat_block n d f c = Done None.
Proof.
  intros Hc. revert d. induction n as [|n IH]; intros d Hd Hlen Hall.
  - reflexivity.
  - cbn [scan_fat_block]. unfold fat_get. rewrite Hc. cbn [bind].
    destruct (lookup_lt_is_Some_2 blk (Z.to_nat d) ltac:(lia)) as [v Hv].
    rewrite (arr_get_lookup blk d v Hd Hv). cbn [bind].
    assert (Hnz : negb (v =? 0) = true).
    { rewrite forallb_forall in Hall. apply Hall.
      apply list_elem_of_In. apply list_elem_of_lookup. eauto. }
    apply negb_true_iff in Hnz. rewrite Hnz.
    apply IH; [lia | lia | exact Hall].
Qed.

(** With no chain yet and no free entry in FAT block 0, the allocation
    branch changes nothing. *)
Lemma allocate_block_first_block_full (fuel : nat) (x : Z) (st : fs_state)
    (e : struct_root_dir_entry) (file_blocks arr : list Z) (counter : Z) :
  arr_get (root_directory st) x = Done e ->
  idx_first_data_blk e = FAT_EOC ->
  scan_fat_block 2048 0 (fat st) 0 = Done None ->
  allocate_block fuel x st file_blocks arr counter
  = Done (st, file_blocks, arr, counter).
Proof.
  intros He Hv Hscan. unfold allocate_block. rewrite He. cbn [bind].
  rewrite Hv. change (negb (FAT_EOC =? FAT_EOC)) with false. cbv iota.
  cbn [bind]. destruct (0 <? num_blks_fat (superblock st)); [|reflexivity].
  rewrite Hscan. reflexivity.
Qed.

Lemma write_loop_no_progress (fuel inner : nat) (x offset cnt : Z) (buf : list Z)
    (st : fs_state) (e : struct_root_dir_entry) (file_blocks arr : list Z) (z : Z) :
  z < cnt ->
  num_avail_data_blks st <> 0 ->
  arr_get (root_directory st) x = Done e ->
  idx_first_data_blk e = FAT_EOC ->
  scan_fat_block 2048 0 (fat st) 0 = Done None ->
  write_loop fuel inner x offset cnt buf st file_blocks arr 0 z = Timeout.
Proof.
  intros Hz Hav He Hv Hscan. induction fuel as [|fuel IH]; [reflexivity|].
  cbn [write_loop]. apply Z.ltb_lt in Hz. rewrite Hz.
  destruct inner as [|inner]; [reflexivity|].
  cbn [write_bytes]. change (0 =? 0) with true. cbv iota. cbn [bind].
  rewrite Hz. apply Z.eqb_neq in Hav. rewrite Hav.
  rewrite (allocate_block_first_block_full _ _ _ e) by assumption.
  cbn [bind]. exact IH.
Qed.

Lemma fs_write_no_progress (fuel : nat) (fd count : Z) (src : list Z) (st : fs_state)
    (i : Z) (d : struct_file_descriptor) (e : struct_root_dir_entry) :
  fs_mounted st <> 0 ->
  fd <= FS_OPEN_MAX_COUNT ->
  find_fd fd (FD st) = Done i ->
  i <> FS_OPEN_MAX_COUNT ->
  arr_get (FD st) i = Done d ->
  file_offset d = 0 ->
  arr_get (root_directory st) (idx_file_root_dir d) = Done e ->
  idx_first_data_blk e = FAT_EOC ->
  size_file e = 0 ->
  0 < amt_data_blks (superblock st) ->
  0 < count ->
  0 < to_int count ->
  num_avail_data_blks st <> 0 ->
  scan_fat_block 2048 0 (fat st) 0 = Done None ->
  fs_write fuel fd (Some src) count st = Timeout.
Proof.
  intros Hm Hfd Hi Hi32 Hd Hoff He Hv Hsz HD Hc Hci Hav Hscan.
  unfold fs_write.
  apply Z.eqb_neq in Hm. rewrite Hm.
  destruct (Z.ltb_spec FS_OPEN_MAX_COUNT fd); [lia|]. cbn [orb]. cbv iota.
  rewrite Hi. cbn [bind]. apply Z.eqb_neq in Hi32. rewrite Hi32.
  rewrite Hd. cbn [bind]. rewrite He. cbn [bind].
  unfold list_file_blocks. rewrite Hv.
  change (negb (FAT_EOC =? FAT_EOC)) with false. cbv iota. cbn [bind].
  remember (amt_data_blks (superblock st)) as D eqn:ED.
  destruct (Z.to_nat D) as [|n] eqn:En; [lia|].
  cbn [replicate length load_blocks].
  change (arr_get (FAT_EOC :: replicate n FAT_EOC) 0) with (Done FAT_EOC).
  cbn [bind]. change (FAT_EOC =? FAT_EOC) with true. cbv iota. cbn [bind].
  rewrite Hsz, Hoff. change (to_u32 (0 - to_int 0)) with 0.
  apply Z.ltb_lt in Hc. rewrite Hc.
  change (mem_read src 0 0) with (Done (@nil Z)). cbn [bind].
  change (Z.to_nat (0 * BLOCK_SIZE)) with 0%nat. cbn [replicate].
  change (mem_write [] (to_int 0) []) with (Done (@nil Z)). cbn [bind].
  change (to_int 0) with 0.
  rewrite (write_loop_no_progress fuel fuel _ 0 _ src st e) by assumption.
  reflexivity.
Qed.

Lemma first_fat_block_full_facts :
  snd (fs_mount (Some image_2_4096) initial_state) = 0
  /\ (let* '(_, fd) := fs_open name_a (fst (fs_mount (Some image_2_4096) initial_state)) in
      Done fd) = Done 1
  /\ (let st := first_fat_block_full in
      let* free := fat_get (fat st) 1 0 in
      Done (fs_mounted st, amt_data_blks (superblock st),
            num_blks_fat (superblock st), num_avail_data_blks st, free))
     = Done (1, 4096, 2, 4095, 0).
Proof. vm_compute. repeat split; reflexivity. Qed.

(** C1, on the code. With FAT block 0 full and FAT entry 2048, in FAT block
    1, free (the disk has 4096 data blocks), the allocation branch of
    [fs_write] allocates nothing and changes nothing: the scan stops after
    FAT block 0. *)
Theorem allocation_ignores_later_fat_blocks (inner : nat) (file_blocks arr : list Z) :
  fat_get (fat first_fat_block_full) 1 0 = Done 0
  /\ 2048 < amt_data_blks (superblock first_fat_block_full)
  /\ allocate_block inner 0 first_fat_block_full file_blocks arr 0
     = Done (first_fat_block_full, file_blocks, arr, 0).
Proof.
  split; [vm_compute; reflexivity|]. split; [vm_compute; reflexivity|].
  apply (allocate_block_first_block_full inner 0 _ (dir_entry name_a 0 FAT_EOC)).
  - vm_compute. reflexivity.
  - reflexivity.
  - eapply (scan_fat_block_none _ 0 _ 2048 0).
    + vm_compute. reflexivity.
    + lia.
    + vm_compute. discriminate.
    + vm_compute. reflexivity.
Qed.

(** C2, on the code. In that state [fs_write] of one byte to the empty file
    does not return, whatever the fuel: each pass of the outer loop writes
    nothing, allocates nothing and leaves the state as it was. *)
Theorem fs_write_never_returns_when_first_fat_block_full (fuel : nat) :
  fs_write fuel 1 (Some [120]) 1 first_fat_block_full = Timeout.
Proof.
  apply (fs_write_no_progress fuel 1 1 [120] _ 0
           {| idx_file_root_dir := 0; file_descriptor := 1; file_offset := 0 |}
           (dir_entry name_a 0 FAT_EOC)).
  - vm_compute. discriminate.
  - vm_compute. discriminate.
  - vm_compute. reflexivity.
  - vm_compute. discriminate.
  - vm_compute. reflexivity.
  - reflexivity.
  - vm_compute. reflexivity.
  - reflexivity.
  - reflexivity.
  - vm_compute. reflexivity.
  - lia.
  - vm_compute. reflexivity.
  - vm_compute. discriminate.
  - eapply (scan_fat_block_none _ 0 _ 2048 0).
    + vm_compute. reflexivity.
    + lia.
    + vm_compute. discriminate.
    + vm_compute. reflexivity.
Qed.

(** ** Open descriptors *)

Lemma find_fd_from_found (t : list struct_file_descriptor) (fd k : Z) (n : nat) (i : Z) :
  0 <= i <= k ->
  k < i + Z.of_nat n ->
  (forall j, i <= j < k ->
     exists d, t !! Z.to_nat j = Some d /\ file_descriptor d <> fd) ->
  (exists d, t !! Z.to_nat k = Some d /\ file_descriptor d = fd) ->
  find_fd_from n i fd t = Done k.
Proof.
  revert i. induction n as [|n IH]; intros i Hi Hk Hbefore Hat; [lia|].
  cbn [find_fd_from].
  destruct (Z.eq_dec i k) as [->|Hne].
  - destruct Hat as (d & Hd & Hfd).
    rewrite (arr_get_lookup t k d ltac:(lia) Hd). cbn [bind].
    apply Z.eqb_eq in Hfd. rewrite Hfd. reflexivity.
  - destruct (Hbefore i ltac:(lia)) as (d & Hd & Hfd).
    rewrite (arr_get_lookup t i d ltac:(lia) Hd). cbn [bind].
    apply Z.eqb_neq in Hfd. rewrite Hfd.
    apply IH; [lia | lia | intros j Hj; apply Hbefore; lia | exact Hat].
Qed.

Lemma find_fd_open (st : fs_state) (fd : Z) (d : struct_file_descriptor) :
  handles_wf (FD st) ->
  open_handle st fd d ->
  find_fd fd (FD st) = Done (fd - 1).
Proof.
  intros [Hlen Hwf] (Hfd & Hd & Hdesc).
  apply find_fd_from_found; [lia | lia | | eauto].
  intros j Hj.
  destruct (lookup_lt_is_Some_2 (FD st) (Z.to_nat j) ltac:(lia)) as [dj Hdj].
  exists dj. split; [exact Hdj|].
  destruct (Hwf _ _ Hdj) as [E|E]; rewrite E; lia.
Qed.

Lemma find_fd_from_absent (t : list struct_file_descriptor) (fd : Z) (n : nat) (i : Z) :
  0 <= i ->
  (forall j, i <= j < i + Z.of_nat n ->
     exists d, t !! Z.to_nat j = Some d /\ file_descriptor d <> fd) ->
  find_fd_from n i fd t = Done (i + Z.of_nat n).
Proof.
  revert i. induction n as [|n IH]; intros i Hi Hall.
  - cbn [find_fd_from]. f_equal. lia.
  - cbn [find_fd_from]. destruct (Hall i ltac:(lia)) as (d & Hd & Hfd).
    rewrite (arr_get_lookup t i d Hi Hd). cbn [bind].
    apply Z.eqb_neq in Hfd. rewrite Hfd.
    rewrite IH; [f_equal; lia | lia | intros j Hj; apply Hall; lia].
Qed.

(** A descriptor other than 0 that is not open is refused by [fs_close] and
    [fs_stat], and nothing changes. *)
Lemma closed_descriptor_rejected (fd : Z) (st : fs_state) :
  handles_wf (FD st) ->
  fd <> 0 ->
  (forall d, FD st !! Z.to_nat (fd - 1) = Some d -> 1 <= fd -> file_descriptor d <> fd) ->
  fs_close fd st = Done (st, -1) /\ fs_stat fd st = Done (-1).
Proof.
  intros [Hlen Hwf] Hnz Hclosed.
  assert (Hfind : find_fd fd (FD st) = Done 32).
  { apply (find_fd_from_absent (FD st) fd 32 0); [lia|]. intros j Hj.
    destruct (lookup_lt_is_Some_2 (FD st) (Z.to_nat j) ltac:(lia)) as [d Hd].
    exists d. split; [exact Hd|].
    destruct (Hwf _ _ Hd) as [E|E]; [lia|].
    destruct (Z.eq_dec fd (j + 1)) as [->|Hne]; [|lia].
    apply Hclosed; [|lia]. replace (j + 1 - 1) with j by lia. exact Hd. }
  unfold fs_close, fs_stat. destruct (_ || _); [split; reflexivity|].
  rewrite Hfind. split; reflexivity.
Qed.

(** ** What a call leaves alone *)

Lemma mem_write_length (dst src dst' : list Z) (off : Z) :
  mem_write dst off src = Done dst' -> length dst' = length dst.
Proof.
  unfold mem_write.
  destruct (Z.eqb_spec (Z.of_nat (length src)) 0) as [_|_].
  - intros H. inversion H. reflexivity.
  - destruct (Z.ltb_spec off 0) as [|Hoff]; [discriminate|].
    destruct (Z.ltb_spec (Z.of_nat (length dst)) (off + Z.of_nat (length src)))
      as [|Hfit]; [discriminate|].
    cbn [orb]. intros Hs. inversion Hs.
    rewrite !length_app, length_take, length_drop. lia.
Qed.

Lemma read_into_length (dev : device) (b off : Z) (arr arr' : list Z) :
  read_into dev b arr off = Done arr' -> length arr' = length arr.
Proof.
  unfold read_into. destruct (block_read dev b).
  - apply mem_write_length.
  - intros H. inversion H. reflexivity.
Qed.

Lemma load_blocks_length (n : nat) (dev : device) (fb : list Z) (k : Z)
    (arr arr' : list Z) :
  load_blocks n dev fb k arr = Done arr' -> length arr' = length arr.
Proof.
  revert k arr. induction n as [|n IH]; intros k arr H; [discriminate|].
  cbn [load_blocks] in H. inv_bind H as b Hb.
  destruct (b =? FAT_EOC).
  - inversion H. reflexivity.
  - inv_bind H as arr1 Hread. apply IH in H. rewrite H.
    apply (read_into_length _ _ _ _ _ Hread).
Qed.

Lemma collect_chain_bounds (n : nat) (f : list struct_fat_block) (start blk entry : Z)
    (counter : Z) (fb fb' : list Z) (counter' : Z) :
  collect_chain n f start blk entry counter fb = Done (fb', counter') ->
  length fb' = length fb
  /\ counter <= counter'
  /\ (counter' = counter \/ counter' <= Z.of_nat (length fb)).
Proof.
  revert blk entry counter fb.
  induction n as [|n IH]; intros blk entry counter fb H; [discriminate|].
  cbn [collect_chain] in H. inv_bind H as v Hv.
  destruct (v =? FAT_EOC).
  - inversion H; subst. lia.
  - inv_bind H as fb1 Hset. apply arr_set_inv in Hset. destruct Hset as [Hc ->].
    apply IH in H. rewrite length_insert in H. lia.
Qed.

Lemma list_file_blocks_bounds (j : Z) (st : fs_state) (fb : list Z) (counter : Z) :
  list_file_blocks j st = Done (fb, counter) ->
  length fb = Z.to_nat (amt_data_blks (superblock st))
  /\ 0 <= counter <= Z.of_nat (length fb).
Proof.
  unfold list_file_blocks. destruct (negb (j =? FAT_EOC)).
  - intros H. inv_bind H as fb0 Hset. apply arr_set_inv in Hset.
    destruct Hset as [Hc ->]. apply collect_chain_bounds in H.
    rewrite length_insert, length_replicate in H.
    rewrite length_replicate in Hc. lia.
  - intros H. inversion H. rewrite length_replicate. lia.
Qed.

Lemma write_bytes_FD (fuel : nat) (x offset cnt : Z) (buf : list Z) (counter : Z)
    (st : fs_state) (arr : list Z) (z : Z) (st' : fs_state) (arr' : list Z) (z' : Z) :
  write_bytes fuel x offset cnt buf counter st arr z = Done (st', arr', z') ->
  FD st' = FD st.
Proof.
  revert st arr z. induction fuel as [|fuel IH]; intros st arr z H; [discriminate|].
  cbn [write_bytes] in H.
  destruct (counter =? 0); [inversion H; reflexivity|].
  inv_bind H as p Hp. destruct (negb _); [inversion H; reflexivity|].
  destruct (z =? cnt); [inversion H; reflexivity|].
  inv_bind H as c Hc. inv_bind H as arr1 Harr1.
  inv_bind H as e He. inv_bind H as dir' Hdir.
  apply IH in H. exact H.
Qed.

Lemma allocate_block_FD (fuel : nat) (x : Z) (st : fs_state) (fb arr : list Z)
    (counter : Z) (st' : fs_state) (fb' arr' : list Z) (counter' : Z) :
  allocate_block fuel x st fb arr counter = Done (st', fb', arr', counter') ->
  FD st' = FD st.
Proof.
  unfold allocate_block. intros H.
  inv_bind H as e He. inv_bind H as [blk entry] Htail.
  destruct (0 <? num_blks_fat (superblock st)); [|inversion H; reflexivity].
  inv_bind H as found Hscan. destruct found as [dd|]; [|inversion H; reflexivity].
  inv_bind H as f1 Hf1. inv_bind H as f2 Hf2. inv_bind H as fb1 Hfb1.
  inv_bind H as dir' Hdir. inv_bind H as b Hb. inv_bind H as arr2 Hread.
  inversion H. reflexivity.
Qed.

Lemma write_loop_FD (fuel inner : nat) (x offset cnt : Z) (buf : list Z)
    (st : fs_state) (fb arr : list Z) (counter z : Z)
    (st' : fs_state) (fb' arr' : list Z) (counter' z' : Z) :
  write_loop fuel inner x offset cnt buf st fb arr counter z
  = Done (st', fb', arr', counter', z') ->
  FD st' = FD st.
Proof.
  revert st fb arr counter z.
  induction fuel as [|fuel IH]; intros st fb arr counter z H; [discriminate|].
  cbn [write_loop] in H.
  destruct (z <? cnt); [|inversion H; reflexivity].
  inv_bind H as [[st1 arr1] z1] Hbytes.
  apply write_bytes_FD in Hbytes.
  destruct (z1 <? cnt); [|inversion H; subst; exact Hbytes].
  destruct (num_avail_data_blks st1 =? 0); [inversion H; subst; exact Hbytes|].
  inv_bind H as [[[st2 fb2] arr2] counter2] Halloc.
  apply allocate_block_FD in Halloc. apply IH in H. congruence.
Qed.

Lemma fs_write_FD (fuel : nat) (fd count : Z) (buf : option (list Z))
    (st st' : fs_state) (r : Z) :
  fs_write fuel fd buf count st = Done (st', r) -> FD st' = FD st.
Proof.
  unfold fs_write. intros H.
  destruct buf as [src|]; [|inversion H; reflexivity].
  destruct (_ || _); [inversion H; reflexivity|].
  inv_bind H as i Hi. destruct (i =? FS_OPEN_MAX_COUNT); [inversion H; reflexivity|].
  inv_bind H as d Hd. inv_bind H as e He. inv_bind H as [fb counter] Hfb.
  inv_bind H as arr0 Hload. inv_bind H as data Hdata. inv_bind H as arr Harr.
  inv_bind H as [[[[st1 fb1] arr1] counter1] z1] Hloop.
  inv_bind H as dev Hstore. inv_bind H as dev' Hfat. inversion H; subst.
  apply write_loop_FD in Hloop. exact Hloop.
Qed.

Lemma mem_read_inv (src data : list Z) (off n : Z) :
  mem_read src off n = Done data ->
  (n = 0 /\ data = [])
  \/ (0 <= off /\ 0 < n /\ off + n <= Z.of_nat (length src)
      /\ data = take (Z.to_nat n) (drop (Z.to_nat off) src)).
Proof.
  unfold mem_read. destruct (Z.eqb_spec n 0) as [->|Hn].
  - intros H. inversion H. left. split; reflexivity.
  - destruct (Z.ltb_spec off 0); [discriminate|].
    destruct (Z.ltb_spec n 0); [discriminate|].
    destruct (Z.ltb_spec (Z.of_nat (length src)) (off + n)); [discriminate|].
    cbn [orb]. intros Hs. inversion Hs. right. repeat split; lia.
Qed.

Lemma to_int_small (x : Z) : 0 <= x < 2147483648 -> to_int x = x.
Proof. intros H. unfold to_int. rewrite Z.mod_small by lia. lia. Qed.

Lemma to_size_t_small (x : Z) : 0 <= x < 18446744073709551616 -> to_size_t x = x.
Proof. intros H. unfold to_size_t. apply Z.mod_small. exact H. Qed.

Lemma to_u32_small (x : Z) : 0 <= x < 4294967296 -> to_u32 x = x.
Proof. intros H. unfold to_u32. apply Z.mod_small. exact H. Qed.

Lemma to_u16_small (x : Z) : 0 <= x < 65536 -> to_u16 x = x.
Proof. intros H. unfold to_u16. apply Z.mod_small. exact H. Qed.

Lemma set_file_offset_same (d : struct_file_descriptor) :
  set_file_offset (file_offset d) d = d.
Proof. destruct d. reflexivity. Qed.

(** ** Offsets of the handles *)

(** The handle table after an [fs_read] that returns [r >= 0]. *)
Lemma fs_read_FD (fd count : Z) (buf : option (list Z)) (st : fs_state)
    (d : struct_file_descriptor) :
  handles_wf (FD st) ->
  open_handle st fd d ->
  0 <= file_offset d < 18446744073709551616 ->
  amt_data_blks (superblock st) < 65536 ->
  forall st' r buf',
    fs_read fd buf count st = Done (st', r, buf') ->
    0 <= r ->
    FD st' = <[Z.to_nat (fd - 1) := set_file_offset (file_offset d + r) d]> (FD st).
Proof.
  intros Hwf Hopen Hoff HD.
  intros st' r buf' H Hr. unfold fs_read in H.
  pose proof (find_fd_open st fd d Hwf Hopen) as Hfind.
  destruct Hopen as (Hfd & Hd & _).
  destruct buf as [out|]; [|inversion H; lia].
  destruct (_ || _); [inversion H; lia|].
  rewrite Hfind in H. cbn [bind] in H. unfold FS_OPEN_MAX_COUNT in H.
  destruct (Z.eqb_spec (fd - 1) 32) as [|_]; [lia|].
  rewrite (arr_get_lookup (FD st) (fd - 1) d ltac:(lia) Hd) in H. cbn [bind] in H.
  inv_bind H as e He. inv_bind H as [fb counter] Hfb.
  apply list_file_blocks_bounds in Hfb. destruct Hfb as [Hlen Hcounter].
  destruct (idx_first_data_blk e =? FAT_EOC).
  { inversion H; subst. rewrite Z.add_0_r, set_file_offset_same.
    symmetry. apply list_insert_id. exact Hd. }
  inv_bind H as arr Harr. apply load_blocks_length in Harr.
  rewrite length_replicate in Harr.
  inv_bind H as data Hdata. inv_bind H as out' Hout. inv_bind H as t Ht.
  apply arr_set_inv in Ht. destruct Ht as [_ ->].
  inversion H; subst. cbn [FD set_FD]. f_equal. f_equal.
  set (actual := if to_size_t (size_file e - file_offset d) <? count
                 then to_size_t (size_file e - file_offset d) else count) in *.
  assert (Hbound : Z.of_nat (length arr) < 2147483648).
  { rewrite Harr. unfold BLOCK_SIZE. lia. }
  apply mem_read_inv in Hdata.
  destruct Hdata as [[Hz _] | (Hoff0 & Hpos & Hfit & _)].
  - rewrite Hz. change (to_int 0) with 0. rewrite Z.add_0_r. cbn [to_int].
    apply to_size_t_small. exact Hoff.
  - rewrite (to_int_small actual) by lia. apply to_size_t_small. lia.
Qed.

(** C5. For an open descriptor: after an [fs_read] that returns [r >= 0]
    the handle of the descriptor has its offset moved forward by [r], the
    same file and the same descriptor, and every other slot of the handle
    table is as before; an [fs_write] that returns leaves the whole handle
    table, the offset of the handle with it, as it was. *)
Theorem read_advances_write_keeps_offset (fuel : nat) (fd count : Z)
    (buf : option (list Z)) (st : fs_state) (d : struct_file_descriptor) :
  handles_wf (FD st) ->
  open_handle st fd d ->
  0 <= file_offset d < 18446744073709551616 ->
  amt_data_blks (superblock st) < 65536 ->
  (forall st' r buf',
     fs_read fd buf count st = Done (st', r, buf') ->
     0 <= r ->
     (exists d',
        FD st' !! Z.to_nat (fd - 1) = Some d'
        /\ file_offset d' = file_offset d + r
        /\ idx_file_root_dir d' = idx_file_root_dir d
        /\ file_descriptor d' = file_descriptor d)
     /\ length (FD st') = length (FD st)
     /\ forall j, j <> Z.to_nat (fd - 1) -> FD st' !! j = FD st !! j)
  /\ (forall st' r,
        fs_write fuel fd buf count st = Done (st', r) ->
        FD st' = FD st /\ FD st' !! Z.to_nat (fd - 1) = Some d).
Proof.
  intros Hwf Hopen Hoff HD. split.
  - intros st' r buf' H Hr.
    rewrite (fs_read_FD fd count buf st d Hwf Hopen Hoff HD st' r buf' H Hr).
    destruct Hopen as (Hfd & Hd & _). apply lookup_lt_Some in Hd.
    split; [|split].
    + exists (set_file_offset (file_offset d + r) d).
      split; [apply list_lookup_insert_eq; exact Hd|].
      split; [|split]; reflexivity.
    + apply length_insert.
    + intros j Hj. apply list_lookup_insert_ne. intros E. apply Hj. symmetry. exact E.
  - intros st' r H. apply fs_write_FD in H. rewrite H.
    split; [reflexivity | exact (proj1 (proj2 Hopen))].
Qed.

(** ** Reading a file *)

Lemma insert_replicate_front (pre : list Z) (r : nat) (x : Z) :
  <[length pre := x]> (pre ++ replicate (S r) FAT_EOC)
  = (pre ++ [x]) ++ replicate r FAT_EOC.
Proof.
  rewrite insert_app_r_alt by lia. rewrite Nat.sub_diag.
  cbn [replicate]. rewrite <- app_assoc. reflexivity.
Qed.

Lemma collect_chain_spec (f : list struct_fat_block) (start : Z) (rest : list Z) :
  forall (j : Z) (n r : nat) (pre : list Z),
    chain_from f j rest ->
    (length rest < n)%nat ->
    (length rest <= r)%nat ->
    collect_chain n f start (j / NUM_ENTRIES_FAT_BLK) (j mod NUM_ENTRIES_FAT_BLK)
      (Z.of_nat (length pre)) (pre ++ replicate r FAT_EOC)
    = Done (pre ++ map (fun c => to_u16 (start + c)) rest
              ++ replicate (r - length rest) FAT_EOC,
            Z.of_nat (length pre) + Z.of_nat (length rest)).
Proof.
  induction rest as [|v rest IH]; intros j n r pre Hchain Hn Hr.
  - destruct n as [|n]; [cbn in Hn; lia|].
    cbn [chain_from] in Hchain. cbn [collect_chain]. rewrite Hchain. cbn [bind].
    change (FAT_EOC =? FAT_EOC) with true. cbv iota.
    cbn [map length app]. rewrite Nat.sub_0_r, Z.add_0_r. reflexivity.
  - destruct n as [|n]; [cbn in Hn; lia|].
    destruct r as [|r]; [cbn in Hr; lia|].
    cbn [chain_from] in Hchain. destruct Hchain as (Hv & Hne & Hchain).
    cbn [collect_chain]. rewrite Hv. cbn [bind].
    apply Z.eqb_neq in Hne. rewrite Hne.
    rewrite arr_set_Done by (rewrite length_app, length_replicate; lia).
    cbn [bind]. rewrite Nat2Z.id, insert_replicate_front.
    replace (Z.of_nat (length pre) + 1)
      with (Z.of_nat (length (pre ++ [to_u16 (start + v)])))
      by (rewrite length_app; cbn [length]; lia).
    rewrite (IH v n r) by (cbn [length] in *; assumption || lia).
    rewrite length_app. cbn [length map]. rewrite <- app_assoc.
    cbn [app]. rewrite Nat.sub_succ. f_equal. f_equal. lia.
Qed.

Lemma list_file_blocks_chain (st : fs_state) (j : Z) (rest : list Z) :
  j <> FAT_EOC ->
  chain_from (fat st) j rest ->
  Z.of_nat (length (j :: rest)) <= amt_data_blks (superblock st) ->
  list_file_blocks j st
  = Done (map (fun c => to_u16 (data_blk_start_idx (superblock st) + c)) (j :: rest)
            ++ replicate (Z.to_nat (amt_data_blks (superblock st)) - length (j :: rest))
                 FAT_EOC,
          Z.of_nat (length (j :: rest))).
Proof.
  intros Hj Hchain Hlen. unfold list_file_blocks.
  apply Z.eqb_neq in Hj. rewrite Hj. cbn [negb].
  cbn [length] in Hlen.
  destruct (Z.to_nat (amt_data_blks (superblock st))) as [|r] eqn:ED; [lia|].
  rewrite arr_set_Done by (rewrite length_replicate; lia).
  cbn [bind]. change (Z.to_nat 0) with 0%nat.
  change (<[0%nat := ?x]> (replicate (S r) FAT_EOC)) with ([x] ++ replicate r FAT_EOC).
  rewrite length_replicate.
  change 1 with (Z.of_nat (length [to_u16 (data_blk_start_idx (superblock st) + j)])).
  rewrite (collect_chain_spec (fat st) _ rest j (S (S r)) r)
    by (assumption || lia).
  cbn [length map app]. rewrite Nat.sub_succ. f_equal. f_equal. lia.
Qed.

Lemma mem_write_app (done todo blk : list Z) :
  (length blk <= length todo)%nat ->
  mem_write (done ++ todo) (Z.of_nat (length done)) blk
  = Done (done ++ blk ++ drop (length blk) todo).
Proof.
  intros Hfit. unfold mem_write.
  destruct (Z.eqb_spec (Z.of_nat (length blk)) 0) as [E|E].
  - destruct blk; [|cbn in E; lia]. cbn [app length drop]. reflexivity.
  - destruct (Z.ltb_spec (Z.of_nat (length done)) 0); [lia|].
    destruct (Z.ltb_spec (Z.of_nat (length (done ++ todo)))
                (Z.of_nat (length done) + Z.of_nat (length blk))) as [Hbad|_].
    { rewrite length_app in Hbad. lia. }
    cbn [orb]. rewrite Nat2Z.id.
    rewrite take_app_length. rewrite drop_app_add'; [reflexivity|reflexivity].
Qed.

Lemma load_blocks_spec (st : fs_state) (cs : list Z) :
  forall (n r : nat) (pre done todo : list Z),
    Forall (data_block_ok st) cs ->
    (length cs < n)%nat ->
    Z.of_nat (length done) = Z.of_nat (length pre) * BLOCK_SIZE ->
    Z.of_nat (length cs) * BLOCK_SIZE <= Z.of_nat (length todo) ->
    load_blocks n (disk st)
      (pre ++ map (fun c => to_u16 (data_blk_start_idx (superblock st) + c)) cs
           ++ replicate (S r) FAT_EOC)
      (Z.of_nat (length pre)) (done ++ todo)
    = Done (done ++ file_content st cs
              ++ drop (Z.to_nat (Z.of_nat (length cs) * BLOCK_SIZE)) todo).
Proof.
  induction cs as [|c cs IH]; intros n r pre done todo Hok Hn Hdone Htodo.
  - destruct n as [|n]; [cbn in Hn; lia|].
    cbn [load_blocks map app].
    rewrite (arr_get_nat _ (length pre) FAT_EOC)
      by (rewrite lookup_app_r by lia; rewrite Nat.sub_diag; reflexivity).
    cbn [bind]. change (FAT_EOC =? FAT_EOC) with true. cbv iota.
    cbn [file_content map concat length app]. reflexivity.
  - destruct n as [|n]; [cbn in Hn; lia|].
    inversion Hok as [|c' cs' (Hrange & blk & Hblk & Hlen) Hok']; subst c' cs'.
    cbn [load_blocks map app].
    rewrite (to_u16_small (data_blk_start_idx (superblock st) + c)) by lia.
    rewrite (arr_get_nat _ (length pre) (data_blk_start_idx (superblock st) + c))
      by (rewrite lookup_app_r by lia; rewrite Nat.sub_diag; reflexivity).
    cbn [bind].
    destruct (Z.eqb_spec (data_blk_start_idx (superblock st) + c) FAT_EOC) as [E|_];
      [unfold FAT_EOC in E; lia|].
    unfold read_into. unfold data_block in Hblk. rewrite Hblk.
    rewrite <- Hdone. cbn [length] in Htodo, Hn.
    unfold BLOCK_SIZE in *.
    rewrite mem_write_app by lia. cbn [bind].
    replace (Z.of_nat (length pre) + 1)
      with (Z.of_nat (length (pre ++ [data_blk_start_idx (superblock st) + c])))
      by (rewrite length_app; cbn [length]; lia).
    change (?x :: map ?g cs ++ ?t) with ([x] ++ map g cs ++ t).
    rewrite (app_assoc pre), (app_assoc done).
    rewrite (IH n r) by
      (try assumption; rewrite ?length_app, ?length_drop; cbn [length]; lia).
    rewrite <- app_assoc. rewrite drop_drop.
    unfold file_content. cbn [map concat]. unfold data_block at 2.
    rewrite Hblk. change (default [] (Some blk)) with blk.
    rewrite <- app_assoc. cbn [length].
    replace (length blk + Z.to_nat (Z.of_nat (length cs) * 4096))%nat
      with (Z.to_nat (Z.of_nat (S (length cs)) * 4096)) by lia.
    reflexivity.
Qed.

Lemma file_content_length (st : fs_state) (cs : list Z) :
  Forall (data_block_ok st) cs ->
  Z.of_nat (length (file_content st cs)) = Z.of_nat (length cs) * BLOCK_SIZE.
Proof.
  induction 1 as [|c cs (_ & blk & Hblk & Hlen) _ IH]; [reflexivity|].
  unfold file_content in *. cbn [map concat length].
  rewrite length_app, Hblk. change (default [] (Some blk)) with blk.
  unfold BLOCK_SIZE in *. lia.
Qed.

Lemma mem_read_ok (src : list Z) (off n : Z) :
  0 <= off -> 0 <= n -> off + n <= Z.of_nat (length src) ->
  mem_read src off n = Done (take (Z.to_nat n) (drop (Z.to_nat off) src)).
Proof.
  intros Hoff Hn Hfit. unfold mem_read.
  destruct (Z.eqb_spec n 0) as [->|Hnz]; [reflexivity|].
  destruct (Z.ltb_spec off 0); [lia|].
  destruct (Z.ltb_spec n 0); [lia|].
  destruct (Z.ltb_spec (Z.of_nat (length src)) (off + n)); [lia|].
  reflexivity.
Qed.

Lemma mem_write_front (dst src : list Z) :
  (length src <= length dst)%nat ->
  mem_write dst 0 src = Done (src ++ drop (length src) dst).
Proof. intros H. apply (mem_write_app [] dst src H). Qed.

(** C3. For a mounted state and an open descriptor whose offset is within
    the file: [fs_read] returns 0 when the file has no first block;
    otherwise, the chain of the file being on the disk and holding the
    file's bytes, it returns [eff = min(count, size_file - offset)], stores
    the bytes [offset, offset + eff) of the file's content at the front of
    the buffer and moves the offset forward by [eff]. *)
Theorem fs_read_returns_file_bytes (fd count : Z) (out : list Z) (st : fs_state)
    (d : struct_file_descriptor) (e : struct_root_dir_entry) (rest : list Z) :
  fs_mounted st <> 0 ->
  handles_wf (FD st) ->
  open_handle st fd d ->
  arr_get (root_directory st) (idx_file_root_dir d) = Done e ->
  0 <= file_offset d <= size_file e ->
  0 <= count <= Z.of_nat (length out) ->
  amt_data_blks (superblock st) < 65536 ->
  (idx_first_data_blk e = FAT_EOC ->
   fs_read fd (Some out) count st = Done (st, 0, Some out))
  /\ (idx_first_data_blk e <> FAT_EOC ->
      let cs := idx_first_data_blk e :: rest in
      let eff := Z.min count (size_file e - file_offset d) in
      chain_from (fat st) (idx_first_data_blk e) rest ->
      Z.of_nat (length cs) < amt_data_blks (superblock st) ->
      Forall (data_block_ok st) cs ->
      size_file e <= Z.of_nat (length (file_content st cs)) ->
      fs_read fd (Some out) count st
      = Done (set_FD (<[Z.to_nat (fd - 1) :=
                         set_file_offset (file_offset d + eff) d]> (FD st)) st,
              eff,
              Some (slice (file_content st cs) (file_offset d) eff
                    ++ drop (Z.to_nat eff) out))).
Proof.
  intros Hm Hwf Hopen He Hoff Hcount HD.
  pose proof (find_fd_open st fd d Hwf Hopen) as Hfind.
  destruct Hopen as (Hfd & Hd & _). destruct Hwf as [Htable _].
  assert (Hstart : fs_read fd (Some out) count st
    = let* '(file_blocks, counter) := list_file_blocks (idx_first_data_blk e) st in
      if idx_first_data_blk e =? FAT_EOC then Done (st, 0, Some out)
      else
        let* arr := load_blocks (S (length file_blocks)) (disk st) file_blocks 0
                      (replicate (Z.to_nat (counter * BLOCK_SIZE)) uninit) in
        let room := to_size_t (size_file e - file_offset d) in
        let actual_count := if room <? count then room else count in
        let* data := mem_read arr (file_offset d) actual_count in
        let* out' := mem_write out 0 data in
        let* t := arr_set (FD st) (fd - 1)
                    (set_file_offset (to_size_t (file_offset d + actual_count)) d) in
        Done (set_FD t st, to_int actual_count, Some out')).
  { unfold fs_read. apply Z.eqb_neq in Hm. rewrite Hm.
    unfold FS_OPEN_MAX_COUNT. destruct (Z.ltb_spec 32 fd); [lia|]. cbn [orb].
    rewrite Hfind. cbn [bind].
    destruct (Z.eqb_spec (fd - 1) 32); [lia|].
    rewrite (arr_get_lookup (FD st) (fd - 1) d ltac:(lia) Hd). cbn [bind].
    rewrite He. cbn [bind]. reflexivity. }
  split.
  - intros HE. rewrite Hstart. unfold list_file_blocks. rewrite HE.
    reflexivity.
  - intros HE cs eff Hchain HL Hok Hsize. rewrite Hstart.
    rewrite (list_file_blocks_chain st _ rest HE Hchain ltac:(fold cs; lia)).
    fold cs. cbn [bind]. apply Z.eqb_neq in HE. rewrite HE.
    pose proof (file_content_length st cs Hok) as Hclen.
    unfold BLOCK_SIZE in *.
    destruct (Z.to_nat (amt_data_blks (superblock st)) - length cs)%nat
      as [|r] eqn:Er; [lia|].
    rewrite (load_blocks_spec st cs _ r [] []
               (replicate (Z.to_nat (Z.of_nat (length cs) * 4096)) uninit) Hok)
      by (rewrite ?length_app, ?length_map, ?length_replicate;
          unfold BLOCK_SIZE; cbn [length]; lia).
    cbn [bind app]. unfold BLOCK_SIZE.
    rewrite drop_ge by (rewrite length_replicate; lia). rewrite app_nil_r.
    rewrite to_size_t_small by lia.
    assert (Hact : (if size_file e - file_offset d <? count
                    then size_file e - file_offset d else count) = eff).
    { unfold eff. destruct (Z.ltb_spec (size_file e - file_offset d) count); lia. }
    rewrite Hact.
    assert (Heff : 0 <= eff <= size_file e - file_offset d) by (unfold eff; lia).
    rewrite mem_read_ok by lia. cbn [bind]. fold (slice (file_content st cs) (file_offset d) eff).
    assert (Hslice : length (slice (file_content st cs) (file_offset d) eff) = Z.to_nat eff).
    { unfold slice. rewrite length_take, length_drop. lia. }
    rewrite mem_write_front by (rewrite Hslice; lia). cbn [bind].
    rewrite Hslice.
    rewrite arr_set_Done by lia. cbn [bind].
    rewrite to_size_t_small by lia.
    rewrite to_int_small by lia.
    reflexivity.
Qed.

(** ** Writing *)

Lemma set_size_file_twice (a b : Z) (e : struct_root_dir_entry) :
  set_size_file a (set_size_file b e) = set_size_file a e.
Proof. reflexivity. Qed.

Lemma set_root_directory_twice (a b : list struct_root_dir_entry) (st : fs_state) :
  set_root_directory a (set_root_directory b st) = set_root_directory a st.
Proof. reflexivity. Qed.

(** The inner loop of [fs_write] appends [m] bytes: it stops at the end of
    the request or at the end of the last block, whichever comes first. *)
Lemma write_bytes_fill (x offset cnt : Z) (buf : list Z) (counter : Z) (m : nat) :
  forall (fuel : nat) (st : fs_state) (e : struct_root_dir_entry) (arr : list Z) (z : Z),
    0 < counter ->
    0 <= z -> 0 <= offset ->
    z + Z.of_nat m <= cnt ->
    z + offset + Z.of_nat m <= counter * BLOCK_SIZE ->
    z + Z.of_nat m = cnt \/ z + offset + Z.of_nat m = counter * BLOCK_SIZE ->
    counter * BLOCK_SIZE <= Z.of_nat (length arr) ->
    counter * BLOCK_SIZE <= INT_MAX ->
    cnt <= Z.of_nat (length buf) ->
    arr_get (root_directory st) x = Done e ->
    0 <= size_file e -> size_file e + Z.of_nat m < 4294967296 ->
    (m < fuel)%nat ->
    exists arr',
      write_bytes fuel x offset cnt buf counter st arr z
      = Done (set_root_directory
                (<[Z.to_nat x := set_size_file (size_file e + Z.of_nat m) e]>
                   (root_directory st)) st,
              arr', z + Z.of_nat m)
      /\ length arr' = length arr.
Proof.
  induction m as [|m IH];
    intros fuel st e arr z Hc Hz Hoff Hcnt Hroom Hstop Harr Hmax Hbuf He Hsz Hsz' Hfuel;
    unfold BLOCK_SIZE in *.
  - destruct fuel as [|fuel]; [lia|].
    exists arr. split; [|reflexivity].
    cbn [write_bytes]. unfold BLOCK_SIZE. destruct (Z.eqb_spec counter 0); [lia|].
    unfold int_add. unfold INT_MIN, INT_MAX in *.
    destruct (Z.ltb_spec (z + offset) (-2147483648)); [lia|].
    destruct (Z.ltb_spec 2147483647 (z + offset)); [lia|].
    cbn [orb bind].
    apply arr_get_Done in He. destruct He as [Hx He].
    assert (Hsame : set_root_directory
                      (<[Z.to_nat x := set_size_file (size_file e + Z.of_nat 0) e]>
                         (root_directory st)) st = st).
    { rewrite Z.add_0_r.
      replace (set_size_file (size_file e) e) with e by (destruct e; reflexivity).
      rewrite list_insert_id by exact He. destruct st; reflexivity. }
    rewrite Hsame, Z.add_0_r.
    destruct Hstop as [Hend | Hfull].
    + destruct (Z.eqb_spec ((z + offset) ÷ (counter * 4096)) 0); cbn [negb].
      * destruct (Z.eqb_spec z cnt); [reflexivity | lia].
      * reflexivity.
    + replace (z + offset) with (counter * 4096) by lia.
      rewrite Z.quot_same by lia. reflexivity.
  - destruct fuel as [|fuel]; [lia|].
    cbn [write_bytes]. unfold BLOCK_SIZE. destruct (Z.eqb_spec counter 0); [lia|].
    unfold int_add. unfold INT_MIN, INT_MAX in *.
    destruct (Z.ltb_spec (z + offset) (-2147483648)); [lia|].
    destruct (Z.ltb_spec 2147483647 (z + offset)); [lia|].
    cbn [orb bind].
    rewrite Z.quot_small by lia. cbn [negb Z.eqb].
    destruct (Z.eqb_spec z cnt); [lia|].
    destruct (lookup_lt_is_Some_2 buf (Z.to_nat z) ltac:(lia)) as [c Hcz].
    rewrite (arr_get_lookup buf z c Hz Hcz). cbn [bind].
    rewrite arr_set_Done by lia. cbn [bind].
    rewrite He. cbn [bind].
    pose proof He as He'. apply arr_get_Done in He'. destruct He' as [Hx Hlook].
    rewrite arr_set_Done by (apply lookup_lt_Some in Hlook; lia). cbn [bind].
    rewrite to_u32_small by lia.
    destruct (IH fuel
                (set_root_directory
                   (<[Z.to_nat x := set_size_file (size_file e + 1) e]>
                      (root_directory st)) st)
                (set_size_file (size_file e + 1) e)
                (<[Z.to_nat (z + offset) := c]> arr) (z + 1))
      as (arr' & Hrun & Hlen); try lia.
    { rewrite length_insert. lia. }
    { apply arr_get_lookup; [lia|]. cbn [root_directory set_root_directory].
      apply list_lookup_insert_eq. apply lookup_lt_Some in Hlook. exact Hlook. }
    { cbn [size_file set_size_file]. lia. }
    { cbn [size_file set_size_file]. lia. }
    exists arr'. split; [|rewrite Hlen; apply length_insert].
    rewrite Hrun. cbn [root_directory set_root_directory size_file set_size_file].
    rewrite list_insert_insert_eq, set_size_file_twice, set_root_directory_twice.
    replace (size_file e + 1 + Z.of_nat m) with (size_file e + Z.of_nat (S m)) by lia.
    replace (z + 1 + Z.of_nat m) with (z + Z.of_nat (S m)) by lia.
    reflexivity.
Qed.

Lemma BLOCK_SIZE_val : BLOCK_SIZE = 4096.
Proof. reflexivity. Qed.

Opaque BLOCK_SIZE.

(** [fs_write] on an open descriptor, past the look-up of its handle [d]
    and of its directory entry [e]. *)
Lemma fs_write_open (fuel : nat) (fd count : Z) (src : list Z) (st : fs_state)
    (d : struct_file_descriptor) (e : struct_root_dir_entry) :
  fs_mounted st <> 0 ->
  handles_wf (FD st) ->
  open_handle st fd d ->
  arr_get (root_directory st) (idx_file_root_dir d) = Done e ->
  fs_write fuel fd (Some src) count st
  = let x := idx_file_root_dir d in
    let* '(file_blocks, counter) := list_file_blocks (idx_first_data_blk e) st in
    let* arr := load_blocks (S (length file_blocks)) (disk st) file_blocks 0
                  (replicate (Z.to_nat (counter * BLOCK_SIZE)) uninit) in
    let offset := to_int (file_offset d) in
    let room := to_u32 (size_file e - offset) in
    let actual_count := if room <? count then room else count in
    let* data := mem_read src 0 actual_count in
    let* arr := mem_write arr offset data in
    let z := to_int actual_count in
    let* '(st, file_blocks, arr, counter, z) :=
      write_loop fuel fuel x offset (to_int count) src st file_blocks arr
        counter z in
    let* dev := store_blocks (S (length file_blocks)) file_blocks arr 0
                  (disk st) in
    let dev := block_write dev (root_dir_blk_idx (superblock st))
                 (serialize_root_directory (root_directory st)) in
    let* dev := write_fat_blocks (Z.to_nat (num_blks_fat (superblock st))) 1
                  (fat st) dev in
    Done (set_disk dev st, z).
Proof.
  intros Hm Hwf Hopen He.
  pose proof (find_fd_open st fd d Hwf Hopen) as Hfind.
  destruct Hopen as (Hfd & Hd & _).
  unfold fs_write. apply Z.eqb_neq in Hm. rewrite Hm.
  unfold FS_OPEN_MAX_COUNT. destruct (Z.ltb_spec 32 fd); [lia|]. cbn [orb].
  rewrite Hfind. cbn [bind].
  destruct (Z.eqb_spec (fd - 1) 32); [lia|].
  rewrite (arr_get_lookup (FD st) (fd - 1) d ltac:(lia) Hd). cbn [bind].
  rewrite He. cbn [bind]. reflexivity.
Qed.

Lemma fat_get_inv (f : list struct_fat_block) (blk entry v : Z) :
  fat_get f blk entry = Done v ->
  exists b, arr_get f blk = Done b /\ arr_get b entry = Done v.
Proof. unfold fat_get. intros H. inv_bind H as b Hb. eauto. Qed.

Lemma fat_set_Done (f : list struct_fat_block) (b : struct_fat_block) (blk entry v : Z) :
  arr_get f blk = Done b ->
  0 <= entry < Z.of_nat (length b) ->
  fat_set f blk entry v
  = Done (<[Z.to_nat blk := <[Z.to_nat entry := v]> b]> f).
Proof.
  intros Hb Hentry. unfold fat_set. rewrite Hb. cbn [bind].
  rewrite arr_set_Done by exact Hentry. cbn [bind].
  apply arr_get_Done in Hb. destruct Hb as [Hblk Hb].
  apply lookup_lt_Some in Hb. apply arr_set_Done. lia.
Qed.

Lemma arr_get_length {A : Type} (l : list A) (i : Z) (a : A) :
  arr_get l i = Done a -> 0 <= i < Z.of_nat (length l).
Proof.
  intros H. apply arr_get_Done in H. destruct H as [Hi H].
  apply lookup_lt_Some in H. lia.
Qed.

(** The scan returns the first free entry of the FAT block. *)
Lemma scan_fat_block_first_free (f : list struct_fat_block) (c k : Z) (n : nat) (d : Z) :
  d <= k < d + Z.of_nat n ->
  (forall j, d <= j < k -> exists v, fat_get f c j = Done v /\ v <> 0) ->
  fat_get f c k = Done 0 ->
  scan_fat_block n d f c = Done (Some k).
Proof.
  revert d. induction n as [|n IH]; intros d Hk Hbefore Hfree; [lia|].
  cbn [scan_fat_block]. destruct (Z.eq_dec d k) as [->|Hne].
  - rewrite Hfree. reflexivity.
  - destruct (Hbefore d ltac:(lia)) as (v & Hv & Hnz).
    rewrite Hv. cbn [bind]. apply Z.eqb_neq in Hnz. rewrite Hnz.
    apply IH; [lia | intros j Hj; apply Hbefore; lia | exact Hfree].
Qed.

(** The inner loop of [fs_write] copies [m] bytes of the buffer into the
    last block. *)
Lemma write_bytes_copy (x offset cnt : Z) (buf : list Z) (counter : Z) (m : nat) :
  forall (fuel : nat) (st : fs_state) (e : struct_root_dir_entry) (arr : list Z) (z : Z),
    0 < counter ->
    0 <= z -> 0 <= offset ->
    z + Z.of_nat m <= cnt ->
    z + offset + Z.of_nat m <= counter * BLOCK_SIZE ->
    z + Z.of_nat m = cnt \/ z + offset + Z.of_nat m = counter * BLOCK_SIZE ->
    counter * BLOCK_SIZE <= Z.of_nat (length arr) ->
    counter * BLOCK_SIZE <= INT_MAX ->
    cnt <= Z.of_nat (length buf) ->
    arr_get (root_directory st) x = Done e ->
    0 <= size_file e -> size_file e + Z.of_nat m < 4294967296 ->
    (m < fuel)%nat ->
    write_bytes fuel x offset cnt buf counter st arr z
    = Done (set_root_directory
              (<[Z.to_nat x := set_size_file (size_file e + Z.of_nat m) e]>
                 (root_directory st)) st,
            take (Z.to_nat (z + offset)) arr ++ take m (drop (Z.to_nat z) buf)
              ++ drop (Z.to_nat (z + offset) + m) arr,
            z + Z.of_nat m).
Proof.
  pose proof BLOCK_SIZE_val as HB.
  induction m as [|m IH];
    intros fuel st e arr z Hc Hz Hoff Hcnt Hroom Hstop Harr Hmax Hbuf He Hsz Hsz' Hfuel.
  - destruct fuel as [|fuel]; [lia|].
    rewrite take_0, app_nil_l, Nat.add_0_r, take_drop.
    cbn [write_bytes]. destruct (Z.eqb_spec counter 0); [lia|].
    unfold int_add. unfold INT_MIN, INT_MAX in *.
    destruct (Z.ltb_spec (z + offset) (-2147483648)); [lia|].
    destruct (Z.ltb_spec 2147483647 (z + offset)); [lia|].
    cbn [orb bind].
    apply arr_get_Done in He. destruct He as [Hx He].
    assert (Hsame : set_root_directory
                      (<[Z.to_nat x := set_size_file (size_file e + Z.of_nat 0) e]>
                         (root_directory st)) st = st).
    { rewrite Z.add_0_r.
      replace (set_size_file (size_file e) e) with e by (destruct e; reflexivity).
      rewrite list_insert_id by exact He. destruct st; reflexivity. }
    rewrite Hsame, Z.add_0_r.
    destruct Hstop as [Hend | Hfull].
    + destruct (Z.eqb_spec ((z + offset) ÷ (counter * BLOCK_SIZE)) 0); cbn [negb].
      * destruct (Z.eqb_spec z cnt); [reflexivity | lia].
      * reflexivity.
    + replace (z + offset) with (counter * BLOCK_SIZE) by lia.
      rewrite Z.quot_same by lia. reflexivity.
  - destruct fuel as [|fuel]; [lia|].
    cbn [write_bytes]. destruct (Z.eqb_spec counter 0); [lia|].
    unfold int_add. unfold INT_MIN, INT_MAX in *.
    destruct (Z.ltb_spec (z + offset) (-2147483648)); [lia|].
    destruct (Z.ltb_spec 2147483647 (z + offset)); [lia|].
    cbn [orb bind].
    rewrite Z.quot_small by lia. cbn [negb Z.eqb].
    destruct (Z.eqb_spec z cnt); [lia|].
    destruct (lookup_lt_is_Some_2 buf (Z.to_nat z) ltac:(lia)) as [c Hcz].
    rewrite (arr_get_lookup buf z c Hz Hcz). cbn [bind].
    rewrite arr_set_Done by lia. cbn [bind].
    rewrite He. cbn [bind].
    pose proof He as He'. apply arr_get_Done in He'. destruct He' as [Hx Hlook].
    rewrite arr_set_Done by (apply lookup_lt_Some in Hlook; lia). cbn [bind].
    rewrite to_u32_small by lia.
    rewrite (IH fuel
               (set_root_directory
                  (<[Z.to_nat x := set_size_file (size_file e + 1) e]>
                     (root_directory st)) st)
               (set_size_file (size_file e + 1) e)
               (<[Z.to_nat (z + offset) := c]> arr) (z + 1));
      try lia.
    + cbn [root_directory set_root_directory size_file set_size_file].
      rewrite list_insert_insert_eq, set_size_file_twice, set_root_directory_twice.
      replace (size_file e + 1 + Z.of_nat m) with (size_file e + Z.of_nat (S m)) by lia.
      replace (z + 1 + Z.of_nat m) with (z + Z.of_nat (S m)) by lia.
      f_equal. f_equal. f_equal.
      replace (Z.to_nat (z + 1 + offset)) with (S (Z.to_nat (z + offset))) by lia.
      rewrite (take_S_r _ _ c) by (apply list_lookup_insert_eq; lia).
      rewrite take_insert_ge by lia.
      rewrite drop_insert_lt by lia.
      replace (Z.to_nat (z + 1)) with (S (Z.to_nat z)) by lia.
      rewrite (drop_S buf c (Z.to_nat z) Hcz). cbn [take].
      rewrite <- app_assoc. cbn [app].
      replace (S (Z.to_nat (z + offset)) + m)%nat
        with (Z.to_nat (z + offset) + S m)%nat by lia.
      reflexivity.
    + rewrite length_insert. lia.
    + apply arr_get_lookup; [lia|]. cbn [root_directory set_root_directory].
      apply list_lookup_insert_eq. apply lookup_lt_Some in Hlook. exact Hlook.
    + cbn [size_file set_size_file]. lia.
    + cbn [size_file set_size_file]. lia.
Qed.

(** The first allocation for an empty file on the one-block disk. *)
Lemma allocate_first_block (inner : nat) (st : fs_state) (fd : Z)
    (d : struct_file_descriptor) (e : struct_root_dir_entry) (b0 : struct_fat_block)
    (blk : block) :
  empty_file_one_block st fd d e ->
  arr_get (fat st) 0 = Done b0 ->
  block_read (disk st) 4 = Some blk ->
  Z.of_nat (length blk) = BLOCK_SIZE ->
  allocate_block inner (idx_file_root_dir d) st [FAT_EOC; FAT_EOC] [] 0
  = Done (set_num_avail_data_blks 0
            (set_root_directory
               (<[Z.to_nat (idx_file_root_dir d) := set_idx_first_data_blk 1 e]>
                  (root_directory st))
               (set_fat (<[0%nat := <[1%nat := FAT_EOC]> b0]> (fat st)) st)),
          [4; FAT_EOC], blk, 1).
Proof.
  intros ((Hm & Hwf & HF & Hroot & Hstart & HD & _)
          & Hopen & Hoff & He & Hsz & Hidx & Hav & Hf0 & Hf1) Hb0 Hblk Hlen.
  pose proof BLOCK_SIZE_val as HB.
  unfold allocate_block. rewrite He. cbn [bind]. rewrite Hidx.
  change (negb (FAT_EOC =? FAT_EOC)) with false. cbv iota. cbn [bind].
  rewrite HF. change (0 <? 1) with true. cbv iota.
  rewrite (scan_fat_block_first_free (fat st) 0 1 2048 0);
    [ | lia
      | intros j Hj; replace j with 0 by lia; exists FAT_EOC;
        split; [exact Hf0 | discriminate]
      | exact Hf1 ].
  cbn [bind]. change (FAT_EOC =? FAT_EOC) with true. cbn [negb]. cbv iota.
  cbn [bind].
  unfold fat_get in Hf1. rewrite Hb0 in Hf1. cbn [bind] in Hf1.
  rewrite (fat_set_Done (fat st) b0 0 1 FAT_EOC Hb0 (arr_get_length _ _ _ Hf1)).
  cbn [bind]. rewrite Hstart.
  change (arr_set [FAT_EOC; FAT_EOC] 0 (to_u16 (0 * NUM_ENTRIES_FAT_BLK + 1 + 3)))
    with (Done [4; FAT_EOC]).
  cbn [bind].
  rewrite arr_set_Done by (apply (arr_get_length _ _ _ He)). cbn [bind].
  change (arr_get [4; FAT_EOC] 0) with (Done 4). cbn [bind].
  unfold read_into. cbn [disk set_fat set_root_directory]. rewrite Hblk.
  replace ((0 + 1) * BLOCK_SIZE) with BLOCK_SIZE by lia.
  rewrite resize_nil. replace (0 * BLOCK_SIZE) with 0 by lia.
  rewrite mem_write_front by (rewrite length_replicate; lia).
  cbn [bind num_avail_data_blks set_root_directory set_fat].
  rewrite Hav. rewrite drop_ge by (rewrite length_replicate; lia).
  rewrite app_nil_r. reflexivity.
Qed.

Lemma write_bytes_fill_Z (x offset cnt : Z) (buf : list Z) (counter m : Z)
    (fuel : nat) (st : fs_state) (e : struct_root_dir_entry) (arr : list Z) (z : Z) :
  0 <= m ->
  0 < counter ->
  0 <= z -> 0 <= offset ->
  z + m <= cnt ->
  z + offset + m <= counter * BLOCK_SIZE ->
  z + m = cnt \/ z + offset + m = counter * BLOCK_SIZE ->
  counter * BLOCK_SIZE <= Z.of_nat (length arr) ->
  counter * BLOCK_SIZE <= INT_MAX ->
  cnt <= Z.of_nat (length buf) ->
  arr_get (root_directory st) x = Done e ->
  0 <= size_file e -> size_file e + m < 4294967296 ->
  m < Z.of_nat fuel ->
  exists arr',
    write_bytes fuel x offset cnt buf counter st arr z
    = Done (set_root_directory
              (<[Z.to_nat x := set_size_file (size_file e + m) e]>
                 (root_directory st)) st,
            arr', z + m)
    /\ length arr' = length arr.
Proof.
  intros Hm. rewrite <- (Z2Nat.id m Hm). intros.
  apply write_bytes_fill; try assumption. lia.
Qed.

Lemma write_bytes_no_block (fuel : nat) (x offset cnt : Z) (buf : list Z)
    (st : fs_state) (arr : list Z) (z : Z) :
  write_bytes (S fuel) x offset cnt buf 0 st arr z = Done (st, arr, z).
Proof. reflexivity. Qed.

Lemma write_bytes_block_full (fuel : nat) (x offset cnt : Z) (buf : list Z)
    (counter : Z) (st : fs_state) (arr : list Z) (z : Z) :
  0 < counter ->
  z + offset = counter * BLOCK_SIZE ->
  counter * BLOCK_SIZE <= INT_MAX ->
  write_bytes (S fuel) x offset cnt buf counter st arr z = Done (st, arr, z).
Proof.
  intros Hc Hfull Hmax. cbn [write_bytes].
  destruct (Z.eqb_spec counter 0); [lia|].
  pose proof BLOCK_SIZE_val as HB.
  unfold int_add, INT_MIN, INT_MAX in *.
  destruct (Z.ltb_spec (z + offset) (-2147483648)); [lia|].
  destruct (Z.ltb_spec 2147483647 (z + offset)); [lia|].
  cbn [orb bind]. rewrite Hfull, Z.quot_same by lia. reflexivity.
Qed.

Lemma write_loop_step (fuel inner : nat) (x offset cnt : Z) (buf : list Z)
    (st : fs_state) (file_blocks arr : list Z) (counter z : Z) :
  write_loop (S fuel) inner x offset cnt buf st file_blocks arr counter z
  = if z <? cnt then
      let* '(st1, arr1, z1) :=
        write_bytes inner x offset cnt buf counter st arr z in
      if z1 <? cnt then
        if num_avail_data_blks st1 =? 0
        then Done (st1, file_blocks, arr1, counter, z1)
        else
          let* '(st2, fb2, arr2, counter2) :=
            allocate_block inner x st1 file_blocks arr1 counter in
          write_loop fuel inner x offset cnt buf st2 fb2 arr2 counter2 z1
      else Done (st1, file_blocks, arr1, counter, z1)
    else Done (st, file_blocks, arr, counter, z).
Proof. reflexivity. Qed.

Lemma block_read_write_same (dev : device) (i : Z) (b b' : block) :
  block_read dev i = Some b ->
  block_read (block_write dev i b') i = Some b'.
Proof.
  unfold block_read, block_write. destruct dev as [img|]; [|discriminate].
  destruct (i <? 0); [discriminate|]. intros H.
  apply list_lookup_insert_eq. apply lookup_lt_Some in H. exact H.
Qed.

Lemma block_read_write_other (dev : device) (i j : Z) (b' : block) :
  0 <= i -> 0 <= j -> i <> j ->
  block_read (block_write dev j b') i = block_read dev i.
Proof.
  intros Hi Hj Hne. unfold block_read, block_write.
  destruct dev as [img|]; [|reflexivity].
  destruct (Z.ltb_spec j 0); [lia|]. destruct (Z.ltb_spec i 0); [lia|].
  apply list_lookup_insert_ne. lia.
Qed.

(** The end of [fs_write] for a file of one block: the data block (disk
    block 4), the root directory (disk block 2) and the FAT block (disk
    block 1) go to the disk. *)
Lemma flush_one_block (st : fs_state) (arr : list Z) (z : Z) (bk : struct_fat_block) :
  num_blks_fat (superblock st) = 1 ->
  root_dir_blk_idx (superblock st) = 2 ->
  (exists blk, block_read (disk st) 4 = Some blk) ->
  arr_get (fat st) 0 = Done bk ->
  Z.of_nat (length arr) = BLOCK_SIZE ->
  exists dev,
    (let* dev := store_blocks 3 [4; FAT_EOC] arr 0 (disk st) in
     let dev := block_write dev (root_dir_blk_idx (superblock st))
                  (serialize_root_directory (root_directory st)) in
     let* dev := write_fat_blocks (Z.to_nat (num_blks_fat (superblock st))) 1
                   (fat st) dev in
     Done (set_disk dev st, z))
    = Done (set_disk dev st, z)
    /\ block_read dev 4 = Some arr.
Proof.
  intros HF Hroot (blk & Hblk) Hbk Hlen.
  pose proof BLOCK_SIZE_val as HB.
  eexists. split.
  - cbn [store_blocks]. change (arr_get [4; FAT_EOC] 0) with (Done 4).
    cbn [bind]. change (4 =? FAT_EOC) with false. cbv iota.
    rewrite mem_read_ok by lia. cbn [bind].
    change (arr_get [4; FAT_EOC] (0 + 1)) with (Done FAT_EOC). cbn [bind].
    change (FAT_EOC =? FAT_EOC) with true. cbv iota. cbn [bind].
    rewrite HF, Hroot. change (Z.to_nat 1) with 1%nat. cbn [write_fat_blocks].
    change (1 - 1) with 0. rewrite Hbk. cbn [bind]. reflexivity.
  - rewrite block_read_write_other by lia.
    rewrite block_read_write_other by lia.
    rewrite (block_read_write_same _ _ blk _ Hblk). f_equal.
    replace (Z.to_nat (0 * BLOCK_SIZE)) with 0%nat by lia.
    rewrite drop_0. apply take_ge. lia.
Qed.

(** The first write on the one-block disk: 4196 bytes are asked for, the
    one free block is allocated and filled with the first 4096 of them,
    and the call returns 4096. *)
Lemma first_write_fills_the_block (fuel : nat) (fd : Z) (src : list Z)
    (st : fs_state) (d : struct_file_descriptor) (e : struct_root_dir_entry) :
  empty_file_one_block st fd d e ->
  4196 <= Z.of_nat (length src) ->
  4096 < Z.of_nat fuel ->
  exists st1,
    fs_write fuel fd (Some src) 4196 st = Done (st1, 4096)
    /\ full_file_one_block st1 fd d
         (set_size_file 4096 (set_idx_first_data_blk 1 e))
    /\ data_block st1 1 = Some (take (Z.to_nat 4096) src).
Proof.
  intros Hst Hsrc Hfuel. pose proof Hst as Hst'.
  destruct Hst' as ((Hm & Hwf & HF & Hroot & Hstart & HD & blk & Hblk & Hlen)
                    & Hopen & Hoff & He & Hsz & Hidx & Hav & Hf0 & Hf1).
  pose proof BLOCK_SIZE_val as HB.
  destruct (fat_get_inv _ _ _ _ Hf1) as (b0 & Hb0 & Hb01).
  rewrite (fs_write_open fuel fd 4196 src st d e Hm Hwf Hopen He). cbv zeta.
  unfold list_file_blocks. rewrite Hidx, HD.
  change (negb (FAT_EOC =? FAT_EOC)) with false. cbv iota. cbn [bind].
  change (replicate (Z.to_nat 2) FAT_EOC) with [FAT_EOC; FAT_EOC].
  cbn [length load_blocks]. change (arr_get [FAT_EOC; FAT_EOC] 0) with (Done FAT_EOC).
  cbn [bind]. change (FAT_EOC =? FAT_EOC) with true. cbv iota. cbn [bind].
  rewrite Hoff, Hsz. change (to_u32 (0 - to_int 0)) with 0.
  change (0 <? 4196) with true. cbv iota.
  change (mem_read src 0 0) with (Done (@nil Z)). cbn [bind].
  change (Z.to_nat (0 * BLOCK_SIZE)) with 0%nat. cbn [replicate].
  change (mem_write [] (to_int 0) []) with (Done (@nil Z)). cbn [bind].
  change (to_int 0) with 0. change (to_int 4196) with 4196.
  destruct fuel as [|fuel]; [lia|]. destruct fuel as [|fuel]; [lia|].
  rewrite write_loop_step. change (0 <? 4196) with true. cbv iota.
  rewrite write_bytes_no_block. cbn [bind].
  change (0 <? 4196) with true. cbv iota.
  rewrite Hav. change (1 =? 0) with false. cbv iota.
  rewrite (allocate_first_block (S (S fuel)) st fd d e b0 blk Hst Hb0 Hblk Hlen).
  cbn [bind].
  set (st_a := set_num_avail_data_blks 0
                 (set_root_directory
                    (<[Z.to_nat (idx_file_root_dir d) := set_idx_first_data_blk 1 e]>
                       (root_directory st))
                    (set_fat (<[0%nat := <[1%nat := FAT_EOC]> b0]> (fat st)) st))).
  pose proof (arr_get_length _ _ _ He) as Hx.
  assert (He_a : arr_get (root_directory st_a) (idx_file_root_dir d)
                 = Done (set_idx_first_data_blk 1 e)).
  { apply arr_get_lookup; [lia|]. apply list_lookup_insert_eq. lia. }
  rewrite write_loop_step. change (0 <? 4196) with true. cbv iota.
  rewrite (write_bytes_copy (idx_file_root_dir d) 0 4196 src 1 (Z.to_nat 4096)
             (S (S fuel)) st_a (set_idx_first_data_blk 1 e) blk 0);
    try (unfold INT_MAX; cbn [size_file set_idx_first_data_blk]; lia);
    try exact He_a.
  cbn [bind]. cbn [size_file set_idx_first_data_blk].
  rewrite Hsz, Z2Nat.id by lia. rewrite !Z.add_0_l.
  change (Z.to_nat 0) with 0%nat. rewrite take_0, app_nil_l, Nat.add_0_l, drop_0.
  rewrite (drop_ge blk) by lia. rewrite app_nil_r.
  change (4096 <? 4196) with true. cbv iota.
  cbn [num_avail_data_blks set_root_directory].
  change (num_avail_data_blks st_a) with 0. change (0 =? 0) with true. cbv iota.
  cbn [bind length].
  set (st_b := set_root_directory _ st_a).
  assert (Hb_a : arr_get (fat st_b) 0 = Done (<[1%nat := FAT_EOC]> b0)).
  { apply arr_get_lookup; [lia|]. apply list_lookup_insert_eq.
    apply arr_get_length in Hb0. lia. }
  assert (Hdata : Z.of_nat (length (take (Z.to_nat 4096) src)) = BLOCK_SIZE).
  { rewrite length_take. lia. }
  destruct (flush_one_block st_b (take (Z.to_nat 4096) src) 4096 _ HF Hroot
              (ex_intro _ blk Hblk) Hb_a Hdata)
    as (dev & Hflush & Hblk').
  cbv zeta in Hflush. rewrite Hflush. exists (set_disk dev st_b).
  split; [reflexivity|]. split.
  - refine (conj (conj Hm (conj Hwf (conj HF (conj Hroot (conj Hstart (conj HD
              (ex_intro _ _ (conj Hblk' Hdata))))))))
              (conj Hopen (conj Hoff (conj _ (conj eq_refl (conj eq_refl
                 (conj eq_refl _))))))).
    + apply arr_get_lookup; [lia|]. cbn [root_directory set_disk]. unfold st_b.
      cbn [root_directory set_root_directory set_num_avail_data_blks st_a].
      rewrite list_insert_insert_eq. apply list_lookup_insert_eq. lia.
    + unfold fat_get. cbn [fat set_disk]. rewrite Hb_a. cbn [bind].
      apply arr_get_lookup; [lia|]. apply list_lookup_insert_eq.
      apply arr_get_length in Hb01. lia.
  - unfold data_block. cbn [disk set_disk superblock].
    change (superblock st_b) with (superblock st). rewrite Hstart. exact Hblk'.
Qed.
(** A write at offset 0 of a file that fills the one block of a full disk:
    the bytes that fit go over the old ones, nothing is allocated. *)
Lemma rewrite_of_the_full_block (fuel : nat) (fd n : Z) (src : list Z)
    (st : fs_state) (d : struct_file_descriptor) (e : struct_root_dir_entry)
    (blk : block) :
  full_file_one_block st fd d e ->
  data_block st 1 = Some blk ->
  0 <= n <= INT_MAX ->
  n <= Z.of_nat (length src) ->
  (0 < fuel)%nat ->
  exists st2,
    fs_write fuel fd (Some src) n st = Done (st2, Z.min n 4096)
    /\ data_block st2 1
       = Some (take (Z.to_nat (Z.min n 4096)) src
               ++ drop (Z.to_nat (Z.min n 4096)) blk)
    /\ fat st2 = fat st
    /\ num_avail_data_blks st2 = num_avail_data_blks st
    /\ root_directory st2 = root_directory st
    /\ FD st2 = FD st.
Proof.
  intros ((Hm & Hwf & HF & Hroot & Hstart & HD & blk' & Hblk & Hlen)
          & Hopen & Hoff & He & Hsz & Hidx & Hav & Hf1) Hdb Hn Hsrc Hfuel.
  pose proof BLOCK_SIZE_val as HB. unfold INT_MAX in Hn.
  assert (blk' = blk) as ->.
  { unfold data_block in Hdb. rewrite Hstart in Hdb. change (3 + 1) with 4 in Hdb.
    rewrite Hblk in Hdb. inversion Hdb. reflexivity. }
  destruct (fat_get_inv _ _ _ _ Hf1) as (b0 & Hb0 & Hb01).
  rewrite (fs_write_open fuel fd n src st d e Hm Hwf Hopen He). cbv zeta.
  assert (Hok : Forall (data_block_ok st) [1]).
  { constructor; [|constructor]. unfold data_block_ok.
    rewrite Hstart. split; [lia|]. exists blk. split; assumption. }
  assert (Hcontent : file_content st [1] = blk).
  { unfold file_content. cbn [map concat]. rewrite Hdb. apply app_nil_r. }
  rewrite Hidx.
  rewrite (list_file_blocks_chain st 1 [])
    by (try exact Hf1; try discriminate; rewrite HD; cbn [length]; lia).
  cbn [bind length map app]. rewrite HD, Hstart.
  change (Z.to_nat 2 - 1)%nat with 1%nat.
  change (Z.of_nat 1 * BLOCK_SIZE) with (Z.of_nat (length [1]) * BLOCK_SIZE).
  rewrite <- Hstart.
  rewrite (load_blocks_spec st [1] _ 0 [] []
             (replicate (Z.to_nat (Z.of_nat (length [1]) * BLOCK_SIZE)) uninit) Hok)
    by (rewrite ?length_replicate; cbn [length]; lia).
  cbn [bind app length]. rewrite Hcontent.
  rewrite drop_ge by (rewrite length_replicate; cbn [length]; lia).
  rewrite app_nil_r.
  rewrite Hoff, Hsz. change (to_int 0) with 0. change (to_u32 (4096 - 0)) with 4096.
  assert (Hact : (if 4096 <? n then 4096 else n) = Z.min n 4096).
  { destruct (Z.ltb_spec 4096 n); lia. }
  rewrite Hact. set (k := Z.min n 4096). assert (Hk : 0 <= k <= 4096) by (unfold k; lia).
  rewrite mem_read_ok by lia. cbn [bind].
  change (Z.to_nat 0) with 0%nat. rewrite drop_0.
  assert (Hdata : length (take (Z.to_nat k) src) = Z.to_nat k).
  { rewrite length_take. unfold k. lia. }
  rewrite mem_write_front by lia. cbn [bind]. rewrite Hdata.
  set (arr' := take _ _ ++ drop _ blk).
  assert (Harr' : Z.of_nat (length arr') = BLOCK_SIZE).
  { unfold arr'. rewrite length_app, length_drop, Hdata. lia. }
  rewrite (to_int_small k) by lia. rewrite (to_int_small n) by lia.
  destruct fuel as [|fuel]; [lia|].
  assert (Hloop : write_loop (S fuel) (S fuel) (idx_file_root_dir d) 0 n src st
                    [3 + 1; FAT_EOC] arr' 1 k
                  = Done (st, [3 + 1; FAT_EOC], arr', 1, k)).
  { rewrite write_loop_step. destruct (Z.ltb_spec k n) as [Hlt|Hge]; [|reflexivity].
    rewrite write_bytes_block_full by (unfold INT_MAX, k in *; lia).
    cbn [bind]. apply Z.ltb_lt in Hlt. rewrite Hlt, Hav. reflexivity. }
  rewrite to_u16_small by lia.
  change (replicate 1 FAT_EOC) with [FAT_EOC]. cbn [app].
  rewrite Hstart. change (Z.of_nat 1) with 1.
  rewrite Hloop. cbn [bind length].
  destruct (flush_one_block st arr' k b0 HF Hroot (ex_intro _ blk Hblk) Hb0 Harr')
    as (dev & Hflush & Hblk').
  cbv zeta in Hflush. change (3 + 1) with 4. rewrite Hflush.
  exists (set_disk dev st). split; [reflexivity|].
  split; [|repeat split; reflexivity].
  unfold data_block. cbn [disk set_disk superblock]. rewrite Hstart. exact Hblk'.
Qed.

(** ** One usable block: the first write and the second *)

(** C4, as amended. On a mounted disk with two data blocks, of which data
    block 1 is free and counted as the one available block, and an empty
    file open at offset 0, an [fs_write] of 4196 bytes returns 4096: data
    block 1 becomes the block of the file and holds the first 4096 bytes,
    [size_file] is 4096 and the offset still 0.  A second [fs_write] of
    [n] bytes through the same handle returns [min(n, 4096)], which is 0
    only for [n = 0]: the bytes go over the first ones of the block, the
    rest of the block stays, and nothing is allocated: the FAT, the count
    of available blocks, the directory with the size of the file, and the
    handle table are as before. *)
Theorem write_on_one_block_disk (fuel : nat) (fd : Z) (src : list Z)
    (st : fs_state) (d : struct_file_descriptor) (e : struct_root_dir_entry) :
  empty_file_one_block st fd d e ->
  4196 <= Z.of_nat (length src) ->
  4096 < Z.of_nat fuel ->
  exists st1 e1,
    fs_write fuel fd (Some src) 4196 st = Done (st1, 4096)
    /\ arr_get (root_directory st1) (idx_file_root_dir d) = Done e1
    /\ size_file e1 = 4096
    /\ idx_first_data_blk e1 = 1
    /\ data_block st1 1 = Some (take (Z.to_nat 4096) src)
    /\ open_handle st1 fd d /\ file_offset d = 0
    /\ forall (n : Z) (src' : list Z),
         0 <= n <= INT_MAX ->
         n <= Z.of_nat (length src') ->
         exists st2,
           fs_write fuel fd (Some src') n st1 = Done (st2, Z.min n 4096)
           /\ (Z.min n 4096 = 0 -> n = 0)
           /\ data_block st2 1
              = Some (take (Z.to_nat (Z.min n 4096)) src'
                      ++ drop (Z.to_nat (Z.min n 4096)) (take (Z.to_nat 4096) src))
           /\ fat st2 = fat st1
           /\ num_avail_data_blks st2 = num_avail_data_blks st1
           /\ root_directory st2 = root_directory st1
           /\ FD st2 = FD st1.
Proof.
  intros Hst Hsrc Hfuel.
  destruct (first_write_fills_the_block fuel fd src st d e Hst Hsrc Hfuel)
    as (st1 & Hw1 & Hfull & Hdata).
  exists st1, (set_size_file 4096 (set_idx_first_data_blk 1 e)).
  pose proof Hfull as (_ & Hopen & Hoff & He1 & _).
  split; [exact Hw1|]. split; [exact He1|]. split; [reflexivity|].
  split; [reflexivity|]. split; [exact Hdata|]. split; [exact Hopen|].
  split; [exact Hoff|].
  intros n src' Hn Hsrc'.
  destruct (rewrite_of_the_full_block fuel fd n src' st1 d _ _ Hfull Hdata Hn Hsrc'
              ltac:(lia))
    as (st2 & Hw2 & Hblk2 & Hrest).
  exists st2. split; [exact Hw2|]. split; [lia|]. split; [exact Hblk2 | exact Hrest].
Qed.

(** ** The states to run the code on *)

Lemma handles_ok_from_spec (t : list struct_file_descriptor) :
  forall (k : Z) (j : nat) (d : struct_file_descriptor),
    handles_ok_from k t = true ->
    t !! j = Some d ->
    file_descriptor d = 0 \/ file_descriptor d = k + Z.of_nat j + 1.
Proof.
  induction t as [|d0 t IH]; intros k j d Hok Hj; [discriminate|].
  cbn [handles_ok_from] in Hok. apply andb_true_iff in Hok.
  destruct Hok as [Hd0 Hok]. destruct j as [|j].
  - inversion Hj; subst. apply orb_true_iff in Hd0. lia.
  - cbn in Hj. destruct (IH (k + 1) j d Hok Hj) as [E|E]; lia.
Qed.

Lemma handles_wf_check (t : list struct_file_descriptor) :
  length t = 32%nat -> handles_ok_from 0 t = true -> handles_wf t.
Proof.
  intros Hlen Hok. split; [exact Hlen|]. intros k d Hk.
  destruct (handles_ok_from_spec t 0 k d Hok Hk) as [E|E]; [left | right]; lia.
Qed.

Lemma fresh_file_state_calls :
  (let* '(s1, r1) := fs_create name_a mounted_1_2 in
   let* '(s2, r2) := fs_open name_a s1 in
   Done (r1, r2)) = Done (0, 1).
Proof. vm_compute. reflexivity. Qed.

Lemma fresh_file_state_empty :
  empty_file_one_block fresh_file_state 1 handle_1 (dir_entry name_a 0 FAT_EOC).
Proof.
  unfold empty_file_one_block, one_block_disk, open_handle.
  repeat lazymatch goal with
         | |- _ /\ _ => split
         | |- handles_wf _ => apply handles_wf_check
         | |- exists blk, _ => exists zero_block
         end;
    try lia; try (vm_compute; reflexivity); try (vm_compute; discriminate).
Qed.

Lemma request_4196_length : 4196 <= Z.of_nat (length request_4196).
Proof. unfold request_4196. rewrite length_replicate. lia. Qed.

Lemma write_on_one_block_disk_witness :
  exists st1 e1,
    fs_write (Z.to_nat 4097) 1 (Some request_4196) 4196 fresh_file_state
    = Done (st1, 4096)
    /\ arr_get (root_directory st1) (idx_file_root_dir handle_1) = Done e1
    /\ size_file e1 = 4096
    /\ idx_first_data_blk e1 = 1
    /\ data_block st1 1 = Some (take (Z.to_nat 4096) request_4196)
    /\ open_handle st1 1 handle_1 /\ file_offset handle_1 = 0
    /\ forall (n : Z) (src' : list Z),
         0 <= n <= INT_MAX ->
         n <= Z.of_nat (length src') ->
         exists st2,
           fs_write (Z.to_nat 4097) 1 (Some src') n st1 = Done (st2, Z.min n 4096)
           /\ (Z.min n 4096 = 0 -> n = 0)
           /\ data_block st2 1
              = Some (take (Z.to_nat (Z.min n 4096)) src'
                      ++ drop (Z.to_nat (Z.min n 4096))
                           (take (Z.to_nat 4096) request_4196))
           /\ fat st2 = fat st1
           /\ num_avail_data_blks st2 = num_avail_data_blks st1
           /\ root_directory st2 = root_directory st1
           /\ FD st2 = FD st1.
Proof.
  apply (write_on_one_block_disk (Z.to_nat 4097) 1 request_4196 fresh_file_state
           handle_1 (dir_entry name_a 0 FAT_EOC)).
  - exact fresh_file_state_empty.
  - exact request_4196_length.
  - lia.
Defined.

(** The second write of the same 4196 bytes through the same handle returns
    4096, not 0; so does a second write of a single byte return 1. *)
Lemma second_write_overwrites :
  exists st1 st2 st2',
    fs_write (Z.to_nat 4097) 1 (Some request_4196) 4196 fresh_file_state
    = Done (st1, 4096)
    /\ open_handle st1 1 handle_1 /\ file_offset handle_1 = 0
    /\ fs_write (Z.to_nat 4097) 1 (Some request_4196) 4196 st1 = Done (st2, 4096)
    /\ fs_write (Z.to_nat 4097) 1 (Some [120]) 1 st1 = Done (st2', 1)
    /\ 4096 <> 0 /\ 1 <> 0.
Proof.
  destruct (first_write_fills_the_block (Z.to_nat 4097) 1 request_4196
              fresh_file_state handle_1 (dir_entry name_a 0 FAT_EOC)
              fresh_file_state_empty request_4196_length ltac:(lia))
    as (st1 & Hw1 & Hfull & Hdata).
  destruct (rewrite_of_the_full_block (Z.to_nat 4097) 1 4196 request_4196 st1
              handle_1 _ _ Hfull Hdata ltac:(unfold INT_MAX; lia)
              request_4196_length ltac:(lia))
    as (st2 & Hw2 & _).
  destruct (rewrite_of_the_full_block (Z.to_nat 4097) 1 1 [120] st1
              handle_1 _ _ Hfull Hdata ltac:(unfold INT_MAX; lia) ltac:(cbn; lia)
              ltac:(lia))
    as (st2' & Hw2' & _).
  exists st1, st2, st2'.
  destruct Hfull as (_ & Hopen & Hoff & _).
  split; [exact Hw1|]. split; [exact Hopen|]. split; [exact Hoff|].
  split; [exact Hw2|]. split; [exact Hw2'|]. split; discriminate.
Qed.

Lemma hi_state_call :
  (let* '(_, r) := fs_write 3 1 (Some [72; 105]) 2 fresh_file_state in Done r)
  = Done 2.
Proof. vm_compute. reflexivity. Qed.

Lemma hi_state_handles : handles_wf (FD hi_state).
Proof. apply handles_wf_check; vm_compute; reflexivity. Qed.

Lemma hi_state_open : open_handle hi_state 1 handle_1.
Proof. unfold open_handle. repeat split; try lia; vm_compute; reflexivity. Qed.

Lemma fresh_file_state_open : open_handle fresh_file_state 1 handle_1.
Proof. unfold open_handle. repeat split; try lia; vm_compute; reflexivity. Qed.

Lemma fs_read_returns_file_bytes_witness :
  fs_read 1 (Some (replicate 16 0)) 16 fresh_file_state
  = Done (fresh_file_state, 0, Some (replicate 16 0))
  /\ fs_read 1 (Some (replicate 16 0)) 16 hi_state
     = Done (set_FD (<[Z.to_nat (1 - 1) :=
                        set_file_offset (0 + Z.min 16 (2 - 0)) handle_1]>
                       (FD hi_state)) hi_state,
             Z.min 16 (2 - 0),
             Some (slice (file_content hi_state [1]) 0 (Z.min 16 (2 - 0))
                   ++ drop (Z.to_nat (Z.min 16 (2 - 0))) (replicate 16 0)))
  /\ slice (file_content hi_state [1]) 0 (Z.min 16 (2 - 0)) = [72; 105].
Proof.
  split; [|split; [|vm_compute; reflexivity]].
  - apply (proj1 (fs_read_returns_file_bytes 1 16 (replicate 16 0)
                    fresh_file_state handle_1 (dir_entry name_a 0 FAT_EOC) []
                    ltac:(vm_compute; discriminate)
                    ltac:(apply handles_wf_check; vm_compute; reflexivity)
                    fresh_file_state_open
                    ltac:(vm_compute; reflexivity)
                    ltac:(vm_compute; split; discriminate)
                    ltac:(vm_compute; split; discriminate)
                    ltac:(vm_compute; reflexivity))).
    reflexivity.
  - apply (proj2 (fs_read_returns_file_bytes 1 16 (replicate 16 0) hi_state handle_1
                    (dir_entry name_a 2 1) []
                    ltac:(vm_compute; discriminate) hi_state_handles hi_state_open
                    ltac:(vm_compute; reflexivity)
                    ltac:(vm_compute; split; discriminate)
                    ltac:(vm_compute; split; discriminate)
                    ltac:(vm_compute; reflexivity))).
    + vm_compute. discriminate.
    + vm_compute. reflexivity.
    + vm_compute. reflexivity.
    + constructor; [|constructor].
      split; [vm_compute; split; [discriminate|reflexivity]|].
      eexists. split; vm_compute; reflexivity.
    + vm_compute. discriminate.
Defined.

Lemma read_advances_write_keeps_offset_witness :
  exists st' buf' st'',
    fs_read 1 (Some (replicate 16 0)) 16 hi_state = Done (st', 2, buf')
    /\ ((exists d',
           FD st' !! Z.to_nat (1 - 1) = Some d'
           /\ file_offset d' = file_offset handle_1 + 2
           /\ idx_file_root_dir d' = idx_file_root_dir handle_1
           /\ file_descriptor d' = file_descriptor handle_1)
        /\ length (FD st') = length (FD hi_state)
        /\ forall j, j <> Z.to_nat (1 - 1) -> FD st' !! j = FD hi_state !! j)
    /\ fs_write 3 1 (Some [33]) 1 hi_state = Done (st'', 1)
    /\ FD st'' = FD hi_state /\ FD st'' !! Z.to_nat (1 - 1) = Some handle_1.
Proof.
  destruct (read_advances_write_keeps_offset 3 1 16 (Some (replicate 16 0))
              hi_state handle_1 hi_state_handles hi_state_open
              ltac:(vm_compute; split; [discriminate|reflexivity])
              ltac:(vm_compute; reflexivity)) as [Hread _].
  destruct (read_advances_write_keeps_offset 3 1 1 (Some [33])
              hi_state handle_1 hi_state_handles hi_state_open
              ltac:(vm_compute; split; [discriminate|reflexivity])
              ltac:(vm_compute; reflexivity)) as [_ Hwrite].
  do 3 eexists. split; [vm_compute; reflexivity|].
  split; [eapply Hread; [vm_compute; reflexivity | lia]|].
  split; [vm_compute; reflexivity|].
  eapply Hwrite. vm_compute. reflexivity.
Defined.

(** ** The count of available blocks after a delete *)

Lemma write_after_delete_finds_no_block :
  trace_write_after_delete = Done ([0; 1; 1; 0; 0; 0; 1; 0], 0, 0).
Proof. vm_compute. reflexivity. Qed.

(** * More properties

    ** Names *)

Lemma name_of_Some (a s : list Z) :
  name_of a = Some s <-> exists rest, a = s ++ 0 :: rest /\ Forall (fun c => c <> 0) s.
Proof.
  revert s. induction a as [|x a IH]; intros s; cbn [name_of].
  - split; [discriminate|]. intros (rest & E & _). destruct s; discriminate.
  - destruct (Z.eqb_spec x 0) as [->|Hx].
    + split.
      * intros [= <-]. exists a. split; [reflexivity | constructor].
      * intros (rest & E & Hs). destruct s as [|c s]; [reflexivity|].
        inversion E; subst. inversion Hs; subst. contradiction.
    + destruct (name_of a) as [s'|] eqn:Ea; cbn [option_map].
      * split.
        -- intros [= <-]. destruct (proj1 (IH s') eq_refl) as (rest & -> & Hs).
           exists rest. split; [reflexivity | constructor; assumption].
        -- intros (rest & E & Hs). destruct s as [|c s]; [inversion E; subst; contradiction|].
           inversion E; subst. inversion Hs; subst.
           f_equal. f_equal. assert (Some s' = Some s) as [= ->]; [|reflexivity].
           apply IH. eauto.
      * split; [discriminate|].
        intros (rest & E & Hs). destruct s as [|c s]; [inversion E; subst; contradiction|].
        inversion E; subst. inversion Hs; subst.
        assert (None = Some s) as Habs; [|discriminate]. apply IH. eauto.
Qed.

Lemma strlen_name_of (a s : list Z) :
  name_of a = Some s -> strlen a = Done (Z.of_nat (length s)).
Proof.
  revert s. induction a as [|x a IH]; intros s; cbn [name_of strlen]; [discriminate|].
  destruct (x =? 0).
  - intros [= <-]. reflexivity.
  - destruct (name_of a) as [s'|]; cbn [option_map]; [|discriminate].
    intros [= <-]. rewrite (IH s' eq_refl). cbn [bind length]. f_equal. lia.
Qed.

(** [strcmp] of a buffer that holds [s] with a buffer that is longer than [s]. *)
Lemma strcmp_name_of (a b s : list Z) :
  name_of a = Some s ->
  (length s < length b)%nat ->
  exists c, strcmp a b = Done c /\ (c = 0 <-> name_of b = Some s).
Proof.
  revert b s. induction a as [|x a IH]; intros b s; cbn [name_of]; [discriminate|].
  destruct b as [|y b]; [cbn [length]; lia|].
  cbn [strcmp name_of].
  destruct (Z.eqb_spec x 0) as [->|Hx].
  - intros [= <-] _. destruct (Z.eqb_spec 0 y) as [<-|Hy].
    + exists 0. change (0 =? 0) with true. cbv iota. split; [reflexivity|]. split; reflexivity.
    + exists (0 - y). split; [reflexivity|]. split; [lia|].
      destruct (Z.eqb_spec y 0); [lia|]. destruct (name_of b); discriminate.
  - destruct (name_of a) as [s'|] eqn:Ea; cbn [option_map]; [|discriminate].
    intros [= <-]. cbn [length]. intros Hlen.
    destruct (Z.eqb_spec x y) as [<-|Hxy].
    + destruct (Z.eqb_spec x 0); [contradiction|].
      destruct (IH b s' eq_refl ltac:(lia)) as (c & Hc & Hiff).
      exists c. split; [exact Hc|]. rewrite Hiff.
      destruct (name_of b) as [t|]; cbn [option_map]; split; congruence.
    + exists (x - y). split; [reflexivity|]. split; [lia|].
      destruct (y =? 0); [discriminate|].
      destruct (name_of b); cbn [option_map]; congruence.
Qed.

Lemma is_invalid_file_from_cases (name : list Z) (m k : nat) :
  (k + m = 16)%nat ->
  (k <= length name)%nat ->
  is_invalid_file_from (S m) (Z.of_nat k) name
  = match name_of (take m (drop k name)) with
    | Some _ => Done 0
    | None => if bool_decide (16 <= length name)%nat then Done 1 else Fault
    end.
Proof.
  revert k. induction m as [|m IH]; intros k Hk Hlen.
  - cbn [is_invalid_file_from take name_of]. unfold FS_FILENAME_LEN.
    replace (Z.of_nat k) with 16 by lia. change (16 =? 16) with true. cbv iota.
    rewrite bool_decide_eq_true_2 by lia. reflexivity.
  - remember (S m) as m' eqn:Em. cbn [is_invalid_file_from]. subst m'.
    unfold FS_FILENAME_LEN.
    destruct (Z.eqb_spec (Z.of_nat k) 16) as [E|_]; [lia|].
    destruct (name !! k) as [c|] eqn:Hc.
    + rewrite (arr_get_nat _ _ _ Hc). cbn [bind].
      rewrite (drop_S _ _ _ Hc). cbn [take name_of].
      destruct (c =? 0); [reflexivity|].
      replace (Z.of_nat k + 1) with (Z.of_nat (S k)) by lia.
      rewrite IH by (try lia; apply lookup_lt_Some in Hc; lia).
      destruct (name_of (take m (drop (S k) name))); reflexivity.
    + assert (Hf : arr_get name (Z.of_nat k) = Fault).
      { unfold arr_get. destruct (Z.ltb_spec (Z.of_nat k) 0); [reflexivity|].
        rewrite Nat2Z.id, Hc. reflexivity. }
      rewrite Hf. cbn [bind].
      apply lookup_ge_None in Hc. rewrite drop_ge by lia.
      cbn [take name_of]. rewrite bool_decide_eq_false_2 by lia. reflexivity.
Qed.

(** X1. [is_invalid_file] returns 0 when there is a NUL among the first 16
    bytes of the name, and 1 when there are 16 bytes and none is NUL; a
    shorter buffer without a NUL is read past its end.  The [return -1]
    after the loop is never reached. *)
Theorem is_invalid_file_cases (name : list Z) :
  is_invalid_file name
  = match name_of (take 16 name) with
    | Some _ => Done 0
    | None => if bool_decide (16 <= length name)%nat then Done 1 else Fault
    end.
Proof.
  unfold is_invalid_file.
  apply (is_invalid_file_from_cases name 16 0); [reflexivity | lia].
Qed.

Lemma name_of_take (a s : list Z) (n : nat) :
  name_of a = Some s -> (length s < n)%nat -> name_of (take n a) = Some s.
Proof.
  revert s n. induction a as [|x a IH]; intros s n; cbn [name_of]; [discriminate|].
  destruct n as [|n]; [lia|]. cbn [take name_of].
  destruct (x =? 0); [intros [= <-] _; reflexivity|].
  destruct (name_of a) as [s'|]; cbn [option_map]; [|discriminate].
  intros [= <-]. cbn [length]. intros Hn. rewrite (IH s' n eq_refl) by lia. reflexivity.
Qed.

Lemma is_invalid_file_valid (name s : list Z) :
  name_of name = Some s -> (length s <= 15)%nat -> is_invalid_file name = Done 0.
Proof.
  intros Hs Hl. rewrite is_invalid_file_cases, (name_of_take name s 16 Hs) by lia.
  reflexivity.
Qed.

(** ** Looking a name up *)

Lemma find_file_from_first (name s : list Z) (dir : list struct_root_dir_entry)
    (k : nat) (e : struct_root_dir_entry) :
  forall (n x : nat),
    name_of name = Some s ->
    Forall (fun e => (length s < length (filename e))%nat) dir ->
    (x <= k < x + n)%nat ->
    dir !! k = Some e ->
    name_of (filename e) = Some s ->
    (forall j e', (x <= j < k)%nat -> dir !! j = Some e' ->
       name_of (filename e') <> Some s) ->
    find_file_from n (Z.of_nat x) name dir = Done (Z.of_nat k).
Proof.
  induction n as [|n IH]; intros x Hs Hall Hx Hk He Hbefore; [lia|].
  cbn [find_file_from].
  destruct (decide (x = k)) as [->|Hne].
  - rewrite (arr_get_nat _ _ _ Hk). cbn [bind].
    destruct (strcmp_name_of name (filename e) s Hs) as (c & Hc & Hiff).
    { exact (Forall_lookup_1 _ _ _ _ Hall Hk). }
    rewrite Hc. cbn [bind]. rewrite (proj2 Hiff He). reflexivity.
  - destruct (lookup_lt_is_Some_2 dir x) as [e' He'].
    { apply lookup_lt_Some in Hk. lia. }
    rewrite (arr_get_nat _ _ _ He'). cbn [bind].
    destruct (strcmp_name_of name (filename e') s Hs) as (c & Hc & Hiff).
    { exact (Forall_lookup_1 _ _ _ _ Hall He'). }
    rewrite Hc. cbn [bind].
    destruct (Z.eqb_spec c 0) as [Hz|_].
    + exfalso. apply (Hbefore x e'); [lia | exact He' | apply Hiff; exact Hz].
    + replace (Z.of_nat x + 1) with (Z.of_nat (S x)) by lia.
      apply IH; try assumption; [lia|].
      intros j e'' Hj. apply Hbefore. lia.
Qed.

Lemma find_file_from_none (name s : list Z) (dir : list struct_root_dir_entry) :
  forall (n x : nat),
    name_of name = Some s ->
    Forall (fun e => (length s < length (filename e))%nat) dir ->
    (x + n <= length dir)%nat ->
    (forall j e', (x <= j)%nat -> dir !! j = Some e' ->
       name_of (filename e') <> Some s) ->
    find_file_from n (Z.of_nat x) name dir = Done (Z.of_nat (x + n)).
Proof.
  induction n as [|n IH]; intros x Hs Hall Hx Hnone.
  - cbn [find_file_from]. f_equal. lia.
  - cbn [find_file_from].
    destruct (lookup_lt_is_Some_2 dir x) as [e' He']; [lia|].
    rewrite (arr_get_nat _ _ _ He'). cbn [bind].
    destruct (strcmp_name_of name (filename e') s Hs) as (c & Hc & Hiff).
    { exact (Forall_lookup_1 _ _ _ _ Hall He'). }
    rewrite Hc. cbn [bind].
    destruct (Z.eqb_spec c 0) as [Hz|_].
    + exfalso. apply (Hnone x e'); [lia | exact He' | apply Hiff; exact Hz].
    + replace (Z.of_nat x + 1) with (Z.of_nat (S x)) by lia.
      rewrite IH; try assumption; [f_equal; lia | lia |].
      intros j e'' Hj. apply Hnone. lia.
Qed.

Lemma dir_wf_longer (dir : list struct_root_dir_entry) (s : list Z) :
  dir_wf dir -> (length s <= 15)%nat ->
  Forall (fun e => (length s < length (filename e))%nat) dir.
Proof.
  intros [_ H] Hs. eapply List.Forall_impl; [|exact H]. cbv beta. intros e He. lia.
Qed.

Lemma name_of_nil_head (a : list Z) :
  name_of a = Some [] <-> exists rest, a = 0 :: rest.
Proof.
  rewrite name_of_Some. split.
  - intros (rest & E & _). eauto.
  - intros (rest & ->). exists rest. split; [reflexivity | constructor].
Qed.

Lemma first_empty_from_slot (dir : list struct_root_dir_entry) (k : nat)
    (e : struct_root_dir_entry) :
  forall (n x : nat),
    Forall (fun e => (0 < length (filename e))%nat) dir ->
    (x <= k < x + n)%nat ->
    dir !! k = Some e ->
    name_of (filename e) = Some [] ->
    (forall j e', (x <= j < k)%nat -> dir !! j = Some e' ->
       name_of (filename e') <> Some []) ->
    first_empty_from n (Z.of_nat x) dir = Done (Z.of_nat k).
Proof.
  induction n as [|n IH]; intros x Hall Hx Hk He Hbefore; [lia|].
  cbn [first_empty_from].
  destruct (decide (x = k)) as [->|Hne].
  - rewrite (arr_get_nat _ _ _ Hk). cbn [bind].
    apply name_of_nil_head in He. destruct He as (rest & ->). reflexivity.
  - destruct (lookup_lt_is_Some_2 dir x) as [e' He'].
    { apply lookup_lt_Some in Hk. lia. }
    rewrite (arr_get_nat _ _ _ He'). cbn [bind].
    pose proof (Forall_lookup_1 _ _ _ _ Hall He') as Hl. cbv beta in Hl.
    destruct (filename e') as [|c rest] eqn:Ef; [cbn [length] in Hl; lia|].
    change (arr_get (c :: rest) 0) with (Done c). cbn [bind].
    destruct (Z.eqb_spec c 0) as [->|_].
    + exfalso. apply (Hbefore x e'); [lia | exact He' |].
      rewrite Ef. reflexivity.
    + replace (Z.of_nat x + 1) with (Z.of_nat (S x)) by lia.
      apply IH; try assumption; [lia|].
      intros j e'' Hj. apply Hbefore. lia.
Qed.

Lemma first_empty_from_full (dir : list struct_root_dir_entry) :
  forall (n x : nat),
    Forall (fun e => (0 < length (filename e))%nat) dir ->
    (x + n <= length dir)%nat ->
    (forall j e', (x <= j)%nat -> dir !! j = Some e' ->
       name_of (filename e') <> Some []) ->
    first_empty_from n (Z.of_nat x) dir = Done (Z.of_nat (x + n)).
Proof.
  induction n as [|n IH]; intros x Hall Hx Hnone.
  - cbn [first_empty_from]. f_equal. lia.
  - cbn [first_empty_from].
    destruct (lookup_lt_is_Some_2 dir x) as [e' He']; [lia|].
    rewrite (arr_get_nat _ _ _ He'). cbn [bind].
    pose proof (Forall_lookup_1 _ _ _ _ Hall He') as Hl. cbv beta in Hl.
    destruct (filename e') as [|c rest] eqn:Ef; [cbn [length] in Hl; lia|].
    change (arr_get (c :: rest) 0) with (Done c). cbn [bind].
    destruct (Z.eqb_spec c 0) as [->|_].
    + exfalso. apply (Hnone x e'); [lia | exact He' |]. rewrite Ef. reflexivity.
    + replace (Z.of_nat x + 1) with (Z.of_nat (S x)) by lia.
      rewrite IH; try assumption; [f_equal; lia | lia |].
      intros j e'' Hj. apply Hnone. lia.
Qed.

(** ** Creating a file *)

Lemma copy_name_spec (src : list Z) :
  forall (n i : nat) (dst : list Z),
    (i + n <= length src)%nat ->
    (i + n <= length dst)%nat ->
    copy_name n (Z.of_nat i) src dst
    = Done (take i dst ++ take n (drop i src) ++ drop (i + n) dst).
Proof.
  induction n as [|n IH]; intros i dst Hs Hd.
  - cbn [copy_name]. change (take 0 (drop i src)) with (@nil Z).
    rewrite app_nil_l, Nat.add_0_r, take_drop. reflexivity.
  - cbn [copy_name].
    destruct (lookup_lt_is_Some_2 src i) as [c Hc]; [lia|].
    rewrite (arr_get_nat _ _ _ Hc). cbn [bind].
    rewrite arr_set_Done by lia. cbn [bind]. rewrite Nat2Z.id.
    replace (Z.of_nat i + 1) with (Z.of_nat (S i)) by lia.
    rewrite IH by (rewrite ?length_insert; lia).
    f_equal. rewrite (drop_S _ _ _ Hc). cbn [take].
    rewrite drop_insert_lt by lia.
    replace (S i + n)%nat with (i + S n)%nat by lia.
    rewrite (take_S_r _ _ c) by (apply list_lookup_insert_eq; lia).
    rewrite take_insert_ge by lia. rewrite <- app_assoc. reflexivity.
Qed.

Lemma copy_name_front (src dst : list Z) (n : nat) :
  (n <= length src)%nat -> (n <= length dst)%nat ->
  copy_name n 0 src dst = Done (take n src ++ drop n dst).
Proof. intros Hs Hd. apply (copy_name_spec src n 0 dst); lia. Qed.

Lemma dir_wf_positive (dir : list struct_root_dir_entry) :
  dir_wf dir -> Forall (fun e => (0 < length (filename e))%nat) dir.
Proof.
  intros [_ H]. eapply List.Forall_impl; [|exact H]. cbv beta. intros e He. lia.
Qed.

Lemma find_file_none (name s : list Z) (dir : list struct_root_dir_entry) :
  name_of name = Some s -> (length s <= 15)%nat -> dir_wf dir ->
  no_file dir s ->
  find_file name dir = Done 128.
Proof.
  intros Hs Hl Hwf Habs.
  apply (find_file_from_none name s dir 128 0 Hs (dir_wf_longer _ _ Hwf Hl)).
  - destruct Hwf as [-> _]. lia.
  - intros j e' _. apply Habs.
Qed.

Lemma find_file_first (name s : list Z) (dir : list struct_root_dir_entry)
    (k : nat) (e : struct_root_dir_entry) :
  name_of name = Some s -> (length s <= 15)%nat -> dir_wf dir ->
  holds_name dir s k e ->
  find_file name dir = Done (Z.of_nat k).
Proof.
  intros Hs Hl Hwf (Hk & He & Hfirst).
  apply (find_file_from_first name s dir k e 128 0 Hs (dir_wf_longer _ _ Hwf Hl));
    try assumption.
  - apply lookup_lt_Some in Hk. destruct Hwf as [Hlen _]. lia.
  - intros j e' Hj. apply Hfirst. lia.
Qed.

Lemma first_empty_slot (dir : list struct_root_dir_entry) (k : nat)
    (e : struct_root_dir_entry) :
  dir_wf dir -> first_free_slot dir k e ->
  first_empty_from 128 0 dir = Done (Z.of_nat k).
Proof.
  intros Hwf (Hk & He & Hfirst).
  apply (first_empty_from_slot dir k e 128 0 (dir_wf_positive _ Hwf)); try assumption.
  - apply lookup_lt_Some in Hk. destruct Hwf as [Hlen _]. lia.
  - intros j e' Hj. apply Hfirst. lia.
Qed.

Lemma first_empty_full (dir : list struct_root_dir_entry) :
  dir_wf dir -> no_file dir [] ->
  first_empty_from 128 0 dir = Done 128.
Proof.
  intros Hwf Hnone.
  apply (first_empty_from_full dir 128 0 (dir_wf_positive _ Hwf)).
  - destruct Hwf as [-> _]. lia.
  - intros j e' _. apply Hnone.
Qed.

Lemma name_of_app (s rest : list Z) :
  Forall (fun c => c <> 0) s -> name_of (s ++ 0 :: rest) = Some s.
Proof. intros H. apply name_of_Some. eauto. Qed.

Lemma fs_create_ok (name s : list Z) (st : fs_state) (k : nat)
    (e : struct_root_dir_entry) :
  fs_mounted st <> 0 ->
  num_files_root_dir st < 128 ->
  dir_wf (root_directory st) ->
  name_of name = Some s ->
  (length s <= 15)%nat ->
  no_file (root_directory st) s ->
  first_free_slot (root_directory st) k e ->
  let dir' := <[k := new_entry s e]> (root_directory st) in
  fs_create name st
  = Done (set_disk (block_write (disk st) (root_dir_blk_idx (superblock st))
                      (serialize_root_directory dir'))
            (set_num_files_root_dir (num_files_root_dir st + 1)
               (set_root_directory dir' st)), 0)
  /\ holds_name dir' s k (new_entry s e)
  /\ dir_wf dir'.
Proof.
  intros Hm Hn Hwf Hs Hl Habs (Hk & He & Hfirst) dir'.
  pose proof Hwf as [Hlen Hfn].
  pose proof (lookup_lt_Some _ _ _ Hk) as Hk128.
  pose proof (Forall_lookup_1 _ _ _ _ Hfn Hk) as Hfe. cbv beta in Hfe.
  pose proof (proj1 (name_of_Some _ _) Hs) as (rest & Ename & Hnz).
  assert (Hdir' : dir_wf dir').
  { split; [unfold dir'; rewrite length_insert; exact Hlen|].
    unfold dir'. apply Forall_insert; [exact Hfn|].
    cbn [new_entry filename]. rewrite length_app. cbn [length].
    rewrite length_drop. lia. }
  split; [|split; [|exact Hdir']].
  - unfold fs_create.
    apply Z.eqb_neq in Hm. rewrite Hm.
    destruct (Z.leb_spec FS_FILE_MAX_COUNT (num_files_root_dir st)) as [Hge|_];
      [unfold FS_FILE_MAX_COUNT in Hge; lia|].
    cbn [orb]. cbv iota.
    rewrite (is_invalid_file_valid name s Hs Hl). cbn [bind].
    change (negb (0 =? 0)) with false. cbv iota.
    rewrite (find_file_none name s _ Hs Hl Hwf Habs).
    cbn [bind]. change (128 <? FS_FILE_MAX_COUNT) with false. cbv iota.
    rewrite (first_empty_slot _ k e Hwf (conj Hk (conj He Hfirst))).
    cbn [bind].
    rewrite (strlen_name_of name s Hs). cbn [bind].
    rewrite (arr_get_nat _ _ _ Hk). cbn [bind]. rewrite Nat2Z.id.
    rewrite (copy_name_front name (filename e) (length s))
      by (try (rewrite Ename, length_app; cbn [length]); lia).
    cbn [bind]. rewrite Ename, take_app_length.
    rewrite arr_set_Done by (rewrite length_app, length_drop; lia).
    cbn [bind]. rewrite Nat2Z.id.
    rewrite arr_set_Done by lia. cbn [bind]. rewrite Nat2Z.id.
    assert (Hfn' : <[length s := 0]> (s ++ drop (length s) (filename e))
                   = s ++ 0 :: drop (S (length s)) (filename e)).
    { destruct (lookup_lt_is_Some_2 (filename e) (length s) ltac:(lia)) as [c Hc].
      rewrite (drop_S _ _ _ Hc).
      rewrite insert_app_r_alt by lia. rewrite Nat.sub_diag. reflexivity. }
    rewrite Hfn'. reflexivity.
  - split; [|split].
    + unfold dir'. apply list_lookup_insert_eq. lia.
    + cbn [new_entry filename]. apply name_of_app. exact Hnz.
    + intros j e' Hj He'. unfold dir' in He'.
      rewrite list_lookup_insert_ne in He' by lia. exact (Habs j e' He').
Qed.


Lemma first_match_below (dir : list struct_root_dir_entry) (s : list Z) (n : nat) :
  (forall j e', (j < n)%nat -> dir !! j = Some e' -> name_of (filename e') <> Some s)
  \/ (exists k e, (k < n)%nat /\ holds_name dir s k e).
Proof.
  induction n as [|n [IH|IH]].
  - left. intros j e' Hj. lia.
  - destruct (dir !! n) as [e|] eqn:He.
    + destruct (decide (name_of (filename e) = Some s)) as [Hyes|Hno].
      * right. exists n, e. split; [lia|]. split; [exact He|]. split; [exact Hyes | exact IH].
      * left. intros j e' Hj He'. destruct (decide (j = n)) as [->|Hne].
        -- rewrite He in He'. inversion He'; subst. exact Hno.
        -- apply (IH j e'); [lia | exact He'].
    + left. intros j e' Hj He'. destruct (decide (j = n)) as [->|Hne].
      * rewrite He in He'. discriminate.
      * apply (IH j e'); [lia | exact He'].
  - right. destruct IH as (k & e & Hk & Hh). exists k, e. split; [lia | exact Hh].
Qed.

Lemma first_match (dir : list struct_root_dir_entry) (s : list Z) (x : nat)
    (e : struct_root_dir_entry) :
  dir !! x = Some e -> name_of (filename e) = Some s ->
  exists k e', (k <= x)%nat /\ holds_name dir s k e'.
Proof.
  intros Hx He. destruct (first_match_below dir s (S x)) as [Hnone|(k & e' & Hk & Hh)].
  - exfalso. apply (Hnone x e); [lia | exact Hx | exact He].
  - exists k, e'. split; [lia | exact Hh].
Qed.

(** X3. A name that some entry of the directory holds cannot be created. *)
Theorem fs_create_existing_name (name s : list Z) (st : fs_state) (x : nat)
    (e : struct_root_dir_entry) :
  dir_wf (root_directory st) ->
  name_of name = Some s ->
  (length s <= 15)%nat ->
  root_directory st !! x = Some e ->
  name_of (filename e) = Some s ->
  fs_create name st = Done (st, -1).
Proof.
  intros Hwf Hs Hl Hx He.
  destruct (first_match _ _ _ _ Hx He) as (k & e' & Hk & Hh).
  unfold fs_create. destruct (_ || _); [reflexivity|].
  rewrite (is_invalid_file_valid name s Hs Hl). cbn [bind].
  change (negb (0 =? 0)) with false. cbv iota.
  rewrite (find_file_first name s _ k e' Hs Hl Hwf Hh). cbn [bind].
  apply lookup_lt_Some in Hx. destruct Hwf as [Hlen _].
  destruct (Z.ltb_spec (Z.of_nat k) FS_FILE_MAX_COUNT) as [_|Hge];
    [reflexivity | unfold FS_FILE_MAX_COUNT in Hge; lia].
Qed.

(** X4. With every slot of the directory taken and the count of files below
    128, [fs_create] of a new name writes behind the directory. *)
Theorem fs_create_directory_full (name s : list Z) (st : fs_state) :
  fs_mounted st <> 0 ->
  num_files_root_dir st < 128 ->
  dir_wf (root_directory st) ->
  name_of name = Some s ->
  (length s <= 15)%nat ->
  no_file (root_directory st) s ->
  no_file (root_directory st) [] ->
  fs_create name st = Fault.
Proof.
  intros Hm Hn Hwf Hs Hl Habs Hfull. unfold fs_create.
  apply Z.eqb_neq in Hm. rewrite Hm.
  destruct (Z.leb_spec FS_FILE_MAX_COUNT (num_files_root_dir st)) as [Hge|_];
    [unfold FS_FILE_MAX_COUNT in Hge; lia|].
  cbn [orb]. cbv iota.
  rewrite (is_invalid_file_valid name s Hs Hl). cbn [bind].
  change (negb (0 =? 0)) with false. cbv iota.
  rewrite (find_file_none name s _ Hs Hl Hwf Habs). cbn [bind].
  change (128 <? FS_FILE_MAX_COUNT) with false. cbv iota.
  rewrite (first_empty_full _ Hwf Hfull). cbn [bind].
  rewrite (strlen_name_of name s Hs). cbn [bind].
  assert (Hf : arr_get (root_directory st) 128 = Fault).
  { unfold arr_get. change (128 <? 0) with false. cbv iota.
    rewrite (proj2 (lookup_ge_None _ _)); [reflexivity|].
    destruct Hwf as [-> _]. change (Z.to_nat 128) with 128%nat. lia. }
  rewrite Hf. reflexivity.
Qed.

(** X5. A name that no entry holds can be neither opened nor deleted. *)
Theorem missing_file_refused (fuel : nat) (name s : list Z) (st : fs_state) :
  dir_wf (root_directory st) ->
  name_of name = Some s ->
  (length s <= 15)%nat ->
  no_file (root_directory st) s ->
  fs_open name st = Done (st, -1) /\ fs_delete fuel name st = Done (st, -1).
Proof.
  intros Hwf Hs Hl Habs. unfold fs_open, fs_delete.
  rewrite (is_invalid_file_valid name s Hs Hl). cbn [bind].
  change (negb (0 =? 0)) with false. cbv iota.
  rewrite (find_file_none name s _ Hs Hl Hwf Habs). cbn [bind].
  change (FS_FILE_MAX_COUNT <=? 128) with true. cbv iota.
  split.
  - destruct (_ || _); reflexivity.
  - destruct (_ =? _); reflexivity.
Qed.

(** ** Opening and closing *)

Lemma first_free_fd_found (t : list struct_file_descriptor) (k : nat) :
  forall (n i : nat),
    first_free_handle t k ->
    (i <= k < i + n)%nat ->
    first_free_fd n (Z.of_nat i) t = Done (Z.of_nat k).
Proof.
  induction n as [|n IH]; intros i [Hk Hbefore] Hi; [lia|].
  cbn [first_free_fd].
  destruct (decide (i = k)) as [->|Hne].
  - rewrite (arr_get_nat _ _ _ Hk). reflexivity.
  - destruct (lookup_lt_is_Some_2 t i) as [d Hd].
    { apply lookup_lt_Some in Hk. lia. }
    rewrite (arr_get_nat _ _ _ Hd). cbn [bind].
    pose proof (Hbefore i d ltac:(lia) Hd) as Hnz. apply Z.eqb_neq in Hnz.
    rewrite Hnz. cbn [negb].
    replace (Z.of_nat i + 1) with (Z.of_nat (S i)) by lia.
    apply IH; [split; assumption | lia].
Qed.

(** X6. [fs_open] of a file gives the lowest free descriptor, with a handle
    at offset 0 on the first entry that holds the name; [fs_close] of that
    descriptor gives back the state before the [fs_open]. *)
Theorem fs_open_then_close (name s : list Z) (st : fs_state) (i k : nat)
    (e : struct_root_dir_entry) :
  fs_mounted st <> 0 ->
  num_open_fds st < 32 ->
  dir_wf (root_directory st) ->
  name_of name = Some s ->
  (length s <= 15)%nat ->
  holds_name (root_directory st) s i e ->
  handles_wf (FD st) ->
  first_free_handle (FD st) k ->
  let d := {| idx_file_root_dir := Z.of_nat i;
              file_descriptor := Z.of_nat k + 1; file_offset := 0 |} in
  let st1 := set_num_open_fds (num_open_fds st + 1)
               (set_FD (<[k := d]> (FD st)) st) in
  fs_open name st = Done (st1, Z.of_nat k + 1)
  /\ 1 <= Z.of_nat k + 1 <= 32
  /\ fs_close (Z.of_nat k + 1) st1 = Done (st, 0).
Proof.
  intros Hm Hn Hwf Hs Hl Hh Hhw Hfree d st1.
  pose proof Hhw as [Hlen Hdesc]. pose proof Hfree as [Hk Hbefore].
  pose proof (lookup_lt_Some _ _ _ Hk) as Hk32.
  pose proof Hh as (Hi & _ & _). pose proof (lookup_lt_Some _ _ _ Hi) as Hi128.
  destruct Hwf as [Hdlen Hfn].
  apply Z.eqb_neq in Hm.
  split; [|split; [lia|]].
  - unfold fs_open. rewrite Hm.
    destruct (Z.leb_spec FS_OPEN_MAX_COUNT (num_open_fds st)) as [Hge|_];
      [unfold FS_OPEN_MAX_COUNT in Hge; lia|].
    cbn [orb]. cbv iota.
    rewrite (is_invalid_file_valid name s Hs Hl). cbn [bind].
    change (negb (0 =? 0)) with false. cbv iota.
    rewrite (find_file_first name s _ i e Hs Hl (conj Hdlen Hfn) Hh). cbn [bind].
    destruct (Z.leb_spec FS_FILE_MAX_COUNT (Z.of_nat i)) as [Hge|_];
      [unfold FS_FILE_MAX_COUNT in Hge; lia|].
    pose proof (first_free_fd_found (FD st) k (S (length (FD st))) 0 Hfree
                  ltac:(lia)) as Hscan.
    change (Z.of_nat 0) with 0 in Hscan. rewrite Hscan. cbn [bind]. rewrite arr_set_Done by lia. cbn [bind]. rewrite Nat2Z.id.
    reflexivity.
  - unfold fs_close.
    change (fs_mounted st1) with (fs_mounted st). rewrite Hm.
    destruct (Z.ltb_spec FS_OPEN_MAX_COUNT (Z.of_nat k + 1)) as [Hgt|_];
      [unfold FS_OPEN_MAX_COUNT in Hgt; lia|].
    cbn [orb]. cbv iota.
    change (FD st1) with (<[k := d]> (FD st)).
    assert (Hfind : find_fd (Z.of_nat k + 1) (<[k := d]> (FD st)) = Done (Z.of_nat k)).
    { apply find_fd_from_found; [lia | lia | |].
      - intros j Hj.
        destruct (lookup_lt_is_Some_2 (FD st) (Z.to_nat j) ltac:(lia)) as [dj Hdj].
        exists dj. split; [rewrite list_lookup_insert_ne by lia; exact Hdj|].
        destruct (Hdesc _ _ Hdj) as [E|E]; rewrite E; lia.
      - exists d. split; [|reflexivity].
        rewrite Nat2Z.id. apply list_lookup_insert_eq. lia. }
    rewrite Hfind. cbn [bind].
    destruct (Z.leb_spec FS_OPEN_MAX_COUNT (Z.of_nat k)) as [Hge|_];
      [unfold FS_OPEN_MAX_COUNT in Hge; lia|].
    rewrite arr_set_Done by (rewrite length_insert; lia). cbn [bind].
    rewrite Nat2Z.id, list_insert_insert_eq, (list_insert_id _ _ _ Hk).
    f_equal. f_equal. destruct st. unfold st1, set_num_open_fds, set_FD.
    cbn. f_equal. lia.
Qed.

(** ** Deleting a file *)

Lemma file_is_open_from_true (t : list struct_file_descriptor) (x : Z) (j : nat)
    (d : struct_file_descriptor) :
  forall (n i : nat),
    (i <= j < i + n)%nat ->
    t !! j = Some d ->
    idx_file_root_dir d = x ->
    file_is_open_from n (Z.of_nat i) x t = Done true.
Proof.
  induction n as [|n IH]; intros i Hi Hj Hx; [lia|].
  cbn [file_is_open_from].
  destruct (lookup_lt_is_Some_2 t i) as [di Hdi].
  { apply lookup_lt_Some in Hj. lia. }
  rewrite (arr_get_nat _ _ _ Hdi). cbn [bind].
  destruct (Z.eqb_spec (idx_file_root_dir di) x) as [_|Hne]; [reflexivity|].
  destruct (decide (i = j)) as [->|Hij].
  - rewrite Hj in Hdi. inversion Hdi; subst. contradiction.
  - replace (Z.of_nat i + 1) with (Z.of_nat (S i)) by lia.
    apply IH; [lia | exact Hj | exact Hx].
Qed.

Lemma file_is_open_from_false (t : list struct_file_descriptor) (x : Z) :
  forall (n i : nat),
    (i + n <= length t)%nat ->
    (forall j d, t !! j = Some d -> idx_file_root_dir d <> x) ->
    file_is_open_from n (Z.of_nat i) x t = Done false.
Proof.
  induction n as [|n IH]; intros i Hi Hnone; [reflexivity|].
  cbn [file_is_open_from].
  destruct (lookup_lt_is_Some_2 t i) as [di Hdi]; [lia|].
  rewrite (arr_get_nat _ _ _ Hdi). cbn [bind].
  pose proof (Hnone i di Hdi) as Hne. apply Z.eqb_neq in Hne. rewrite Hne.
  replace (Z.of_nat i + 1) with (Z.of_nat (S i)) by lia.
  apply IH; [lia | exact Hnone].
Qed.

(** X7. A file that an open descriptor refers to is not deleted. *)
Theorem fs_delete_open_file (fuel : nat) (name s : list Z) (st : fs_state)
    (x : nat) (e : struct_root_dir_entry) (fd : Z) (d : struct_file_descriptor) :
  dir_wf (root_directory st) ->
  name_of name = Some s ->
  (length s <= 15)%nat ->
  holds_name (root_directory st) s x e ->
  open_handle st fd d ->
  idx_file_root_dir d = Z.of_nat x ->
  fs_delete fuel name st = Done (st, -1).
Proof.
  intros Hwf Hs Hl Hh (Hfd & Hd & _) Hx. unfold fs_delete.
  destruct (fs_mounted st =? 0); [reflexivity|].
  rewrite (is_invalid_file_valid name s Hs Hl). cbn [bind].
  change (negb (0 =? 0)) with false. cbv iota.
  rewrite (find_file_first name s _ x e Hs Hl Hwf Hh). cbn [bind].
  destruct (FS_FILE_MAX_COUNT <=? Z.of_nat x); [reflexivity|].
  pose proof (file_is_open_from_true (FD st) (Z.of_nat x) (Z.to_nat (fd - 1)) d 32 0
                ltac:(lia) Hd Hx) as Hbusy.
  change (Z.of_nat 0) with 0 in Hbusy. rewrite Hbusy. reflexivity.
Qed.

Lemma write_fat_blocks_flush (f : list struct_fat_block) :
  forall (n k : nat) (dev : device),
    (k + n <= length f)%nat ->
    write_fat_blocks n (Z.of_nat k + 1) f dev
    = Done (flush_fat (take n (drop k f)) (Z.of_nat k + 1) dev).
Proof.
  induction n as [|n IH]; intros k dev Hk; [reflexivity|].
  cbn [write_fat_blocks].
  destruct (lookup_lt_is_Some_2 f k) as [b Hb]; [lia|].
  replace (Z.of_nat k + 1 - 1) with (Z.of_nat k) by lia.
  rewrite (arr_get_nat _ _ _ Hb). cbn [bind].
  rewrite (drop_S _ _ _ Hb). cbn [take flush_fat].
  replace (Z.of_nat k + 1 + 1) with (Z.of_nat (S k) + 1) by lia.
  apply IH. lia.
Qed.

Lemma write_fat_blocks_all (f : list struct_fat_block) (n : nat) (dev : device) :
  (n <= length f)%nat ->
  write_fat_blocks n 1 f dev = Done (flush_fat (take n f) 1 dev).
Proof. intros H. apply (write_fat_blocks_flush f n 0 dev). lia. Qed.

Lemma fat_set_clear (f : list struct_fat_block) (c v : Z) :
  fat_get f (c / NUM_ENTRIES_FAT_BLK) (c mod NUM_ENTRIES_FAT_BLK) = Done v ->
  fat_set f (c / NUM_ENTRIES_FAT_BLK) (c mod NUM_ENTRIES_FAT_BLK) 0
  = Done (fat_clear f c).
Proof.
  intros H. apply fat_get_inv in H. destruct H as (b & Hb & Hv).
  rewrite (fat_set_Done f b _ _ _ Hb (arr_get_length _ _ _ Hv)).
  unfold fat_clear. apply arr_get_Done in Hb. destruct Hb as [_ ->]. reflexivity.
Qed.

Lemma fat_get_clear_other (f : list struct_fat_block) (c j : Z) :
  0 <= c -> 0 <= j -> c <> j ->
  fat_get (fat_clear f j) (c / NUM_ENTRIES_FAT_BLK) (c mod NUM_ENTRIES_FAT_BLK)
  = fat_get f (c / NUM_ENTRIES_FAT_BLK) (c mod NUM_ENTRIES_FAT_BLK).
Proof.
  intros Hc Hj Hne. unfold fat_clear, NUM_ENTRIES_FAT_BLK.
  destruct (f !! Z.to_nat (j / 2048)) as [b|] eqn:Hb; [|reflexivity].
  unfold fat_get, arr_get at 1 3.
  destruct (Z.ltb_spec (c / 2048) 0) as [|_]; [reflexivity|].
  destruct (Z.eq_dec (c / 2048) (j / 2048)) as [E|E].
  - rewrite E. rewrite list_lookup_insert_eq by (apply lookup_lt_Some in Hb; exact Hb).
    rewrite Hb. cbn [bind]. unfold arr_get.
    destruct (c mod 2048 <? 0); [reflexivity|].
    rewrite (list_lookup_insert_ne (b : list Z)); [reflexivity|].
    intros E'. apply Hne. Z.div_mod_to_equations. lia.
  - rewrite list_lookup_insert_ne; [reflexivity|].
    intros E'. apply E. Z.div_mod_to_equations. lia.
Qed.

Lemma fat_get_nonneg (f : list struct_fat_block) (c v : Z) :
  fat_get f (c / NUM_ENTRIES_FAT_BLK) (c mod NUM_ENTRIES_FAT_BLK) = Done v -> 0 <= c.
Proof.
  intros H. apply fat_get_inv in H. destruct H as (b & Hb & _).
  apply arr_get_length in Hb. unfold NUM_ENTRIES_FAT_BLK in Hb.
  Z.div_mod_to_equations. lia.
Qed.

Lemma chain_from_head (f : list struct_fat_block) (j : Z) (rest : list Z) :
  chain_from f j rest ->
  exists v, fat_get f (j / NUM_ENTRIES_FAT_BLK) (j mod NUM_ENTRIES_FAT_BLK) = Done v.
Proof. destruct rest as [|v rest]; cbn [chain_from]; [eauto | intros (H & _); eauto]. Qed.

Lemma chain_from_clear (f : list struct_fat_block) (j : Z) :
  forall (rest : list Z) (v : Z),
    0 <= j ->
    chain_from f v rest ->
    j ∉ v :: rest ->
    chain_from (fat_clear f j) v rest.
Proof.
  induction rest as [|w rest IH]; intros v Hj Hch Hnin.
  - cbn [chain_from] in *.
    rewrite fat_get_clear_other; [exact Hch | | exact Hj |].
    + eapply fat_get_nonneg. exact Hch.
    + intros ->. apply Hnin. left.
  - cbn [chain_from] in *. destruct Hch as (Hv & Hne & Hrest).
    split; [|split; [exact Hne|]].
    + rewrite fat_get_clear_other; [exact Hv | | exact Hj |].
      * eapply fat_get_nonneg. exact Hv.
      * intros ->. apply Hnin. left.
    + apply IH; [exact Hj | exact Hrest |].
      intros Hin. apply Hnin. right. exact Hin.
Qed.

(** The chain walk of [fs_delete] and the store that follows it. *)
Lemma free_chain_spec :
  forall (rest : list Z) (f : list struct_fat_block) (j : Z) (fuel : nat) (avail : Z),
    chain_from f j rest ->
    NoDup (j :: rest) ->
    (length rest < fuel)%nat ->
    (let* '(f1, blk, entry, avail1) :=
       free_chain fuel f (j / NUM_ENTRIES_FAT_BLK) (j mod NUM_ENTRIES_FAT_BLK) avail in
     let* f2 := fat_set f1 blk entry 0 in
     Done (f2, avail1))
    = Done (foldl fat_clear f (j :: rest), avail + Z.of_nat (length rest)).
Proof.
  induction rest as [|v rest IH]; intros f j fuel avail Hch Hnd Hfuel.
  - destruct fuel as [|fuel]; [cbn [length] in Hfuel; lia|].
    cbn [chain_from] in Hch. cbn [free_chain]. rewrite Hch. cbn [bind].
    change (FAT_EOC =? FAT_EOC) with true. cbv iota. cbn [bind].
    rewrite (fat_set_clear f j _ Hch). cbn [bind foldl length].
    f_equal. f_equal. lia.
  - destruct fuel as [|fuel]; [cbn [length] in Hfuel; lia|].
    cbn [chain_from] in Hch. destruct Hch as (Hv & Hne & Hrest).
    cbn [free_chain]. rewrite Hv. cbn [bind].
    apply Z.eqb_neq in Hne. rewrite Hne.
    rewrite (fat_set_clear f j _ Hv). cbn [bind].
    inversion Hnd as [|? ? Hnin Hnd']; subst.
    rewrite (IH (fat_clear f j) v fuel (avail + 1)).
    + cbn [foldl length]. f_equal. f_equal. lia.
    + apply chain_from_clear; [eapply fat_get_nonneg; exact Hv | exact Hrest | exact Hnin].
    + exact Hnd'.
    + cbn [length] in Hfuel. lia.
Qed.

Lemma fat_clear_length (f : list struct_fat_block) (c : Z) :
  length (fat_clear f c) = length f.
Proof.
  unfold fat_clear. destruct (f !! _); [apply length_insert | reflexivity].
Qed.

Lemma foldl_fat_clear_length (cs : list Z) (f : list struct_fat_block) :
  length (foldl fat_clear f cs) = length f.
Proof.
  revert f. induction cs as [|c cs IH]; intros f; [reflexivity|].
  cbn [foldl]. rewrite IH. apply fat_clear_length.
Qed.

Lemma fat_get_clear_same (f : list struct_fat_block) (c v : Z) :
  fat_get f (c / NUM_ENTRIES_FAT_BLK) (c mod NUM_ENTRIES_FAT_BLK) = Done v ->
  fat_get (fat_clear f c) (c / NUM_ENTRIES_FAT_BLK) (c mod NUM_ENTRIES_FAT_BLK) = Done 0.
Proof.
  intros H. apply fat_get_inv in H. destruct H as (b & Hb & Hv).
  pose proof (arr_get_length _ _ _ Hb) as Hlb.
  pose proof (arr_get_length _ _ _ Hv) as Hlv.
  apply arr_get_Done in Hb. destruct Hb as [Hb0 Hb].
  unfold fat_clear. rewrite Hb. unfold fat_get.
  rewrite (arr_get_lookup _ _ (<[Z.to_nat (c mod NUM_ENTRIES_FAT_BLK) := 0]> b) Hb0)
    by (apply list_lookup_insert_eq; lia).
  cbn [bind]. apply arr_get_lookup; [lia|]. apply list_lookup_insert_eq. lia.
Qed.

Lemma fat_get_clear_any (f : list struct_fat_block) (c j v : Z) :
  0 <= j ->
  fat_get f (c / NUM_ENTRIES_FAT_BLK) (c mod NUM_ENTRIES_FAT_BLK) = Done v ->
  fat_get (fat_clear f j) (c / NUM_ENTRIES_FAT_BLK) (c mod NUM_ENTRIES_FAT_BLK)
  = Done (if bool_decide (c = j) then 0 else v).
Proof.
  intros Hj H. destruct (decide (c = j)) as [->|Hne].
  - rewrite bool_decide_eq_true_2 by reflexivity. eapply fat_get_clear_same. exact H.
  - rewrite bool_decide_eq_false_2 by exact Hne.
    rewrite fat_get_clear_other; [exact H | | exact Hj | exact Hne].
    eapply fat_get_nonneg. exact H.
Qed.

Lemma foldl_fat_clear_zero (cs : list Z) :
  forall (f : list struct_fat_block) (c v : Z),
    Forall (fun j => 0 <= j) cs ->
    fat_get f (c / NUM_ENTRIES_FAT_BLK) (c mod NUM_ENTRIES_FAT_BLK) = Done v ->
    fat_get (foldl fat_clear f cs) (c / NUM_ENTRIES_FAT_BLK) (c mod NUM_ENTRIES_FAT_BLK)
    = Done (if bool_decide (c ∈ cs) then 0 else v).
Proof.
  induction cs as [|j cs IH]; intros f c v Hpos Hv.
  - cbn [foldl]. rewrite bool_decide_eq_false_2; [exact Hv|]. apply not_elem_of_nil.
  - inversion Hpos as [|? ? Hj Hpos']; subst. cbn [foldl].
    rewrite (IH _ c _ Hpos' (fat_get_clear_any f c j v Hj Hv)).
    f_equal. destruct (decide (c = j)) as [->|Hne].
    + rewrite (bool_decide_eq_true_2 (j = j)) by reflexivity.
      rewrite (bool_decide_eq_true_2 (j ∈ j :: cs)) by left.
      destruct (bool_decide (j ∈ cs)); reflexivity.
    + rewrite (bool_decide_eq_false_2 (c = j)) by exact Hne.
      destruct (decide (c ∈ cs)) as [Hin|Hnin].
      * rewrite !bool_decide_eq_true_2; [reflexivity | right; exact Hin | exact Hin].
      * rewrite !bool_decide_eq_false_2; [reflexivity | | exact Hnin].
        intros Hin. apply elem_of_cons in Hin. destruct Hin; contradiction.
Qed.

Lemma chain_from_valid (f : list struct_fat_block) :
  forall (rest : list Z) (j : Z),
    chain_from f j rest ->
    Forall (fun c => exists v,
              fat_get f (c / NUM_ENTRIES_FAT_BLK) (c mod NUM_ENTRIES_FAT_BLK) = Done v)
      (j :: rest).
Proof.
  induction rest as [|w rest IH]; intros j Hch; cbn [chain_from] in Hch.
  - constructor; [eauto | constructor].
  - destruct Hch as (Hv & _ & Hrest). constructor; [eauto | apply IH; exact Hrest].
Qed.

(** X8. [fs_delete] of a file that no handle refers to returns 0.  Every
    FAT entry of the file's chain is set to 0, the count of available
    blocks goes up by one less than the number of blocks of the chain, the
    slot of the file is marked free, and the FAT blocks and the directory
    are written to the disk. *)
Theorem fs_delete_frees_chain (fuel : nat) (name s : list Z) (st : fs_state)
    (x : nat) (e : struct_root_dir_entry) (cs : list Z) :
  fs_mounted st <> 0 ->
  dir_wf (root_directory st) ->
  name_of name = Some s ->
  (length s <= 15)%nat ->
  holds_name (root_directory st) s x e ->
  (32 <= length (FD st))%nat ->
  (forall j d, FD st !! j = Some d -> idx_file_root_dir d <> Z.of_nat x) ->
  chain_of (fat st) (idx_first_data_blk e) cs ->
  NoDup cs ->
  (length cs <= fuel)%nat ->
  (Z.to_nat (num_blks_fat (superblock st)) <= length (fat st))%nat ->
  let f' := foldl fat_clear (fat st) cs in
  let dir' := <[x := deleted_entry e]> (root_directory st) in
  let nf := num_blks_fat (superblock st) in
  fs_delete fuel name st
  = Done (set_disk
            (block_write (flush_fat (take (Z.to_nat nf) f') 1 (disk st)) (1 + nf)
               (serialize_root_directory dir'))
            (set_root_directory dir'
               (set_num_avail_data_blks
                  (num_avail_data_blks st + Z.of_nat (length cs - 1))
                  (set_fat f' st))), 0)
  /\ Forall (fun c => fat_get f' (c / NUM_ENTRIES_FAT_BLK) (c mod NUM_ENTRIES_FAT_BLK)
                      = Done 0) cs
  /\ name_of (filename (deleted_entry e)) = Some [].
Proof.
  intros Hm Hwf Hs Hl Hh Hlen Hclosed Hch Hnd Hfuel Hfat f' dir' nf.
  pose proof Hh as (Hx & _ & _). pose proof (lookup_lt_Some _ _ _ Hx) as Hx128.
  pose proof Hwf as [Hdlen Hfn].
  pose proof (Forall_lookup_1 _ _ _ _ Hfn Hx) as Hfe. cbv beta in Hfe.
  split; [|split].
  - unfold fs_delete. apply Z.eqb_neq in Hm. rewrite Hm.
    rewrite (is_invalid_file_valid name s Hs Hl). cbn [bind].
    change (negb (0 =? 0)) with false. cbv iota.
    rewrite (find_file_first name s _ x e Hs Hl Hwf Hh). cbn [bind].
    destruct (Z.leb_spec FS_FILE_MAX_COUNT (Z.of_nat x)) as [Hge|_];
      [unfold FS_FILE_MAX_COUNT in Hge; lia|].
    pose proof (file_is_open_from_false (FD st) (Z.of_nat x) 32 0 ltac:(lia) Hclosed)
      as Hbusy.
    change (Z.of_nat 0) with 0 in Hbusy. rewrite Hbusy. cbn [bind].
    rewrite (arr_get_nat _ _ _ Hx). cbn [bind].
    assert (Hfree :
      (if negb (idx_first_data_blk e =? FAT_EOC) then
         let* '(f, blk, entry, avail) :=
           free_chain fuel (fat st)
             (idx_first_data_blk e / NUM_ENTRIES_FAT_BLK)
             (idx_first_data_blk e mod NUM_ENTRIES_FAT_BLK)
             (num_avail_data_blks st) in
         let* f' := fat_set f blk entry 0 in
         Done (f', avail)
       else Done (fat st, num_avail_data_blks st))
      = Done (f', num_avail_data_blks st + Z.of_nat (length cs - 1))).
    { destruct cs as [|c rest]; cbn [chain_of] in Hch.
      - rewrite Hch. change (negb (FAT_EOC =? FAT_EOC)) with false. cbv iota.
        unfold f'. cbn [foldl length]. f_equal. f_equal. lia.
      - destruct Hch as (Hne & -> & Hchain).
        apply Z.eqb_neq in Hne. rewrite Hne. cbn [negb].
        rewrite (free_chain_spec rest (fat st) _ fuel (num_avail_data_blks st)
                   Hchain Hnd ltac:(cbn [length] in Hfuel; lia)).
        unfold f'. cbn [length]. f_equal. f_equal. f_equal. lia. }
    etransitivity.
    { apply (f_equal (fun m => bind m _)). exact Hfree. }
    cbn [bind].
    rewrite arr_set_Done by lia. cbn [bind].
    rewrite arr_set_Done by lia. cbn [bind]. rewrite Nat2Z.id.
    change (Z.to_nat 0) with 0%nat.
    cbn [fat set_fat set_num_avail_data_blks set_root_directory superblock disk
         root_directory].
    rewrite write_fat_blocks_all
      by (unfold f'; rewrite foldl_fat_clear_length; exact Hfat).
    reflexivity.
  - destruct cs as [|c rest]; [constructor|].
    cbn [chain_of] in Hch. destruct Hch as (Hne & -> & Hchain).
    pose proof (chain_from_valid _ _ _ Hchain) as Hvalid.
    assert (Hpos : Forall (fun j => 0 <= j) (idx_first_data_blk e :: rest)).
    { eapply List.Forall_impl; [|exact Hvalid]. cbv beta. intros c [v Hv].
      eapply fat_get_nonneg. exact Hv. }
    apply Forall_lookup_2. intros i c Hc.
    destruct (Forall_lookup_1 _ _ _ _ Hvalid Hc) as [v Hv].
    unfold f'. rewrite (foldl_fat_clear_zero _ _ c v Hpos Hv).
    rewrite bool_decide_eq_true_2; [reflexivity|].
    eapply list_elem_of_lookup_2. exact Hc.
  - cbn [deleted_entry filename].
    destruct (filename e) as [|c0 fn]; [cbn [length] in Hfe; lia|]. reflexivity.
Qed.

(** ** Descriptors that are not open *)

Lemma find_fd_closed (fd : Z) (st : fs_state) :
  handles_wf (FD st) ->
  fd <> 0 ->
  (forall d, ~ open_handle st fd d) ->
  find_fd fd (FD st) = Done 32.
Proof.
  intros [Hlen Hwf] Hnz Hclosed.
  apply (find_fd_from_absent (FD st) fd 32 0); [lia|]. intros j Hj.
  destruct (lookup_lt_is_Some_2 (FD st) (Z.to_nat j) ltac:(lia)) as [d Hd].
  exists d. split; [exact Hd|].
  destruct (Hwf _ _ Hd) as [E|E]; [lia|].
  intros Hfd. apply (Hclosed d). unfold open_handle.
  replace (fd - 1) with j by lia. repeat split; try lia; assumption.
Qed.

(** X9. [fs_lseek], [fs_read] and [fs_write] refuse a descriptor other than 0
    that is not open, and leave the state and the buffer as they were. *)
Theorem unopened_descriptor_refused (fuel : nat) (fd offset count : Z)
    (buf : option (list Z)) (st : fs_state) :
  handles_wf (FD st) ->
  fd <> 0 ->
  (forall d, ~ open_handle st fd d) ->
  fs_lseek fd offset st = Done (st, -1)
  /\ fs_read fd buf count st = Done (st, -1, buf)
  /\ fs_write fuel fd buf count st = Done (st, -1).
Proof.
  intros Hwf Hnz Hclosed.
  pose proof (find_fd_closed fd st Hwf Hnz Hclosed) as Hfind.
  split; [|split].
  - unfold fs_lseek, fs_stat. destruct (_ || _); [reflexivity|].
    rewrite Hfind. reflexivity.
  - unfold fs_read. destruct buf as [out|]; [|reflexivity].
    destruct (_ || _); [reflexivity|]. rewrite Hfind. reflexivity.
  - unfold fs_write. destruct buf as [src|]; [|reflexivity].
    destruct (_ || _); [reflexivity|]. rewrite Hfind. reflexivity.
Qed.

Lemma find_fd_zero (t : list struct_file_descriptor) (k : nat) :
  first_free_handle t k -> (k < 32)%nat ->
  find_fd 0 t = Done (Z.of_nat k).
Proof.
  intros [Hk Hbefore] Hk32.
  apply find_fd_from_found; [lia | lia | |].
  - intros j Hj.
    destruct (lookup_lt_is_Some_2 t (Z.to_nat j)) as [d Hd].
    { apply lookup_lt_Some in Hk. lia. }
    exists d. split; [exact Hd|]. apply (Hbefore (Z.to_nat j) d); [lia | exact Hd].
  - exists empty_FD. rewrite Nat2Z.id. split; [exact Hk | reflexivity].
Qed.

(** X10. On a mounted file system with a free slot among the 32 of the handle
    table, descriptor 0 is taken for that slot: [fs_lseek], [fs_read] and
    [fs_write] then read [root_directory[-1]]. *)
Theorem descriptor_zero_reads_before_directory (fuel : nat) (offset count : Z)
    (buf : list Z) (st : fs_state) (k : nat) :
  fs_mounted st <> 0 ->
  first_free_handle (FD st) k ->
  (k < 32)%nat ->
  fs_lseek 0 offset st = Fault
  /\ fs_read 0 (Some buf) count st = Fault
  /\ fs_write fuel 0 (Some buf) count st = Fault.
Proof.
  intros Hm Hfree Hk32.
  pose proof (find_fd_zero _ _ Hfree Hk32) as Hfind.
  destruct Hfree as [Hk _].
  apply Z.eqb_neq in Hm.
  assert (Hne : (Z.of_nat k =? FS_OPEN_MAX_COUNT) = false).
  { apply Z.eqb_neq. unfold FS_OPEN_MAX_COUNT. lia. }
  split; [|split].
  - unfold fs_lseek, fs_stat. rewrite Hm.
    change (FS_OPEN_MAX_COUNT <? 0) with false. cbn [orb]. cbv iota.
    rewrite Hfind. cbn [bind]. rewrite Hne.
    rewrite (arr_get_nat _ _ _ Hk). reflexivity.
  - unfold fs_read. rewrite Hm.
    change (FS_OPEN_MAX_COUNT <? 0) with false. cbn [orb]. cbv iota.
    rewrite Hfind. cbn [bind]. rewrite Hne.
    rewrite (arr_get_nat _ _ _ Hk). reflexivity.
  - unfold fs_write. rewrite Hm.
    change (FS_OPEN_MAX_COUNT <? 0) with false. cbn [orb]. cbv iota.
    rewrite Hfind. cbn [bind]. rewrite Hne.
    rewrite (arr_get_nat _ _ _ Hk). reflexivity.
Qed.

(** ** The size and the offset *)

Lemma fs_stat_open (fd : Z) (st : fs_state) (d : struct_file_descriptor)
    (e : struct_root_dir_entry) :
  fs_mounted st <> 0 ->
  handles_wf (FD st) ->
  open_handle st fd d ->
  arr_get (root_directory st) (idx_file_root_dir d) = Done e ->
  fs_stat fd st = Done (to_int (size_file e)).
Proof.
  intros Hm Hwf Hopen He. pose proof Hopen as (Hfd & Hd & _).
  unfold fs_stat. apply Z.eqb_neq in Hm. rewrite Hm.
  destruct (Z.ltb_spec FS_OPEN_MAX_COUNT fd) as [Hgt|_];
    [unfold FS_OPEN_MAX_COUNT in Hgt; lia|].
  cbn [orb]. cbv iota. rewrite (find_fd_open st fd d Hwf Hopen). cbn [bind].
  destruct (Z.eqb_spec (fd - 1) FS_OPEN_MAX_COUNT) as [E|_];
    [unfold FS_OPEN_MAX_COUNT in E; lia|].
  rewrite (arr_get_lookup _ (fd - 1) d ltac:(lia) Hd). cbn [bind]. rewrite He. reflexivity.
Qed.

Lemma fs_lseek_open (fd offset : Z) (st : fs_state) (d : struct_file_descriptor)
    (e : struct_root_dir_entry) :
  fs_mounted st <> 0 ->
  handles_wf (FD st) ->
  open_handle st fd d ->
  arr_get (root_directory st) (idx_file_root_dir d) = Done e ->
  to_int (size_file e) <> -1 ->
  fs_lseek fd offset st
  = if to_int (size_file e) <? to_int offset then Done (st, -1)
    else Done (set_FD (<[Z.to_nat (fd - 1) := set_file_offset offset d]> (FD st)) st, 0).
Proof.
  intros Hm Hwf Hopen He Hsz. pose proof Hopen as (Hfd & Hd & _).
  unfold fs_lseek. rewrite (fs_stat_open fd st d e Hm Hwf Hopen He). cbn [bind].
  apply Z.eqb_neq in Hsz. rewrite Hsz. cbn [orb].
  destruct (to_int (size_file e) <? to_int offset); [reflexivity|].
  rewrite (find_fd_open st fd d Hwf Hopen). cbn [bind].
  rewrite (arr_get_lookup _ (fd - 1) d ltac:(lia) Hd). cbn [bind].
  rewrite arr_set_Done by (apply lookup_lt_Some in Hd; lia). reflexivity.
Qed.



(** ** Mounting and unmounting *)

Lemma read_fat_blocks_spec (img : list block) :
  forall (n : nat) (done : list struct_fat_block) (u : struct_fat_block),
    (length done + 1 + n <= length img)%nat ->
    read_fat_blocks n (Z.of_nat (length done) + 1) (Some img) (done ++ replicate n u)
    = done ++ map parse_fat_block (take n (drop (length done + 1) img)).
Proof.
  induction n as [|n IH]; intros done u Hlen.
  - reflexivity.
  - cbn [read_fat_blocks].
    destruct (lookup_lt_is_Some_2 img (length done + 1)) as [b Hb]; [lia|].
    assert (Hr : block_read (Some img) (Z.of_nat (length done) + 1) = Some b).
    { unfold block_read. destruct (Z.ltb_spec (Z.of_nat (length done) + 1) 0); [lia|].
      replace (Z.to_nat (Z.of_nat (length done) + 1)) with (length done + 1)%nat by lia.
      exact Hb. }
    rewrite Hr.
    replace (Z.to_nat (Z.of_nat (length done) + 1 - 1)) with (length done + 0)%nat by lia.
    rewrite insert_app_r. cbn [replicate]. cbn [insert list_insert].
    replace (done ++ parse_fat_block b :: replicate n u)
      with ((done ++ [parse_fat_block b]) ++ replicate n u)
      by (rewrite <- app_assoc; reflexivity).
    replace (Z.of_nat (length done) + 1 + 1)
      with (Z.of_nat (length (done ++ [parse_fat_block b])) + 1)
      by (rewrite length_app; cbn [length]; lia).
    rewrite IH by (rewrite length_app; cbn [length]; lia).
    rewrite (drop_S _ _ _ Hb). cbn [take map].
    rewrite <- app_assoc. cbn [app]. rewrite length_app. cbn [length].
    replace (length done + 1 + 1)%nat with (S (length done + 1)) by lia.
    reflexivity.
Qed.

Lemma fs_mount_ok (img : list block) (b0 : block) (st : fs_state) :
  disk st = None ->
  valid_disk img b0 ->
  fs_mount (Some img) st = (mounted_state img b0 st, 0).
Proof.
  intros Hd (Hb & Hsig & Hcnt & Hnf & Hlen).
  unfold fs_mount, block_disk_open. rewrite Hd.
  cbv beta iota. change (0 =? 0) with true. cbv beta iota.
  change (block_read (Some img) 0) with (img !! 0%nat). rewrite Hb.
  change (superblock (set_superblock ?s _)) with s.
  change (block_disk_count (Some img)) with (Z.of_nat (length img)).
  rewrite bool_decide_eq_true_2 by exact Hsig.
  apply Z.eqb_eq in Hcnt. rewrite Hcnt. cbn [negb orb]. cbv iota.
  set (sb := parse_superblock b0) in *.
  set (nf := Z.to_nat (num_blks_fat sb)).
  pose proof (read_fat_blocks_spec img nf [] (replicate 2048 uninit)
                ltac:(cbn [length]; lia)) as Hfat.
  cbn [length app] in Hfat. change (Z.of_nat 0 + 1) with 1 in Hfat.
  change (0 + 1)%nat with 1%nat in Hfat.
  unfold struct_fat_block in *. rewrite Hfat.
  destruct (lookup_lt_is_Some_2 img (nf + 1)) as [bd Hbd]; [lia|].
  assert (Hr : block_read (Some img) (1 + num_blks_fat sb) = Some bd).
  { unfold block_read. destruct (Z.ltb_spec (1 + num_blks_fat sb) 0); [lia|].
    replace (Z.to_nat (1 + num_blks_fat sb)) with (nf + 1)%nat by lia. exact Hbd. }
  rewrite Hr. unfold mounted_state. cbv zeta. fold sb. fold nf.
  unfold block in *. rewrite Hbd. reflexivity.
Qed.

Lemma fs_umount_ok (img : list block) (st : fs_state) :
  fs_mounted st <> 0 ->
  num_open_fds st <= 0 ->
  disk st = Some img ->
  fs_umount st = (unmounted_state st, 0).
Proof.
  intros Hm Hn Hd. unfold fs_umount.
  apply Z.eqb_neq in Hm. rewrite Hm.
  destruct (Z.ltb_spec 0 (num_open_fds st)); [lia|]. cbn [orb]. cbv iota.
  rewrite Hd. reflexivity.
Qed.

(** X13. [fs_mount] of a disk that passes the two checks returns 0 with the
    superblock, the FAT blocks and the directory read from the disk, an
    empty handle table, and one block less than the superblock's count
    available; the counts of files and of open descriptors stay as they
    were.  [fs_umount] then returns 0 and closes the disk, and a second
    [fs_mount] of the disk gives the same state again. *)
Theorem fs_mount_umount_mount (img : list block) (b0 : block) (st : fs_state) :
  disk st = None ->
  num_open_fds st <= 0 ->
  valid_disk img b0 ->
  fs_mount (Some img) st = (mounted_state img b0 st, 0)
  /\ fs_umount (mounted_state img b0 st) = (unmounted_state st, 0)
  /\ fs_mount (Some img) (unmounted_state st) = (mounted_state img b0 st, 0).
Proof.
  intros Hd Hn Hv. split; [|split].
  - apply fs_mount_ok; assumption.
  - exact (fs_umount_ok img (mounted_state img b0 st) ltac:(discriminate) Hn eq_refl).
  - exact (fs_mount_ok img b0 (unmounted_state st) eq_refl Hv).
Qed.

(** X14. While a descriptor is open the file system cannot be unmounted:
    after an [fs_open] that succeeds on a mounted disk with a well-formed
    handle table and no descriptor open, [fs_umount] returns -1 and
    changes nothing; the [fs_close] of that descriptor returns 0 and takes
    the count of open descriptors back to 0, and [fs_umount] then
    returns 0. *)
Theorem fs_umount_waits_for_close (name : list Z) (img : list block)
    (st st1 : fs_state) (fd : Z) :
  fs_mounted st <> 0 ->
  disk st = Some img ->
  num_open_fds st = 0 ->
  handles_wf (FD st) ->
  fs_open name st = Done (st1, fd) ->
  fd <> -1 ->
  fs_umount st1 = (st1, -1)
  /\ exists st2,
       fs_close fd st1 = Done (st2, 0)
       /\ num_open_fds st2 = 0
       /\ fs_umount st2 = (unmounted_state st2, 0).
Proof.
  intros Hm Hd Hn [Hlen Hdesc] Hopen Hfd. unfold fs_open in Hopen.
  destruct (_ || _); [inversion Hopen; subst; contradiction|].
  inv_bind Hopen as inv Hinv.
  destruct (negb (inv =? 0)); [inversion Hopen; subst; contradiction|].
  inv_bind Hopen as i Hi.
  destruct (FS_FILE_MAX_COUNT <=? i); [inversion Hopen; subst; contradiction|].
  inv_bind Hopen as k Hk. inv_bind Hopen as t Ht.
  apply arr_set_inv in Ht. destruct Ht as [Hk32 ->].
  inversion Hopen; subst. clear Hopen. split.
  - unfold fs_umount.
    change (num_open_fds (set_num_open_fds ?n _)) with n.
    destruct (Z.ltb_spec 0 (num_open_fds st + 1)) as [_|Hle]; [|lia].
    rewrite orb_true_r. reflexivity.
  - set (d := {| idx_file_root_dir := i; file_descriptor := k + 1;
                 file_offset := 0 |}).
    assert (Hfind : find_fd (k + 1) (<[Z.to_nat k := d]> (FD st)) = Done k).
    { apply find_fd_from_found; [lia | lia | |].
      - intros j Hj.
        destruct (lookup_lt_is_Some_2 (FD st) (Z.to_nat j) ltac:(lia)) as [dj Hdj].
        exists dj. split; [rewrite list_lookup_insert_ne by lia; exact Hdj|].
        destruct (Hdesc _ _ Hdj) as [E|E]; rewrite E; lia.
      - exists d. split; [|reflexivity].
        apply list_lookup_insert_eq. lia. }
    eexists. split; [|split].
    + unfold fs_close. cbn [fs_mounted set_num_open_fds set_FD FD].
      apply Z.eqb_neq in Hm. rewrite Hm.
      destruct (Z.ltb_spec FS_OPEN_MAX_COUNT (k + 1)) as [Hgt|_];
        [unfold FS_OPEN_MAX_COUNT in Hgt; lia|].
      cbn [orb]. cbv iota. rewrite Hfind. cbn [bind].
      destruct (Z.leb_spec FS_OPEN_MAX_COUNT k) as [Hge|_];
        [unfold FS_OPEN_MAX_COUNT in Hge; lia|].
      rewrite arr_set_Done by (rewrite length_insert; lia). cbn [bind].
      reflexivity.
    + cbn [num_open_fds set_num_open_fds set_FD]. lia.
    + apply (fs_umount_ok img); [exact Hm | cbn; lia | exact Hd].
Qed.

(** ** The layout on the disk *)

Lemma rd16_le16 (v : Z) (rest : list Z) :
  0 <= v < 65536 -> rd16 (le16 v ++ rest) 0 = v.
Proof.
  intros Hv. unfold rd16, byte_at, le16. cbn [app nth Nat.add].
  Z.div_mod_to_equations. lia.
Qed.

Lemma parse_u16s_serialize (f : list Z) :
  forall (n : nat) (rest : list Z),
    length f = n ->
    Forall (fun v => 0 <= v < 65536) f ->
    parse_u16s n (concat (map le16 f) ++ rest) = f.
Proof.
  induction f as [|v f IH]; intros n rest Hn Hr.
  - subst n. reflexivity.
  - destruct n as [|n]; [discriminate|]. cbn [length] in Hn.
    inversion Hr as [|? ? Hv Hr']; subst.
    cbn [map concat parse_u16s]. rewrite <- app_assoc.
    rewrite (rd16_le16 v _ Hv). f_equal.
    change (drop 2 (le16 v ++ concat (map le16 f) ++ rest))
      with (concat (map le16 f) ++ rest).
    apply IH; [lia | exact Hr'].
Qed.

Lemma parse_serialize_fat_block (f : struct_fat_block) :
  length f = 2048%nat ->
  Forall (fun v => 0 <= v < 65536) f ->
  parse_fat_block (serialize_fat_block f) = f.
Proof.
  intros Hl Hr. unfold parse_fat_block, serialize_fat_block.
  rewrite <- (app_nil_r (concat (map le16 f))).
  apply parse_u16s_serialize; assumption.
Qed.

Lemma list_16 (l : list Z) :
  length l = 16%nat ->
  exists a0 a1 a2 a3 a4 a5 a6 a7 a8 a9 a10 a11 a12 a13 a14 a15,
    l = [a0; a1; a2; a3; a4; a5; a6; a7; a8; a9; a10; a11; a12; a13; a14; a15].
Proof.
  intros H.
  do 16 (destruct l as [|? l]; [discriminate H|]).
  destruct l; [|discriminate H].
  repeat eexists.
Qed.

Lemma list_10 (l : list Z) :
  length l = 10%nat ->
  exists a0 a1 a2 a3 a4 a5 a6 a7 a8 a9,
    l = [a0; a1; a2; a3; a4; a5; a6; a7; a8; a9].
Proof.
  intros H.
  do 10 (destruct l as [|? l]; [discriminate H|]).
  destruct l; [|discriminate H].
  repeat eexists.
Qed.

Lemma parse_serialize_entry (e : struct_root_dir_entry) (rest : list Z) :
  entry_ok e ->
  parse_root_dir_entry (take 32 (serialize_root_dir_entry e ++ rest)) = e
  /\ drop 32 (serialize_root_dir_entry e ++ rest) = rest.
Proof.
  intros (Hfn & Hpad & Hsz & Hidx).
  destruct e as [fn sz idx pad]. cbn [filename padding size_file idx_first_data_blk] in *.
  destruct (list_16 fn Hfn) as (a0 & a1 & a2 & a3 & a4 & a5 & a6 & a7 & a8 & a9
                                & a10 & a11 & a12 & a13 & a14 & a15 & ->).
  destruct (list_10 pad Hpad) as (p0 & p1 & p2 & p3 & p4 & p5 & p6 & p7 & p8 & p9 & ->).
  unfold serialize_root_dir_entry, parse_root_dir_entry, le32, le16, rd32, rd16, byte_at.
  cbn [filename padding size_file idx_first_data_blk app take drop nth Nat.add].
  split; [|reflexivity].
  f_equal; Z.div_mod_to_equations; lia.
Qed.

Lemma parse_entries_serialize (dir : list struct_root_dir_entry) :
  forall (n : nat),
    length dir = n ->
    Forall entry_ok dir ->
    parse_entries n (concat (map serialize_root_dir_entry dir)) = dir.
Proof.
  induction dir as [|e dir IH]; intros n Hn Hok.
  - subst n. reflexivity.
  - destruct n as [|n]; [discriminate|]. cbn [length] in Hn.
    inversion Hok as [|? ? He Hok']; subst.
    cbn [map concat parse_entries].
    destruct (parse_serialize_entry e (concat (map serialize_root_dir_entry dir)) He)
      as [-> ->].
    f_equal. apply IH; [lia | exact Hok'].
Qed.

Lemma parse_serialize_root_directory (dir : list struct_root_dir_entry) :
  length dir = 128%nat ->
  Forall entry_ok dir ->
  parse_root_directory (serialize_root_directory dir) = dir.
Proof.
  intros Hl Hok. apply parse_entries_serialize; assumption.
Qed.

(** X15. What [block_write] stores of a FAT block and of the directory,
    [block_read] gives back: the packed layouts lose nothing of a FAT block
    of 2048 16-bit entries or of a directory of 128 entries whose fields
    have the widths of the structure. *)
Theorem layouts_read_back (f : struct_fat_block) (dir : list struct_root_dir_entry) :
  length f = 2048%nat ->
  Forall (fun v => 0 <= v < 65536) f ->
  length dir = 128%nat ->
  Forall entry_ok dir ->
  parse_fat_block (serialize_fat_block f) = f
  /\ parse_root_directory (serialize_root_directory dir) = dir.
Proof.
  intros Hf Hr Hd Hok. split.
  - apply parse_serialize_fat_block; assumption.
  - apply parse_serialize_root_directory; assumption.
Qed.

(** X16. A file created on a mounted disk is still in the directory after
    [fs_umount] and a new [fs_mount] of the disk: [fs_create] writes the
    directory to the block the next [fs_mount] reads it from. *)
Theorem created_file_survives_remount (name s : list Z) (img : list block) (b0 : block)
    (st : fs_state) (k : nat) (e : struct_root_dir_entry) :
  disk st = Some img ->
  valid_disk img b0 ->
  superblock st = parse_superblock b0 ->
  root_dir_blk_idx (superblock st) = 1 + num_blks_fat (superblock st) ->
  fs_mounted st <> 0 ->
  num_open_fds st <= 0 ->
  num_files_root_dir st < 128 ->
  length (root_directory st) = 128%nat ->
  Forall entry_ok (root_directory st) ->
  name_of name = Some s ->
  (length s <= 15)%nat ->
  no_file (root_directory st) s ->
  first_free_slot (root_directory st) k e ->
  let dir' := <[k := new_entry s e]> (root_directory st) in
  exists st1 img1 st3,
    fs_create name st = Done (st1, 0)
    /\ disk st1 = Some img1
    /\ fs_umount st1 = (unmounted_state st1, 0)
    /\ fs_mount (Some img1) (unmounted_state st1) = (st3, 0)
    /\ root_directory st3 = dir'
    /\ holds_name (root_directory st3) s k (new_entry s e).
Proof.
  intros Hd Hv Hsb Hroot Hm Hn Hcount Hlen Hok Hs Hl Habs Hfree dir'.
  assert (Hwf : dir_wf (root_directory st)).
  { split; [exact Hlen|]. eapply List.Forall_impl; [|exact Hok].
    intros a (Ha & _). exact Ha. }
  destruct (fs_create_ok name s st k e Hm Hcount Hwf Hs Hl Habs Hfree)
    as (Hcreate & Hholds & Hwf').
  fold dir' in Hcreate, Hholds, Hwf'.
  pose proof Hv as (Hb0 & Hsig & Hcnt & Hnf & Himg).
  rewrite Hsb in Hroot.
  set (nf := Z.to_nat (num_blks_fat (parse_superblock b0))) in *.
  assert (Hnf1 : (nf + 1 < length img)%nat) by (unfold nf; lia).
  set (img1 := <[(nf + 1)%nat := serialize_root_directory dir']> img).
  assert (Hdisk1 : block_write (disk st) (root_dir_blk_idx (superblock st))
                     (serialize_root_directory dir') = Some img1).
  { rewrite Hd, Hsb, Hroot. unfold block_write.
    destruct (Z.ltb_spec (1 + num_blks_fat (parse_superblock b0)) 0); [lia|].
    unfold img1. f_equal. f_equal. unfold nf. lia. }
  rewrite Hdisk1 in Hcreate.
  assert (Hv1 : valid_disk img1 b0).
  { unfold valid_disk, img1. rewrite length_insert.
    rewrite list_lookup_insert_ne by lia. repeat split; assumption. }
  eexists _, img1, _. split; [exact Hcreate|].
  split; [reflexivity|].
  split; [apply (fs_umount_ok img1); [exact Hm | exact Hn | reflexivity]|].
  split; [apply (fs_mount_ok img1 b0); [reflexivity | exact Hv1]|].
  assert (Hread : root_directory (mounted_state img1 b0
                    (unmounted_state
                       (set_disk (Some img1)
                          (set_num_files_root_dir (num_files_root_dir st + 1)
                             (set_root_directory dir' st))))) = dir').
  { unfold mounted_state. cbv zeta. cbn [root_directory]. fold nf.
    unfold img1 at 1. rewrite list_lookup_insert_eq by exact Hnf1. cbn [default].
    apply parse_serialize_root_directory.
    - unfold dir'. rewrite length_insert. exact Hlen.
    - unfold dir'. apply Forall_insert; [exact Hok|].
      destruct Hfree as (Hk & _ & _).
      pose proof (Forall_lookup_1 _ _ _ _ Hok Hk) as (Hfn & Hpad & _ & _).
      unfold entry_ok, new_entry, FAT_EOC.
      cbn [filename padding size_file idx_first_data_blk].
      rewrite length_app. cbn [length]. rewrite length_drop. lia. }
  split; [exact Hread|]. rewrite Hread. exact Hholds.
Qed.

(** ** What [fs_info] and [fs_ls] print *)






Lemma append_assoc (a b c : string) : (a +:+ b) +:+ c = a +:+ (b +:+ c).
Proof.
  induction a as [|x a IH]; [reflexivity|].
  change (String x ((a +:+ b) +:+ c) = String x (a +:+ (b +:+ c))).
  rewrite IH. reflexivity.
Qed.

Lemma append_empty_r (a : string) : a +:+ EmptyString = a.
Proof.
  induction a as [|x a IH]; [reflexivity|].
  change (String x (a +:+ EmptyString) = String x a). rewrite IH. reflexivity.
Qed.

Lemma list_files_spec (dir : list struct_root_dir_entry) :
  Forall (fun e => exists s, name_of (filename e) = Some s) dir ->
  forall (n i : nat) (out : string),
    (i + n <= length dir)%nat ->
    list_files n (Z.of_nat i) dir out = Done (out +:+ listing (take n (drop i dir))).
Proof.
  intros Hall. induction n as [|n IH]; intros i out Hi.
  - cbn [list_files]. rewrite take_0.
    change (listing []) with EmptyString.
    rewrite append_empty_r. reflexivity.
  - cbn [list_files].
    destruct (lookup_lt_is_Some_2 dir i) as [e He]; [lia|].
    rewrite (arr_get_nat _ _ _ He). cbn [bind].
    pose proof (Forall_lookup_1 _ _ _ _ Hall He) as [s Hs]. cbv beta in Hs.
    rewrite (drop_S _ _ _ He). cbn [take].
    unfold listing. rewrite filter_cons. fold (listing (take n (drop (S i) dir))).
    replace (Z.of_nat i + 1) with (Z.of_nat (S i)) by lia.
    unfold print_s. rewrite Hs.
    destruct (filename e) as [|c rest] eqn:Ef; [discriminate|].
    change (arr_get (c :: rest) 0) with (Done c). cbn [bind].
    destruct (Z.eqb_spec c 0) as [E|E].
    + subst c. cbn [name_of] in Hs. change (0 =? 0) with true in Hs. cbv iota in Hs.
      inversion Hs; subst.
      destruct (decide (Some [] <> Some [])) as [Habs|_]; [contradiction|].
      cbn [negb]. apply IH. lia.
    + cbn [negb bind].
      destruct (decide (Some s <> Some [])) as [_|Habs].
      * rewrite IH by lia. cbn [foldr]. rewrite Ef, Hs. cbn [default].
        rewrite append_assoc. reflexivity.
      * exfalso. apply Habs. intros Hnil. inversion Hnil; subst.
        cbn [name_of] in Hs. apply Z.eqb_neq in E. rewrite E in Hs.
        destruct (name_of rest); discriminate.
Qed.


(** X18. On an unmounted file system [fs_ls] prints nothing and returns -1.
    On a mounted one whose directory entries all hold a string it returns
    0 and prints the header and then one line for each entry whose name is
    not empty, in the order of the directory. *)
Theorem fs_ls_lists_files (st : fs_state) :
  (fs_mounted st = 0 -> fs_ls st = Done (EmptyString, -1))
  /\ (fs_mounted st <> 0 ->
      length (root_directory st) = 128%nat ->
      Forall (fun e => exists s, name_of (filename e) = Some s) (root_directory st) ->
      fs_ls st = Done (("FS Ls:" +:+ nl) +:+ listing (root_directory st), 0)).
Proof.
  split.
  - intros Hm. unfold fs_ls. rewrite Hm. reflexivity.
  - intros Hm Hlen Hall. unfold fs_ls. apply Z.eqb_neq in Hm. rewrite Hm.
    pose proof (list_files_spec (root_directory st) Hall 128 0 ("FS Ls:" +:+ nl)
                  ltac:(lia)) as Hl.
    change (Z.of_nat 0) with 0 in Hl. rewrite Hl. cbn [bind].
    change (drop 0 ?l) with l. rewrite take_ge by lia. reflexivity.
Qed.

(** ** Writing to an empty file, and reading it back *)

(** [fs_read] of a file with a chain, as in the second half of the read
    theorem. *)
Lemma fs_read_chain (fd count : Z) (out : list Z) (st : fs_state)
    (d : struct_file_descriptor) (e : struct_root_dir_entry) (rest : list Z) :
  fs_mounted st <> 0 ->
  handles_wf (FD st) ->
  open_handle st fd d ->
  arr_get (root_directory st) (idx_file_root_dir d) = Done e ->
  0 <= file_offset d <= size_file e ->
  0 <= count <= Z.of_nat (length out) ->
  amt_data_blks (superblock st) < 65536 ->
  idx_first_data_blk e <> FAT_EOC ->
  chain_from (fat st) (idx_first_data_blk e) rest ->
  Z.of_nat (length (idx_first_data_blk e :: rest)) < amt_data_blks (superblock st) ->
  Forall (data_block_ok st) (idx_first_data_blk e :: rest) ->
  size_file e <= Z.of_nat (length (file_content st (idx_first_data_blk e :: rest))) ->
  fs_read fd (Some out) count st
  = Done (set_FD (<[Z.to_nat (fd - 1) :=
                     set_file_offset
                       (file_offset d + Z.min count (size_file e - file_offset d)) d]>
                    (FD st)) st,
          Z.min count (size_file e - file_offset d),
          Some (slice (file_content st (idx_first_data_blk e :: rest)) (file_offset d)
                  (Z.min count (size_file e - file_offset d))
                ++ drop (Z.to_nat (Z.min count (size_file e - file_offset d))) out)).
Proof.
  intros Hm Hwf Hopen He Hoff Hcount HD HE Hchain HL Hok Hsize.
  set (cs := idx_first_data_blk e :: rest) in *.
  set (eff := Z.min count (size_file e - file_offset d)).
  pose proof (find_fd_open st fd d Hwf Hopen) as Hfind.
  destruct Hopen as (Hfd & Hd & _). destruct Hwf as [Htable _].
  pose proof BLOCK_SIZE_val as HB.
  unfold fs_read. apply Z.eqb_neq in Hm. rewrite Hm.
  unfold FS_OPEN_MAX_COUNT. destruct (Z.ltb_spec 32 fd); [lia|]. cbn [orb].
  rewrite Hfind. cbn [bind].
  destruct (Z.eqb_spec (fd - 1) 32); [lia|].
  rewrite (arr_get_lookup (FD st) (fd - 1) d ltac:(lia) Hd). cbn [bind].
  rewrite He. cbn [bind].
  rewrite (list_file_blocks_chain st _ rest HE Hchain ltac:(fold cs; lia)).
  fold cs. cbn [bind]. apply Z.eqb_neq in HE. rewrite HE.
  pose proof (file_content_length st cs Hok) as Hclen.
  destruct (Z.to_nat (amt_data_blks (superblock st)) - length cs)%nat
    as [|r] eqn:Er; [lia|].
  rewrite (load_blocks_spec st cs _ r [] []
             (replicate (Z.to_nat (Z.of_nat (length cs) * BLOCK_SIZE)) uninit) Hok)
    by (rewrite ?length_app, ?length_map, ?length_replicate; cbn [length]; lia).
  cbn [bind app].
  rewrite drop_ge by (rewrite length_replicate; lia). rewrite app_nil_r.
  rewrite to_size_t_small by lia.
  assert (Hact : (if size_file e - file_offset d <? count
                  then size_file e - file_offset d else count) = eff).
  { unfold eff. destruct (Z.ltb_spec (size_file e - file_offset d) count); lia. }
  rewrite Hact.
  assert (Heff : 0 <= eff <= size_file e - file_offset d) by (unfold eff; lia).
  rewrite mem_read_ok by lia. cbn [bind].
  fold (slice (file_content st cs) (file_offset d) eff).
  assert (Hslice : length (slice (file_content st cs) (file_offset d) eff) = Z.to_nat eff).
  { unfold slice. rewrite length_take, length_drop. lia. }
  rewrite mem_write_front by (rewrite Hslice; lia). cbn [bind].
  rewrite Hslice.
  rewrite arr_set_Done by lia. cbn [bind].
  rewrite to_size_t_small by lia.
  rewrite to_int_small by lia.
  reflexivity.
Qed.


Lemma block_read_flush_fat (bs : list struct_fat_block) :
  forall (i : Z) (dev : device) (j : Z),
    0 < i -> i + Z.of_nat (length bs) <= j ->
    block_read (flush_fat bs i dev) j = block_read dev j.
Proof.
  induction bs as [|b bs IH]; intros i dev j Hi Hj; [reflexivity|].
  cbn [flush_fat]. cbn [length] in Hj.
  rewrite IH by lia. apply block_read_write_other; lia.
Qed.


(** ** The count of files, and what the handle calls leave alone *)

Lemma write_bytes_file_count (fuel : nat) (x offset cnt : Z) (buf : list Z) (counter : Z)
    (st : fs_state) (arr : list Z) (z : Z) (st' : fs_state) (arr' : list Z) (z' : Z) :
  write_bytes fuel x offset cnt buf counter st arr z = Done (st', arr', z') ->
  num_files_root_dir st' = num_files_root_dir st.
Proof.
  revert st arr z. induction fuel as [|fuel IH]; intros st arr z H; [discriminate|].
  cbn [write_bytes] in H.
  destruct (counter =? 0); [inversion H; reflexivity|].
  inv_bind H as p Hp. destruct (negb _); [inversion H; reflexivity|].
  destruct (z =? cnt); [inversion H; reflexivity|].
  inv_bind H as c Hc. inv_bind H as arr1 Harr1.
  inv_bind H as e He. inv_bind H as dir' Hdir.
  apply IH in H. exact H.
Qed.

Lemma allocate_block_file_count (fuel : nat) (x : Z) (st : fs_state) (fb arr : list Z)
    (counter : Z) (st' : fs_state) (fb' arr' : list Z) (counter' : Z) :
  allocate_block fuel x st fb arr counter = Done (st', fb', arr', counter') ->
  num_files_root_dir st' = num_files_root_dir st.
Proof.
  unfold allocate_block. intros H.
  inv_bind H as e He. inv_bind H as [blk entry] Htail.
  destruct (0 <? num_blks_fat (superblock st)); [|inversion H; reflexivity].
  inv_bind H as found Hscan. destruct found as [dd|]; [|inversion H; reflexivity].
  inv_bind H as f1 Hf1. inv_bind H as f2 Hf2. inv_bind H as fb1 Hfb1.
  inv_bind H as dir' Hdir. inv_bind H as b Hb. inv_bind H as arr2 Hread.
  inversion H. reflexivity.
Qed.

Lemma write_loop_file_count (fuel inner : nat) (x offset cnt : Z) (buf : list Z)
    (st : fs_state) (fb arr : list Z) (counter z : Z)
    (st' : fs_state) (fb' arr' : list Z) (counter' z' : Z) :
  write_loop fuel inner x offset cnt buf st fb arr counter z
  = Done (st', fb', arr', counter', z') ->
  num_files_root_dir st' = num_files_root_dir st.
Proof.
  revert st fb arr counter z.
  induction fuel as [|fuel IH]; intros st fb arr counter z H; [discriminate|].
  cbn [write_loop] in H.
  destruct (z <? cnt); [|inversion H; reflexivity].
  inv_bind H as [[st1 arr1] z1] Hbytes.
  apply write_bytes_file_count in Hbytes.
  destruct (z1 <? cnt); [|inversion H; subst; exact Hbytes].
  destruct (num_avail_data_blks st1 =? 0); [inversion H; subst; exact Hbytes|].
  inv_bind H as [[[st2 fb2] arr2] counter2] Halloc.
  apply allocate_block_file_count in Halloc. apply IH in H. congruence.
Qed.

Lemma fs_write_file_count (fuel : nat) (fd count : Z) (buf : option (list Z))
    (st st' : fs_state) (r : Z) :
  fs_write fuel fd buf count st = Done (st', r) ->
  num_files_root_dir st' = num_files_root_dir st.
Proof.
  unfold fs_write. intros H.
  destruct buf as [src|]; [|inversion H; reflexivity].
  destruct (_ || _); [inversion H; reflexivity|].
  inv_bind H as i Hi. destruct (i =? FS_OPEN_MAX_COUNT); [inversion H; reflexivity|].
  inv_bind H as d Hd. inv_bind H as e He. inv_bind H as [fb counter] Hfb.
  inv_bind H as arr0 Hload. inv_bind H as data Hdata. inv_bind H as arr Harr.
  inv_bind H as [[[[st1 fb1] arr1] counter1] z1] Hloop.
  inv_bind H as dev Hstore. inv_bind H as dev' Hfat. inversion H; subst.
  apply write_loop_file_count in Hloop. exact Hloop.
Qed.

Lemma fs_mount_file_count (found : option (list block)) (st : fs_state) :
  num_files_root_dir (fst (fs_mount found st)) = num_files_root_dir st.
Proof.
  unfold fs_mount. destruct (block_disk_open found (disk st)) as [r dev].
  destruct (negb (r =? 0)); [reflexivity|].
  destruct (block_read dev 0) as [b|].
  - cbv zeta. destruct (_ || _); [reflexivity|].
    destruct (block_read dev _); reflexivity.
  - cbv zeta. destruct (_ || _); [reflexivity|].
    destruct (block_read dev _); reflexivity.
Qed.

Lemma fs_umount_file_count (st : fs_state) :
  num_files_root_dir (fst (fs_umount st)) = num_files_root_dir st.
Proof.
  unfold fs_umount. destruct (_ || _); [reflexivity|].
  destruct (block_disk_close (disk st)) as [r dev].
  destruct (negb (r =? 0)); reflexivity.
Qed.

Lemma fs_create_file_count (name : list Z) (st st' : fs_state) (r : Z) :
  fs_create name st = Done (st', r) ->
  (r = 0 /\ num_files_root_dir st' = num_files_root_dir st + 1)
  \/ (r = -1 /\ st' = st).
Proof.
  unfold fs_create. intros H.
  destruct (_ || _); [inversion H; right; split; reflexivity|].
  inv_bind H as inv Hinv.
  destruct (negb (inv =? 0)); [inversion H; right; split; reflexivity|].
  inv_bind H as x Hx.
  destruct (x <? FS_FILE_MAX_COUNT); [inversion H; right; split; reflexivity|].
  inv_bind H as entry Hentry. inv_bind H as len Hlen. inv_bind H as e He.
  inv_bind H as fn Hfn. inv_bind H as fn' Hfn'. inv_bind H as dir' Hdir.
  inversion H; subst. left. split; reflexivity.
Qed.

(** X20. The count of files only grows: an [fs_create] that returns 0 adds
    one to it, and no other call changes it; [fs_delete], [fs_umount] and
    [fs_mount] among them.  Once it is 128, every [fs_create] returns -1
    and changes nothing. *)
Theorem file_count_only_grows (st : fs_state) :
  (forall found, num_files_root_dir (fst (fs_mount found st)) = num_files_root_dir st)
  /\ num_files_root_dir (fst (fs_umount st)) = num_files_root_dir st
  /\ (forall name st' r,
        fs_create name st = Done (st', r) ->
        num_files_root_dir st' = num_files_root_dir st + (if r =? 0 then 1 else 0))
  /\ (forall fuel name st' r,
        fs_delete fuel name st = Done (st', r) ->
        num_files_root_dir st' = num_files_root_dir st)
  /\ (forall fuel fd buf count st' r,
        fs_write fuel fd buf count st = Done (st', r) ->
        num_files_root_dir st' = num_files_root_dir st)
  /\ (forall name,
        128 <= num_files_root_dir st -> fs_create name st = Done (st, -1)).
Proof.
  split; [intros found; apply fs_mount_file_count|].
  split; [apply fs_umount_file_count|].
  split.
  { intros name st' r H. apply fs_create_file_count in H.
    destruct H as [[-> ->]|[-> ->]]; [reflexivity | cbn; lia]. }
  split; [intros fuel name st' r; apply fs_delete_keeps_file_count|].
  split; [intros fuel fd buf count st' r; apply fs_write_file_count|].
  intros name H. apply fs_create_full_counter. exact H.
Qed.

(** X21. [fs_open], [fs_close], [fs_lseek] and [fs_read] change the handle
    table and the count of open descriptors only: the disk, the FAT, the
    directory and the superblock are as before. *)
Theorem handle_calls_leave_the_disk (st : fs_state) :
  (forall name st' r,
     fs_open name st = Done (st', r) ->
     st' = set_num_open_fds (num_open_fds st') (set_FD (FD st') st))
  /\ (forall fd st' r,
        fs_close fd st = Done (st', r) ->
        st' = set_num_open_fds (num_open_fds st') (set_FD (FD st') st))
  /\ (forall fd offset st' r,
        fs_lseek fd offset st = Done (st', r) -> st' = set_FD (FD st') st)
  /\ (forall fd buf count st' r buf',
        fs_read fd buf count st = Done (st', r, buf') -> st' = set_FD (FD st') st).
Proof.
  assert (Hid : st = set_num_open_fds (num_open_fds st) (set_FD (FD st) st))
    by (destruct st; reflexivity).
  assert (Hid' : st = set_FD (FD st) st) by (destruct st; reflexivity).
  split; [|split; [|split]].
  - intros name st' r H. unfold fs_open in H.
    destruct (_ || _); [inversion H; subst; exact Hid|].
    inv_bind H as inv Hinv.
    destruct (negb (inv =? 0)); [inversion H; subst; exact Hid|].
    inv_bind H as i Hi.
    destruct (FS_FILE_MAX_COUNT <=? i); [inversion H; subst; exact Hid|].
    inv_bind H as k Hk. inv_bind H as t Ht. inversion H; subst.
    destruct st; reflexivity.
  - intros fd st' r H. unfold fs_close in H.
    destruct (_ || _); [inversion H; subst; exact Hid|].
    inv_bind H as i Hi.
    destruct (FS_OPEN_MAX_COUNT <=? i); [inversion H; subst; exact Hid|].
    inv_bind H as t Ht. inversion H; subst. destruct st; reflexivity.
  - intros fd offset st' r H. unfold fs_lseek in H.
    inv_bind H as size Hsize.
    destruct (_ || _); [inversion H; subst; exact Hid'|].
    inv_bind H as i Hi. inv_bind H as d Hd. inv_bind H as t Ht.
    inversion H; subst. destruct st; reflexivity.
  - intros fd buf count st' r buf' H. unfold fs_read in H.
    destruct buf as [out|]; [|inversion H; subst; exact Hid'].
    destruct (_ || _); [inversion H; subst; exact Hid'|].
    inv_bind H as i Hi.
    destruct (i =? FS_OPEN_MAX_COUNT); [inversion H; subst; exact Hid'|].
    inv_bind H as d Hd. inv_bind H as e He. inv_bind H as [fb counter] Hfb.
    destruct (idx_first_data_blk e =? FAT_EOC); [inversion H; subst; exact Hid'|].
    inv_bind H as arr Harr. inv_bind H as data Hdata. inv_bind H as out' Hout.
    inv_bind H as t Ht. inversion H; subst. destruct st; reflexivity.
Qed.

(** X22. A write to an empty file returns 0 when it asks for no byte or when
    no block is available.  Nothing is allocated and the size stays 0; the
    directory and the FAT blocks are written to the disk as they are. *)
Theorem fs_write_nothing_to_write (fuel : nat) (fd n : Z) (src : list Z)
    (st : fs_state) (d : struct_file_descriptor) (e : struct_root_dir_entry) :
  fs_mounted st <> 0 ->
  handles_wf (FD st) ->
  open_handle st fd d ->
  file_offset d = 0 ->
  arr_get (root_directory st) (idx_file_root_dir d) = Done e ->
  size_file e = 0 ->
  idx_first_data_blk e = FAT_EOC ->
  1 <= amt_data_blks (superblock st) ->
  (Z.to_nat (num_blks_fat (superblock st)) <= length (fat st))%nat ->
  0 <= n ->
  n = 0 \/ num_avail_data_blks st = 0 ->
  (0 < fuel)%nat ->
  fs_write fuel fd (Some src) n st
  = Done (set_disk
            (flush_fat (take (Z.to_nat (num_blks_fat (superblock st))) (fat st)) 1
               (block_write (disk st) (root_dir_blk_idx (superblock st))
                  (serialize_root_directory (root_directory st))))
            st, 0).
Proof.
  intros Hm Hwf Hopen Hoff He Hsz Hidx HD Hfat Hn Hcase Hfuel.
  pose proof BLOCK_SIZE_val as HB.
  rewrite (fs_write_open fuel fd n src st d e Hm Hwf Hopen He). cbv zeta.
  unfold list_file_blocks. rewrite Hidx.
  change (negb (FAT_EOC =? FAT_EOC)) with false. cbv iota. cbn [bind].
  destruct (Z.to_nat (amt_data_blks (superblock st))) as [|r] eqn:ED; [lia|].
  cbn [replicate length load_blocks].
  change (arr_get (FAT_EOC :: replicate r FAT_EOC) 0) with (Done FAT_EOC).
  cbn [bind]. change (FAT_EOC =? FAT_EOC) with true. cbv iota. cbn [bind].
  rewrite Hoff, Hsz. change (to_u32 (0 - to_int 0)) with 0.
  assert (Hact : (if 0 <? n then 0 else n) = 0).
  { destruct (Z.ltb_spec 0 n); lia. }
  rewrite Hact.
  change (mem_read src 0 0) with (Done (@nil Z)). cbn [bind].
  replace (Z.to_nat (0 * BLOCK_SIZE)) with 0%nat by lia. cbn [replicate].
  change (mem_write [] (to_int 0) []) with (Done (@nil Z)). cbn [bind].
  change (to_int 0) with 0.
  destruct fuel as [|fuel]; [lia|].
  assert (Hloop : write_loop (S fuel) (S fuel) (idx_file_root_dir d) 0 (to_int n) src st
                    (FAT_EOC :: replicate r FAT_EOC) [] 0 0
                  = Done (st, FAT_EOC :: replicate r FAT_EOC, [], 0, 0)).
  { rewrite write_loop_step.
    destruct (0 <? to_int n) eqn:Hlt; [|reflexivity].
    rewrite write_bytes_no_block. cbn [bind]. rewrite Hlt.
    destruct Hcase as [->|Hav]; [discriminate Hlt|].
    rewrite Hav. reflexivity. }
  rewrite Hloop. cbn [bind length store_blocks].
  change (arr_get (FAT_EOC :: replicate r FAT_EOC) 0) with (Done FAT_EOC).
  cbn [bind]. change (FAT_EOC =? FAT_EOC) with true. cbv iota. cbn [bind].
  rewrite write_fat_blocks_all by exact Hfat. reflexivity.
Qed.

(** ** A handle table with no free slot *)

Lemma first_free_fd_none (t : list struct_file_descriptor) :
  forall (n i : nat),
    (forall k d, t !! k = Some d -> file_descriptor d <> 0) ->
    (i <= length t)%nat ->
    (length t < i + n)%nat ->
    first_free_fd n (Z.of_nat i) t = Fault.
Proof.
  induction n as [|n IH]; intros i Hall Hi Hn; [lia|].
  cbn [first_free_fd].
  destruct (t !! i) as [d|] eqn:Hd.
  - rewrite (arr_get_nat _ _ _ Hd). cbn [bind].
    pose proof (Hall i d Hd) as Hnz. apply Z.eqb_neq in Hnz. rewrite Hnz. cbn [negb].
    replace (Z.of_nat i + 1) with (Z.of_nat (S i)) by lia.
    apply IH; [exact Hall | apply lookup_lt_Some in Hd; lia | lia].
  - unfold arr_get. destruct (Z.ltb_spec (Z.of_nat i) 0); [reflexivity|].
    rewrite Nat2Z.id, Hd. reflexivity.
Qed.

(** X23. [fs_open] looks for a free slot without a bound of its own: when
    all 32 slots are taken and the count of open descriptors is below 32,
    the scan leaves the handle table. *)
Theorem fs_open_table_full (name s : list Z) (st : fs_state) (i : nat)
    (e : struct_root_dir_entry) :
  fs_mounted st <> 0 ->
  num_open_fds st < 32 ->
  dir_wf (root_directory st) ->
  name_of name = Some s ->
  (length s <= 15)%nat ->
  holds_name (root_directory st) s i e ->
  (forall k d, FD st !! k = Some d -> file_descriptor d <> 0) ->
  fs_open name st = Fault.
Proof.
  intros Hm Hn Hwf Hs Hl Hh Hfull.
  pose proof Hh as (Hi & _ & _). pose proof (lookup_lt_Some _ _ _ Hi) as Hi128.
  unfold fs_open. apply Z.eqb_neq in Hm. rewrite Hm.
  destruct (Z.leb_spec FS_OPEN_MAX_COUNT (num_open_fds st)) as [Hge|_];
    [unfold FS_OPEN_MAX_COUNT in Hge; lia|].
  cbn [orb]. cbv iota.
  rewrite (is_invalid_file_valid name s Hs Hl). cbn [bind].
  change (negb (0 =? 0)) with false. cbv iota.
  rewrite (find_file_first name s _ i e Hs Hl Hwf Hh). cbn [bind].
  destruct Hwf as [Hlen _].
  destruct (Z.leb_spec FS_FILE_MAX_COUNT (Z.of_nat i)) as [Hge|_];
    [unfold FS_FILE_MAX_COUNT in Hge; lia|].
  pose proof (first_free_fd_none (FD st) (S (length (FD st))) 0 Hfull
                ltac:(lia) ltac:(lia)) as Hscan.
  change (Z.of_nat 0) with 0 in Hscan. rewrite Hscan. reflexivity.
Qed.

(** ** Moving the offset, then reading *)

(** X24. [fs_lseek] followed by [fs_read] reads from the new offset: for a
    file of less than 2^31 bytes whose chain is on the disk, after
    [fs_lseek] to [off], at most the size, [fs_read] returns
    [min(count, size - off)], delivers the bytes of the file from [off] on
    and leaves the offset behind the last byte read. *)
Theorem fs_lseek_then_read (fd off count : Z) (out : list Z) (st : fs_state)
    (d : struct_file_descriptor) (e : struct_root_dir_entry) (rest : list Z) :
  fs_mounted st <> 0 ->
  handles_wf (FD st) ->
  open_handle st fd d ->
  arr_get (root_directory st) (idx_file_root_dir d) = Done e ->
  0 <= off <= size_file e ->
  size_file e < 2147483648 ->
  0 <= count <= Z.of_nat (length out) ->
  amt_data_blks (superblock st) < 65536 ->
  idx_first_data_blk e <> FAT_EOC ->
  chain_from (fat st) (idx_first_data_blk e) rest ->
  Z.of_nat (length (idx_first_data_blk e :: rest)) < amt_data_blks (superblock st) ->
  Forall (data_block_ok st) (idx_first_data_blk e :: rest) ->
  size_file e <= Z.of_nat (length (file_content st (idx_first_data_blk e :: rest))) ->
  let eff := Z.min count (size_file e - off) in
  let st1 := set_FD (<[Z.to_nat (fd - 1) := set_file_offset off d]> (FD st)) st in
  fs_lseek fd off st = Done (st1, 0)
  /\ fs_read fd (Some out) count st1
     = Done (set_FD (<[Z.to_nat (fd - 1) := set_file_offset (off + eff) d]> (FD st)) st,
             eff,
             Some (slice (file_content st (idx_first_data_blk e :: rest)) off eff
                   ++ drop (Z.to_nat eff) out)).
Proof.
  intros Hm Hwf Hopen He Hoff Hsz Hcount HD HE Hchain HL Hok Hsize eff st1.
  pose proof Hopen as (Hfd & Hd & Hdesc). pose proof Hwf as [Htable Hslots].
  pose proof (lookup_lt_Some _ _ _ Hd) as Hlt.
  split.
  - rewrite (fs_lseek_open fd off st d e Hm Hwf Hopen He)
      by (rewrite to_int_small by lia; lia).
    rewrite !to_int_small by lia.
    destruct (Z.ltb_spec (size_file e) off); [lia | reflexivity].
  - set (d1 := set_file_offset off d).
    assert (Hwf1 : handles_wf (FD st1)).
    { split; [unfold st1; cbn [FD set_FD]; rewrite length_insert; exact Htable|].
      intros k dk Hk. unfold st1 in Hk. cbn [FD set_FD] in Hk.
      destruct (decide (k = Z.to_nat (fd - 1))) as [->|Hne].
      - rewrite list_lookup_insert_eq in Hk by exact Hlt. inversion Hk; subst.
        right. cbn [file_descriptor set_file_offset]. lia.
      - rewrite list_lookup_insert_ne in Hk by congruence. exact (Hslots k dk Hk). }
    assert (Hopen1 : open_handle st1 fd d1).
    { split; [exact Hfd|]. split; [|exact Hdesc].
      unfold st1. cbn [FD set_FD]. apply list_lookup_insert_eq. exact Hlt. }
    assert (Hok1 : Forall (data_block_ok st1) (idx_first_data_blk e :: rest)) by exact Hok.
    rewrite (fs_read_chain fd count out st1 d1 e rest Hm Hwf1 Hopen1 He
               ltac:(cbn [file_offset d1 set_file_offset]; lia) Hcount HD HE Hchain HL
               Hok1 Hsize).
    cbn [file_offset d1 set_file_offset]. fold eff.
    unfold st1. cbn [FD set_FD].
    rewrite list_insert_insert_eq. reflexivity.
Qed.

(** ** Writing within the block of a file *)

Lemma mem_write_at (dst src : list Z) (off : Z) :
  0 <= off ->
  off + Z.of_nat (length src) <= Z.of_nat (length dst) ->
  mem_write dst off src
  = Done (take (Z.to_nat off) dst ++ src ++ drop (Z.to_nat off + length src) dst).
Proof.
  intros Hoff Hfit.
  pose proof (mem_write_app (take (Z.to_nat off) dst) (drop (Z.to_nat off) dst) src)
    as H.
  rewrite take_drop, length_take in H.
  replace (Z.of_nat (Z.to_nat off `min` length dst)) with off in H by lia.
  rewrite H by (rewrite length_drop; lia). rewrite drop_drop. reflexivity.
Qed.

(** Bytes spliced into a block in two steps. *)
Lemma splice_twice (blk src : list Z) (o a m : nat) :
  (o + a + m <= length blk)%nat ->
  (a + m <= length src)%nat ->
  take (a + o) (take o blk ++ take a src ++ drop (o + a) blk)
    ++ take m (drop a src)
    ++ drop (a + o + m) (take o blk ++ take a src ++ drop (o + a) blk)
  = take o blk ++ take (a + m) src ++ drop (o + a + m) blk.
Proof.
  intros Hblk Hsrc.
  rewrite (app_assoc (take o blk)).
  rewrite take_app_length' by (rewrite length_app, !length_take; lia).
  rewrite (drop_app_add' _ _ (a + o) m) by (rewrite length_app, !length_take; lia).
  rewrite drop_drop, <- !app_assoc. f_equal.
  rewrite app_assoc, take_take_drop. reflexivity.
Qed.

(** X25. A write of [n] bytes at the offset [o] of the handle into a file
    of one block, the bytes staying within the block, returns [n]: the
    block holds the old bytes before [o], then the [n] bytes, then the old
    bytes again; the size becomes the larger of the old size and [o + n];
    nothing is allocated.  [fs_read] of up to [n] bytes through the same
    handle, whose offset is still [o], returns the bytes that were
    written. *)
Theorem write_within_block (fuel : nat) (fd n : Z) (src : list Z) (st : fs_state)
    (d : struct_file_descriptor) (e : struct_root_dir_entry) (blk : block) :
  one_block_file st fd d e blk ->
  0 <= n ->
  file_offset d + n <= 4096 ->
  n <= Z.of_nat (length src) ->
  n < Z.of_nat fuel ->
  let o := file_offset d in
  let data := take (Z.to_nat o) blk ++ take (Z.to_nat n) src
              ++ drop (Z.to_nat (o + n)) blk in
  exists st1,
    fs_write fuel fd (Some src) n st = Done (st1, n)
    /\ data_block st1 (idx_first_data_blk e) = Some data
    /\ fs_stat fd st1 = Done (Z.max (size_file e) (o + n))
    /\ num_avail_data_blks st1 = num_avail_data_blks st
    /\ fat st1 = fat st
    /\ forall (count : Z) (out : list Z),
         0 <= count <= n ->
         count <= Z.of_nat (length out) ->
         fs_read fd (Some out) count st1
         = Done (set_FD (<[Z.to_nat (fd - 1) := set_file_offset (o + count) d]>
                           (FD st1)) st1,
                 count,
                 Some (take (Z.to_nat count) src ++ drop (Z.to_nat count) out)).
Proof.
  intros Hst Hn Hfit Hsrc Hfuel o data.
  pose proof Hst as (Hm & Hwf & Hopen & He & Hoff & Hsz & Hk & Hchain & HD & Hfat & HF
                     & Hstart & Hroot0 & Hroot & Hblk & Hlen).
  pose proof BLOCK_SIZE_val as HB.
  pose proof (arr_get_length _ _ _ He) as Hx.
  fold o in Hoff, Hfit.
  set (s := size_file e) in *.
  set (k := idx_first_data_blk e) in *.
  assert (Hdata : Z.of_nat (length data) = BLOCK_SIZE).
  { unfold data. rewrite !length_app, !length_take, length_drop. lia. }
  set (e1 := set_size_file (Z.max s (o + n)) e).
  set (st_b := set_root_directory
                 (<[Z.to_nat (idx_file_root_dir d) := e1]> (root_directory st)) st).
  set (dev1 := flush_fat (take (Z.to_nat (num_blks_fat (superblock st))) (fat st)) 1
                 (block_write
                    (block_write (disk st) (data_blk_start_idx (superblock st) + k) data)
                    (root_dir_blk_idx (superblock st))
                    (serialize_root_directory (root_directory st_b)))).
  assert (Hok : Forall (data_block_ok st) [k]).
  { constructor; [|constructor]. split; [lia|]. exists blk. split; [exact Hblk | exact Hlen]. }
  assert (Hcontent : file_content st [k] = blk).
  { unfold file_content. cbn [map concat]. rewrite Hblk. cbn [default]. apply app_nil_r. }
  assert (Hw : fs_write fuel fd (Some src) n st = Done (set_disk dev1 st_b, n)).
  { rewrite (fs_write_open fuel fd n src st d e Hm Hwf Hopen He). cbv zeta.
    fold k s o.
    rewrite (list_file_blocks_chain st k [] ltac:(unfold FAT_EOC; lia) Hchain
               ltac:(cbn [length]; lia)).
    cbn [bind length map app].
    destruct (Z.to_nat (amt_data_blks (superblock st)) - 1)%nat as [|r] eqn:ED; [lia|].
    rewrite (load_blocks_spec st [k] _ r [] []
               (replicate (Z.to_nat (Z.of_nat 1 * BLOCK_SIZE)) uninit) Hok)
      by (rewrite ?length_replicate; cbn [length]; lia).
    cbn [bind app length]. rewrite Hcontent.
    rewrite drop_ge by (rewrite length_replicate; lia). rewrite app_nil_r.
    rewrite (to_int_small o) by lia.
    rewrite (to_u32_small (s - o)) by lia.
    rewrite (to_int_small n) by lia.
    rewrite (to_u16_small (data_blk_start_idx (superblock st) + k)) by lia.
    set (a := if s - o <? n then s - o else n).
    assert (Ha : 0 <= a <= n /\ a <= s - o /\ (a = n \/ a = s - o)).
    { unfold a. destruct (Z.ltb_spec (s - o) n); lia. }
    rewrite mem_read_ok by lia. cbn [bind].
    change (drop (Z.to_nat 0) src) with src.
    rewrite mem_write_at by (rewrite ?length_take; lia). cbn [bind].
    rewrite length_take.
    replace (Z.to_nat o + Z.to_nat a `min` length src)%nat with (Z.to_nat (o + a)) by lia.
    rewrite (to_int_small a) by lia.
    set (arr1 := take (Z.to_nat o) blk ++ take (Z.to_nat a) src
                 ++ drop (Z.to_nat (o + a)) blk).
    assert (Harr1 : Z.of_nat (length arr1) = BLOCK_SIZE).
    { unfold arr1. rewrite !length_app, !length_take, length_drop. lia. }
    set (fb := (data_blk_start_idx (superblock st) + k) :: replicate (S r) FAT_EOC).
    assert (Hloop : write_loop fuel fuel (idx_file_root_dir d) o n src st fb arr1 1 a
                    = Done (st_b, fb, data, 1, n)).
    { destruct fuel as [|fuel]; [lia|]. rewrite write_loop_step.
      destruct (Z.ltb_spec a n) as [Hlt|Hge].
      - rewrite (write_bytes_copy (idx_file_root_dir d) o n src 1 (Z.to_nat (n - a))
                   (S fuel) st e arr1 a);
          try (unfold INT_MAX; lia); try exact He.
        cbn [bind]. rewrite Z2Nat.id by lia.
        replace (a + (n - a)) with n by lia.
        destruct (Z.ltb_spec n n) as [|_]; [lia|].
        fold s. replace (s + (n - a)) with (Z.max s (o + n)) by lia.
        fold e1. fold st_b.
        f_equal. f_equal. f_equal.
        unfold arr1, data.
        replace (Z.to_nat (a + o)) with (Z.to_nat a + Z.to_nat o)%nat by lia.
        replace (Z.to_nat (o + a)) with (Z.to_nat o + Z.to_nat a)%nat by lia.
        rewrite splice_twice by lia.
        replace (Z.to_nat a + Z.to_nat (n - a))%nat with (Z.to_nat n) by lia.
        replace (Z.to_nat o + Z.to_nat a + Z.to_nat (n - a))%nat
          with (Z.to_nat (o + n)) by lia.
        reflexivity.
      - assert (Hmax : Z.max s (o + n) = s) by lia.
        assert (Hsame : st_b = st).
        { unfold st_b, e1. rewrite Hmax.
          replace (set_size_file s e) with e by (unfold s; destruct e; reflexivity).
          rewrite list_insert_id by (apply arr_get_Done in He; apply He).
          destruct st; reflexivity. }
        rewrite Hsame. f_equal. f_equal; [|lia]. f_equal.
        unfold arr1, data. replace a with n by lia. reflexivity. }
    change (Z.of_nat 1) with 1. rewrite Hloop. cbn [bind]. unfold fb at 1 2.
    cbn [length store_blocks].
    change (arr_get (data_blk_start_idx (superblock st) + k :: replicate (S r) FAT_EOC) 0)
      with (Done (data_blk_start_idx (superblock st) + k)).
    cbn [bind].
    destruct (Z.eqb_spec (data_blk_start_idx (superblock st) + k) FAT_EOC) as [E|_];
      [unfold FAT_EOC in E; lia|].
    rewrite mem_read_ok by lia. cbn [bind].
    replace (Z.to_nat (0 * BLOCK_SIZE)) with 0%nat by lia.
    change (drop 0 data) with data. rewrite take_ge by lia.
    cbn [replicate].
    change (arr_get (data_blk_start_idx (superblock st) + k
                     :: FAT_EOC :: replicate r FAT_EOC) (0 + 1))
      with (Done FAT_EOC).
    cbn [bind]. change (FAT_EOC =? FAT_EOC) with true. cbv iota. cbn [bind].
    change (superblock st_b) with (superblock st). change (fat st_b) with (fat st).
    change (disk st_b) with (disk st).
    rewrite write_fat_blocks_all by exact Hfat.
    reflexivity. }
  assert (He1 : arr_get (root_directory (set_disk dev1 st_b)) (idx_file_root_dir d)
                = Done e1).
  { apply arr_get_lookup; [lia|]. cbn [root_directory set_disk st_b set_root_directory].
    apply list_lookup_insert_eq. lia. }
  assert (Hblk1 : block_read dev1 (data_blk_start_idx (superblock st) + k) = Some data).
  { unfold dev1. rewrite block_read_flush_fat by (rewrite ?length_take; lia).
    rewrite block_read_write_other by lia.
    apply (block_read_write_same _ _ blk). exact Hblk. }
  exists (set_disk dev1 st_b).
  split; [exact Hw|]. split; [exact Hblk1|].
  split; [|split; [reflexivity|split; [reflexivity|]]].
  - rewrite (fs_stat_open fd (set_disk dev1 st_b) d e1 Hm Hwf Hopen He1).
    cbn [size_file e1 set_size_file]. rewrite to_int_small by lia. reflexivity.
  - intros count out Hcount Hout.
    assert (Hcontent1 : file_content (set_disk dev1 st_b) [k] = data).
    { unfold file_content, data_block. cbn [map concat disk set_disk superblock].
      change (superblock st_b) with (superblock st).
      rewrite Hblk1. cbn [default]. apply app_nil_r. }
    assert (A1 : 0 <= file_offset d <= size_file e1).
    { fold o. cbn [size_file e1 set_size_file]. lia. }
    assert (A2 : amt_data_blks (superblock (set_disk dev1 st_b)) < 65536)
      by exact (proj2 HD).
    assert (A3 : idx_first_data_blk e1 <> FAT_EOC).
    { cbn [idx_first_data_blk e1 set_size_file]. fold k. unfold FAT_EOC. lia. }
    assert (A4 : chain_from (fat (set_disk dev1 st_b)) (idx_first_data_blk e1) [])
      by exact Hchain.
    assert (A5 : Z.of_nat (length [idx_first_data_blk e1])
                 < amt_data_blks (superblock (set_disk dev1 st_b))).
    { cbn [length]. change (superblock (set_disk dev1 st_b)) with (superblock st). lia. }
    assert (A6 : Forall (data_block_ok (set_disk dev1 st_b)) [idx_first_data_blk e1]).
    { constructor; [|constructor]. unfold data_block_ok, data_block.
      cbn [idx_first_data_blk e1 set_size_file]. fold k.
      change (superblock (set_disk dev1 st_b)) with (superblock st).
      change (disk (set_disk dev1 st_b)) with dev1.
      split; [lia|]. exists data. split; [exact Hblk1 | exact Hdata]. }
    assert (A7 : size_file e1
                 <= Z.of_nat (length (file_content (set_disk dev1 st_b)
                                        [idx_first_data_blk e1]))).
    { cbn [idx_first_data_blk e1 set_size_file size_file]. fold k.
      rewrite Hcontent1. lia. }
    rewrite (fs_read_chain fd count out (set_disk dev1 st_b) d e1 [] Hm Hwf Hopen He1
               A1 (conj (proj1 Hcount) Hout) A2 A3 A4 A5 A6 A7).
    cbn [idx_first_data_blk e1 set_size_file size_file]. fold k o.
    rewrite Hcontent1.
    replace (Z.min count (Z.max s (o + n) - o)) with count by lia.
    f_equal. f_equal. f_equal. f_equal. unfold slice, data.
    rewrite drop_app_length' by (rewrite length_take; lia).
    rewrite take_app_le by (rewrite length_take; lia).
    rewrite take_take. f_equal. lia.
Qed.

(** ** More runs of the code *)

(** A decidable proposition, by running its decision procedure. *)
Ltac by_computation := refine (bool_decide_unpack _ _); vm_compute; exact I.

Lemma no_file_check (dir : list struct_root_dir_entry) (s : list Z) :
  Forall (fun e => name_of (filename e) <> Some s) dir -> no_file dir s.
Proof. intros H j e' He'. exact (Forall_lookup_1 _ _ _ _ H He'). Qed.


Lemma dir_wf_fresh_file_state : dir_wf (root_directory fresh_file_state).
Proof. split; [vm_compute; reflexivity | by_computation]. Qed.

Lemma name_a_first (st : fs_state) (e : struct_root_dir_entry) :
  root_directory st !! 0%nat = Some e ->
  name_of (filename e) = Some [97] ->
  holds_name (root_directory st) [97] 0 e.
Proof. intros H1 H2. split; [exact H1|]. split; [exact H2|]. intros j e' Hj. lia. Qed.

Lemma fs_create_existing_name_witness :
  fs_create name_a fresh_file_state = Done (fresh_file_state, -1).
Proof.
  apply (fs_create_existing_name name_a [97] fresh_file_state 0
           (dir_entry name_a 0 FAT_EOC)).
  - exact dir_wf_fresh_file_state.
  - reflexivity.
  - cbn [length]. lia.
  - vm_compute. reflexivity.
  - reflexivity.
Defined.

Lemma fs_create_directory_full_witness :
  num_files_root_dir full_directory_state = 0
  /\ fs_create [122; 122; 0] full_directory_state = Fault.
Proof.
  split; [vm_compute; reflexivity|].
  apply (fs_create_directory_full [122; 122; 0] [122; 122] full_directory_state).
  - vm_compute. discriminate.
  - vm_compute. reflexivity.
  - split; [vm_compute; reflexivity | by_computation].
  - reflexivity.
  - cbn [length]. lia.
  - apply no_file_check. by_computation.
  - apply no_file_check. by_computation.
Defined.

Lemma missing_file_refused_witness :
  fs_open name_b fresh_file_state = Done (fresh_file_state, -1)
  /\ fs_delete 1 name_b fresh_file_state = Done (fresh_file_state, -1).
Proof.
  apply (missing_file_refused 1 name_b [98] fresh_file_state).
  - exact dir_wf_fresh_file_state.
  - reflexivity.
  - cbn [length]. lia.
  - apply no_file_check. by_computation.
Defined.

Lemma dir_wf_created_file_state : dir_wf (root_directory created_file_state).
Proof. split; [vm_compute; reflexivity | by_computation]. Qed.


Lemma fs_open_then_close_witness :
  let d := {| idx_file_root_dir := Z.of_nat 0;
              file_descriptor := Z.of_nat 0 + 1; file_offset := 0 |} in
  let st1 := set_num_open_fds (num_open_fds created_file_state + 1)
               (set_FD (<[0%nat := d]> (FD created_file_state)) created_file_state) in
  fs_open name_a created_file_state = Done (st1, Z.of_nat 0 + 1)
  /\ 1 <= Z.of_nat 0 + 1 <= 32
  /\ fs_close (Z.of_nat 0 + 1) st1 = Done (created_file_state, 0).
Proof.
  apply (fs_open_then_close name_a [97] created_file_state 0 0
           (dir_entry name_a 0 FAT_EOC)).
  - vm_compute. discriminate.
  - vm_compute. reflexivity.
  - exact dir_wf_created_file_state.
  - reflexivity.
  - cbn [length]. lia.
  - apply name_a_first; vm_compute; reflexivity.
  - apply handles_wf_check; vm_compute; reflexivity.
  - split; [vm_compute; reflexivity|]. intros j d Hj. lia.
Defined.

Lemma fs_delete_open_file_witness :
  fs_delete 1 name_a fresh_file_state = Done (fresh_file_state, -1).
Proof.
  apply (fs_delete_open_file 1 name_a [97] fresh_file_state 0
           (dir_entry name_a 0 FAT_EOC) 1 handle_1).
  - exact dir_wf_fresh_file_state.
  - reflexivity.
  - cbn [length]. lia.
  - apply name_a_first; vm_compute; reflexivity.
  - exact fresh_file_state_open.
  - reflexivity.
Defined.

Lemma fs_delete_frees_chain_witness :
  let st := closed_hi_state in
  let e := dir_entry name_a 2 1 in
  let f' := foldl fat_clear (fat st) [1] in
  let dir' := <[0%nat := deleted_entry e]> (root_directory st) in
  let nf := num_blks_fat (superblock st) in
  fs_delete 1 name_a st
  = Done (set_disk
            (block_write (flush_fat (take (Z.to_nat nf) f') 1 (disk st)) (1 + nf)
               (serialize_root_directory dir'))
            (set_root_directory dir'
               (set_num_avail_data_blks
                  (num_avail_data_blks st + Z.of_nat (length [1] - 1))
                  (set_fat f' st))), 0)
  /\ Forall (fun c => fat_get f' (c / NUM_ENTRIES_FAT_BLK) (c mod NUM_ENTRIES_FAT_BLK)
                      = Done 0) [1]
  /\ name_of (filename (deleted_entry e)) = Some [].
Proof.
  apply (fs_delete_frees_chain 1 name_a [97] closed_hi_state 0 (dir_entry name_a 2 1) [1]).
  - vm_compute. discriminate.
  - split; [vm_compute; reflexivity | by_computation].
  - reflexivity.
  - cbn [length]. lia.
  - apply name_a_first; vm_compute; reflexivity.
  - vm_compute. lia.
  - apply (proj1 (Forall_lookup _ _)). by_computation.
  - split; [vm_compute; discriminate|]. split; [reflexivity|]. vm_compute. reflexivity.
  - apply NoDup_singleton.
  - cbn [length]. lia.
  - vm_compute. lia.
Defined.

Lemma unopened_descriptor_refused_witness :
  fs_lseek 5 0 mounted_1_2 = Done (mounted_1_2, -1)
  /\ fs_read 5 (Some [0]) 1 mounted_1_2 = Done (mounted_1_2, -1, Some [0])
  /\ fs_write 1 5 (Some [0]) 1 mounted_1_2 = Done (mounted_1_2, -1).
Proof.
  apply (unopened_descriptor_refused 1 5 0 1 (Some [0]) mounted_1_2).
  - apply handles_wf_check; vm_compute; reflexivity.
  - discriminate.
  - intros d (_ & Hd & Hdesc). vm_compute in Hd. inversion Hd; subst.
    discriminate Hdesc.
Defined.

Lemma descriptor_zero_reads_before_directory_witness :
  fs_lseek 0 0 mounted_1_2 = Fault
  /\ fs_read 0 (Some [0]) 1 mounted_1_2 = Fault
  /\ fs_write 1 0 (Some [0]) 1 mounted_1_2 = Fault.
Proof.
  apply (descriptor_zero_reads_before_directory 1 0 1 [0] mounted_1_2 0).
  - vm_compute. discriminate.
  - split; [vm_compute; reflexivity|]. intros j d Hj. lia.
  - lia.
Defined.



Lemma valid_disk_image_1_2 : valid_disk image_1_2 (superblock_block 1 2).
Proof.
  unfold valid_disk. repeat split; try (vm_compute; reflexivity);
    vm_compute; discriminate.
Qed.

Lemma fs_mount_umount_mount_witness :
  fs_mount (Some image_1_2) initial_state
  = (mounted_state image_1_2 (superblock_block 1 2) initial_state, 0)
  /\ fs_umount (mounted_state image_1_2 (superblock_block 1 2) initial_state)
     = (unmounted_state initial_state, 0)
  /\ fs_mount (Some image_1_2) (unmounted_state initial_state)
     = (mounted_state image_1_2 (superblock_block 1 2) initial_state, 0).
Proof.
  apply (fs_mount_umount_mount image_1_2 (superblock_block 1 2) initial_state).
  - reflexivity.
  - vm_compute. discriminate.
  - exact valid_disk_image_1_2.
Defined.

Lemma fs_umount_waits_for_close_witness :
  fs_umount fresh_file_state = (fresh_file_state, -1)
  /\ exists st2,
       fs_close 1 fresh_file_state = Done (st2, 0)
       /\ num_open_fds st2 = 0
       /\ fs_umount st2 = (unmounted_state st2, 0).
Proof.
  eapply (fs_umount_waits_for_close name_a _ created_file_state fresh_file_state 1).
  - vm_compute. discriminate.
  - vm_compute. reflexivity.
  - vm_compute. reflexivity.
  - apply handles_wf_check; vm_compute; reflexivity.
  - vm_compute. reflexivity.
  - discriminate.
Defined.

Lemma layouts_read_back_witness :
  let dir := map (fun k => dir_entry (file_name k) 0 FAT_EOC) (seq 0 128) in
  parse_fat_block (serialize_fat_block chained_fat_block) = chained_fat_block
  /\ parse_root_directory (serialize_root_directory dir) = dir.
Proof.
  apply (layouts_read_back chained_fat_block
           (map (fun k => dir_entry (file_name k) 0 FAT_EOC) (seq 0 128))).
  - vm_compute. reflexivity.
  - by_computation.
  - vm_compute. reflexivity.
  - unfold entry_ok. by_computation.
Defined.

Lemma created_file_survives_remount_witness :
  let dir' := <[0%nat := new_entry [97] clean_root_dir_entry]>
                (root_directory mounted_1_2) in
  exists st1 img1 st3,
    fs_create name_a mounted_1_2 = Done (st1, 0)
    /\ disk st1 = Some img1
    /\ fs_umount st1 = (unmounted_state st1, 0)
    /\ fs_mount (Some img1) (unmounted_state st1) = (st3, 0)
    /\ root_directory st3 = dir'
    /\ holds_name (root_directory st3) [97] 0 (new_entry [97] clean_root_dir_entry).
Proof.
  apply (created_file_survives_remount name_a [97] image_1_2 (superblock_block 1 2)
           mounted_1_2 0 clean_root_dir_entry).
  - vm_compute. reflexivity.
  - exact valid_disk_image_1_2.
  - vm_compute. reflexivity.
  - vm_compute. reflexivity.
  - vm_compute. discriminate.
  - vm_compute. discriminate.
  - vm_compute. reflexivity.
  - vm_compute. reflexivity.
  - unfold entry_ok. by_computation.
  - reflexivity.
  - cbn [length]. lia.
  - apply no_file_check. by_computation.
  - split; [vm_compute; reflexivity|]. split; [reflexivity|]. intros j e' Hj. lia.
Defined.


Lemma fs_ls_lists_files_witness :
  fs_ls hi_state = Done (("FS Ls:" +:+ nl) +:+ listing (root_directory hi_state), 0)
  /\ ("FS Ls:" +:+ nl) +:+ listing (root_directory hi_state)
     = "FS Ls:" +:+ nl +:+ "file: a, size: 2, data_blk: 1" +:+ nl.
Proof.
  split; [|vm_compute; reflexivity].
  apply (proj2 (fs_ls_lists_files hi_state)).
  - vm_compute. discriminate.
  - vm_compute. reflexivity.
  - apply Forall_lookup_2. intros i e He.
    destruct (name_of (filename e)) as [s|] eqn:Hs; [eauto|exfalso].
    revert i e He Hs. apply (proj1 (Forall_lookup
      (fun e => name_of (filename e) = None -> False) _)).
    by_computation.
Defined.



Lemma file_count_only_grows_witness :
  num_files_root_dir created_file_state
  = num_files_root_dir mounted_1_2 + (if 0 =? 0 then 1 else 0).
Proof.
  destruct (file_count_only_grows mounted_1_2) as (_ & _ & Hcreate & _).
  apply (Hcreate name_a created_file_state 0). vm_compute. reflexivity.
Defined.

Lemma handle_calls_leave_the_disk_witness :
  fresh_file_state
  = set_num_open_fds (num_open_fds fresh_file_state)
      (set_FD (FD fresh_file_state) created_file_state).
Proof.
  destruct (handle_calls_leave_the_disk created_file_state) as (Hopen & _).
  apply (Hopen name_a fresh_file_state 1). vm_compute. reflexivity.
Defined.

Lemma fs_write_nothing_to_write_witness :
  fs_write 1 1 (Some []) 0 fresh_file_state
  = Done (set_disk
            (flush_fat (take (Z.to_nat (num_blks_fat (superblock fresh_file_state)))
                          (fat fresh_file_state)) 1
               (block_write (disk fresh_file_state)
                  (root_dir_blk_idx (superblock fresh_file_state))
                  (serialize_root_directory (root_directory fresh_file_state))))
            fresh_file_state, 0).
Proof.
  apply (fs_write_nothing_to_write 1 1 0 [] fresh_file_state handle_1
           (dir_entry name_a 0 FAT_EOC)).
  - vm_compute. discriminate.
  - apply handles_wf_check; vm_compute; reflexivity.
  - exact fresh_file_state_open.
  - reflexivity.
  - vm_compute. reflexivity.
  - reflexivity.
  - reflexivity.
  - vm_compute. discriminate.
  - vm_compute. lia.
  - lia.
  - left. reflexivity.
  - lia.
Defined.

Lemma fs_open_table_full_witness :
  num_open_fds full_table_state = 31
  /\ fs_open name_a full_table_state = Fault.
Proof.
  split; [vm_compute; reflexivity|].
  apply (fs_open_table_full name_a [97] full_table_state 0 (dir_entry name_a 0 FAT_EOC)).
  - vm_compute. discriminate.
  - vm_compute. reflexivity.
  - split; [vm_compute; reflexivity | by_computation].
  - reflexivity.
  - cbn [length]. lia.
  - apply name_a_first; vm_compute; reflexivity.
  - apply (proj1 (Forall_lookup _ _)). by_computation.
Defined.

Lemma hi_state_one_block :
  one_block_file hi_state 1 handle_1 (dir_entry name_a 2 1)
    (72 :: 105 :: replicate 4094 0).
Proof.
  unfold one_block_file.
  repeat lazymatch goal with
         | |- _ /\ _ => split
         | |- handles_wf _ => exact hi_state_handles
         | |- open_handle _ _ _ => exact hi_state_open
         end;
    try (vm_compute; reflexivity); try (vm_compute; discriminate);
    try (vm_compute; lia).
Qed.

Lemma fs_lseek_then_read_witness :
  let eff := Z.min 16 (size_file (dir_entry name_a 2 1) - 1) in
  let st1 := set_FD (<[Z.to_nat (1 - 1) := set_file_offset 1 handle_1]> (FD hi_state))
               hi_state in
  (fs_lseek 1 1 hi_state = Done (st1, 0)
   /\ fs_read 1 (Some (replicate 16 0)) 16 st1
      = Done (set_FD (<[Z.to_nat (1 - 1) := set_file_offset (1 + eff) handle_1]>
                        (FD hi_state)) hi_state,
              eff,
              Some (slice (file_content hi_state
                             (idx_first_data_blk (dir_entry name_a 2 1) :: []))
                      1 eff
                    ++ drop (Z.to_nat eff) (replicate 16 0))))
  /\ slice (file_content hi_state (idx_first_data_blk (dir_entry name_a 2 1) :: []))
       1 eff = [105].
Proof.
  split; [|vm_compute; reflexivity].
  apply (fs_lseek_then_read 1 1 16 (replicate 16 0) hi_state handle_1
           (dir_entry name_a 2 1) []).
  - vm_compute. discriminate.
  - exact hi_state_handles.
  - exact hi_state_open.
  - vm_compute. reflexivity.
  - cbn [size_file dir_entry]. lia.
  - cbn [size_file dir_entry]. lia.
  - rewrite length_replicate. lia.
  - vm_compute. reflexivity.
  - vm_compute. discriminate.
  - vm_compute. reflexivity.
  - vm_compute. reflexivity.
  - constructor; [|constructor].
    split; [vm_compute; split; [discriminate|reflexivity]|].
    eexists. split; vm_compute; reflexivity.
  - vm_compute. discriminate.
Defined.

Lemma write_within_block_witness :
  let o := file_offset handle_1 in
  let data := take (Z.to_nat o) (72 :: 105 :: replicate 4094 0)
              ++ take (Z.to_nat 3) [79; 75; 33]
              ++ drop (Z.to_nat (o + 3)) (72 :: 105 :: replicate 4094 0) in
  exists st1,
    fs_write 4 1 (Some [79; 75; 33]) 3 hi_state = Done (st1, 3)
    /\ data_block st1 (idx_first_data_blk (dir_entry name_a 2 1)) = Some data
    /\ fs_stat 1 st1 = Done (Z.max (size_file (dir_entry name_a 2 1)) (o + 3))
    /\ num_avail_data_blks st1 = num_avail_data_blks hi_state
    /\ fat st1 = fat hi_state
    /\ forall (count : Z) (out : list Z),
         0 <= count <= 3 ->
         count <= Z.of_nat (length out) ->
         fs_read 1 (Some out) count st1
         = Done (set_FD (<[Z.to_nat (1 - 1) := set_file_offset (o + count) handle_1]>
                           (FD st1)) st1,
                 count,
                 Some (take (Z.to_nat count) [79; 75; 33] ++ drop (Z.to_nat count) out)).
Proof.
  apply (write_within_block 4 1 3 [79; 75; 33] hi_state handle_1
           (dir_entry name_a 2 1) (72 :: 105 :: replicate 4094 0)).
  - exact hi_state_one_block.
  - lia.
  - cbn [file_offset handle_1]. lia.
  - cbn [length]. lia.
  - lia.
Defined.
